(** * School management API: the School, Classroom and Student managers

    A shallow embedding of
      - the School manager (managers/entities/school/School.manager.js),
      - the Classroom manager (class [Classroom]),
      - the Student manager (managers/entities/student/Student.manager.js),
      - the [pre('save')] hook of the student mongoose model,
      - the [__role] and [__schoolAccess] middlewares (mws/),
      - the [isFull], [availableSeats] and [age] virtuals of the classroom
        and student models,
      - the [academicYear] and [role] custom validators
        (managers/_common/schema.validators.js),
    and the properties of their authorisation, referential-integrity,
    capacity and pagination rules.

    Conventions of the embedding
      - the three mongoose collections are finite maps from the document
        id (the hexadecimal text of its ObjectId) to the document;
      - every manager method is a function of the database, of the request
        parameters and of what the outside world supplies during the call
        (the id given to a created document, the clock); it either returns
        a response object together with the database after the call, or
        throws;
      - request parameters are JavaScript values: [undefined], [null], a
        string, or an ObjectId taken from a document (an object, hence
        always truthy);
      - the validation engine, the regular-expression engine and the
        mongoose schema validation are collaborators, passed as functions;
      - [populate] replaces a reference by the referenced document, or by
        [null] when there is none; a response carries the documents the
        query finds, without what [populate] attaches to them;
        [sort], [lean], [toJSON] and the
        projections of [populate] and [select] do not change which
        documents are read and are left out. Cast errors for malformed ids
        and unique-index violations are raised by the database, not by this
        code, and are not part of the model;
      - a capacity is a JavaScript number, an integer here; the properties
        of the capacity checks are stated through the comparison the code
        makes (fewer active students than the capacity), the form that
        holds of a capacity with a fraction as well;
      - [page] and [limit] are the integers [parseInt] yields; the page
        properties are stated below 2^53, where the arithmetic of the
        code is exact, and for the pages of one state of the database,
        whatever order [sort] gives them. *)

From stdpp Require Import gmap strings list fin_maps pretty.
From Stdlib Require Import ZArith.

Open Scope string_scope.
Open Scope Z_scope.

(** ** JavaScript values *)

Inductive jsval :=
| JUndefined
| JNull
| JStr (s : string)
| JObjectId (hex : string).

Global Instance jsval_eq_dec : EqDecision jsval.
Proof. solve_decision. Defined.

(** [if (v)] *)
Definition truthy (v : jsval) : bool :=
  match v with
  | JUndefined | JNull => false
  | JStr s => bool_decide (s ≠ "")
  | JObjectId _ => true
  end.

(** [v.toString()], for a [v] that is a string or an ObjectId *)
Definition toString (v : jsval) : string :=
  match v with
  | JStr s | JObjectId s => s
  | JUndefined | JNull => ""
  end.

(** [v !== undefined] *)
Definition defined (v : jsval) : bool :=
  match v with JUndefined => false | _ => true end.

(** [a || b] *)
Definition js_or (a b : jsval) : jsval := if truthy a then a else b.

(** A reference field of a document: [null] or the id it holds. *)
Definition ref_val (r : option string) : jsval :=
  match r with Some i => JObjectId i | None => JNull end.

(** [v ? v.toString() : null]; also what an ObjectId field holds after it
    is assigned [v || null]. *)
Definition toString_or_null (v : jsval) : option string :=
  if truthy v then Some (toString v) else None.

(** [v !== s] for a string [s]: only a string can be strictly equal to it. *)
Definition strict_neq (v : jsval) (s : option string) : bool :=
  match v, s with
  | JStr t, Some s => bool_decide (t ≠ s)
  | _, _ => true
  end.

(** A query condition [{ field: v }] on a reference field holding [id]. *)
Definition ref_matches (id : option string) (v : jsval) : bool :=
  match id with
  | Some i => bool_decide (toString_or_null v = Some i)
  | None => false
  end.

(** ** The decoded token *)

Record Token := {
  role : string;
  tok_schoolId : jsval;
  userId : jsval
}.

(** ** Documents *)

Record SchoolDoc := {
  sch_name : jsval;
  sch_address : jsval;
  sch_phone : jsval;
  sch_email : jsval;
  sch_principal : jsval;
  sch_establishedYear : option Z;
  sch_isActive : bool;
  sch_createdBy : jsval
}.

Record ClassroomDoc := {
  cls_name : jsval;
  cls_schoolId : string;
  cls_capacity : Z;
  cls_grade : jsval;
  cls_section : jsval;
  cls_resources : list string;
  cls_academicYear : jsval;
  cls_isActive : bool;
  cls_createdBy : jsval
}.

Record TransferRecord := {
  fromSchool : string;
  toSchool : string;
  fromClassroom : option string;
  toClassroom : option string;
  date : Z;
  reason : jsval
}.

Record StudentDoc := {
  stu_firstName : jsval;
  stu_lastName : jsval;
  stu_email : jsval;
  stu_dateOfBirth : jsval;
  stu_gender : jsval;
  stu_schoolId : string;
  stu_classroomId : option string;
  stu_enrollmentDate : Z;
  stu_guardianName : jsval;
  stu_guardianPhone : jsval;
  stu_guardianEmail : jsval;
  stu_address : jsval;
  stu_isActive : bool;
  stu_transferHistory : list TransferRecord;
  stu_createdBy : jsval
}.

(** ** The database: [this.mongomodels] *)

Record Store := {
  schools : gmap string SchoolDoc;
  classrooms : gmap string ClassroomDoc;
  students : gmap string StudentDoc
}.

Definition empty_store : Store :=
  {| schools := ∅; classrooms := ∅; students := ∅ |}.

Definition with_schools (st : Store) (m : gmap string SchoolDoc) : Store :=
  {| schools := m; classrooms := classrooms st; students := students st |}.
Definition with_classrooms (st : Store) (m : gmap string ClassroomDoc) : Store :=
  {| schools := schools st; classrooms := m; students := students st |}.
Definition with_students (st : Store) (m : gmap string StudentDoc) : Store :=
  {| schools := schools st; classrooms := classrooms st; students := m |}.

(** What the world supplies during one call: the [_id] the database gives
    to a document created by the call, and [new Date()]. *)
Record World := {
  fresh_id : string;
  now : Z
}.

(** [Model.findById(id)]: [findById(undefined)] and [findById(null)] find
    nothing. *)
Definition findById {D} (m : gmap string D) (id : jsval) : option D :=
  match id with
  | JUndefined | JNull => None
  | JStr s | JObjectId s => m !! s
  end.

(** [Model.countDocuments(query)] *)
Definition countDocuments {D} (m : gmap string D) (query : D → bool) : Z :=
  Z.of_nat (length (filter (λ kv, query kv.2 = true) (map_to_list m))).

(** [Model.find(query)], with the ids of the documents *)
Definition find {D} (m : gmap string D) (query : string → D → bool)
  : list (string * D) :=
  filter (λ kv, query kv.1 kv.2 = true) (map_to_list m).

(** [Model.findOne(query)] is used for existence only. *)
Definition findOne {D} (m : gmap string D) (query : string → D → bool)
  : option (string * D) :=
  head (find m query).

(** ** Responses *)

Record Pagination := {
  page : Z;
  limit : Z;
  total : Z;
  pages : Z
}.

Record TransferSummary := {
  from_school : jsval;
  from_classroom : jsval;
  to_school : jsval;
  to_classroom : jsval
}.

Inductive Response :=
| Error (error : string) (code : option Z)
| ErrorSchoolInUse (error : string) (activeClassrooms activeStudents : Z)
| ErrorClassroomInUse (error : string) (activeStudents : Z)
| Errors (errors : list string)
| OneSchool (message : option string) (id : string) (school : SchoolDoc)
    (counts : option (Z * Z))
| ManySchools (items : list (string * SchoolDoc)) (pagination : Pagination)
| OneClassroom (message : option string) (id : string)
    (classroom : ClassroomDoc) (counts : option (Z * Z))
| ManyClassrooms (items : list (string * ClassroomDoc * Z * Z))
    (pagination : Pagination)
| OneStudent (message : option string) (id : string) (student : StudentDoc)
    (transfer : option TransferSummary)
| ManyStudents (items : list (string * StudentDoc)) (pagination : Pagination).

(** The response is an error object: it has an [error] or [errors] field. *)
Definition is_error (r : Response) : bool :=
  match r with
  | Error _ _ | ErrorSchoolInUse _ _ _ | ErrorClassroomInUse _ _ | Errors _ =>
      true
  | _ => false
  end.

(** The [code] field of the response, when it has one. *)
Definition code_of (r : Response) : option Z :=
  match r with Error _ c => c | _ => None end.

(** ** Control flow of a method body: go on, [return], or [throw] *)

Inductive Flow (A : Type) :=
| Go (a : A)
| Return (r : Response)
| Throw (exn : string).
Arguments Go {A} a.
Arguments Return {A} r.
Arguments Throw {A} exn.

Definition flow_bind {A B} (x : Flow A) (k : A → Flow B) : Flow B :=
  match x with
  | Go a => k a
  | Return r => Return r
  | Throw e => Throw e
  end.

Notation "x ←? e ; k" := (flow_bind e (λ x, k))
  (at level 100, e at next level, k at level 200, right associativity).
Notation "e ;? k" := (flow_bind e (λ _, k))
  (at level 100, k at level 200, right associativity).

(** [if (c) return r;] *)
Definition return_if (c : bool) (r : Response) : Flow unit :=
  if c then Return r else Go tt.

(** [const x = o; if (!x) return r;] *)
Definition required {A} (o : option A) (r : Response) : Flow A :=
  match o with Some a => Go a | None => Return r end.

(** [const e = check(...); if (e) return e;] *)
Definition return_some (o : option Response) : Flow unit :=
  match o with Some r => Return r | None => Go tt end.

(** [const result = validate(...); if (result) return { errors: result };] *)
Definition return_errors (result : option (list string)) : Flow unit :=
  match result with Some errors => Return (Errors errors) | None => Go tt end.

(** The result of a call. A call that returns an error object or throws has
    written nothing. *)
Inductive Outcome :=
| Returns (r : Response) (st : Store)
| Throws (exn : string).

Definition run (st : Store) (body : Flow (Response * Store)) : Outcome :=
  match body with
  | Go (r, st') => Returns r st'
  | Return r => Returns r st
  | Throw e => Throws e
  end.

(** The call returned a success payload. *)
Definition succeeded (o : Outcome) : bool :=
  match o with
  | Returns r _ => negb (is_error r)
  | Throws _ => false
  end.

(** [Model.create(doc)]: the database picks the id; an id already in use
    is a duplicate-key error. *)
Definition create {D} (w : World) (m : gmap string D) (d : D)
  : Flow (gmap string D) :=
  match m !! fresh_id w with
  | None => Go (<[fresh_id w := d]> m)
  | Some _ => Throw "MongoServerError: E11000 duplicate key"
  end.

(** ** Pagination of the list endpoints *)

(** [Math.max(1, parseInt(page) || 1)]; [None] is a value that [parseInt]
    maps to [NaN], the default value of the parameter is 1. *)
Definition pageNum (page : option Z) : Z :=
  Z.max 1 (match page with Some p => if p =? 0 then 1 else p | None => 1 end).

(** [Math.min(100, Math.max(1, parseInt(limit) || 10))] *)
Definition limitNum (limit : option Z) : Z :=
  Z.min 100
    (Z.max 1 (match limit with Some l => if l =? 0 then 10 else l | None => 10 end)).

(** [Math.ceil(total / limitNum)], for [limitNum > 0] *)
Definition ceil_div (a b : Z) : Z := (a + b - 1) / b.

(** [.skip(skip).limit(limitNum)] *)
Definition paginate {A} (page limit : option Z) (l : list A) : list A :=
  take (Z.to_nat (limitNum limit))
    (drop (Z.to_nat ((pageNum page - 1) * limitNum limit)) l).

Definition pagination_of (page limit : option Z) (total : Z) : Pagination :=
  {| page := pageNum page; limit := limitNum limit; total := total;
     pages := ceil_div total (limitNum limit) |}.

(** ** Collaborators *)

Record SchoolData := {
  sd_name : jsval; sd_address : jsval; sd_phone : jsval; sd_email : jsval;
  sd_principal : jsval; sd_establishedYear : option Z
}.

Record ClassroomData := {
  cd_name : jsval; cd_capacity : option Z; cd_grade : jsval;
  cd_section : jsval; cd_resources : option (list string);
  cd_academicYear : jsval
}.

Record StudentData := {
  st_firstName : jsval; st_lastName : jsval; st_email : jsval;
  st_dateOfBirth : jsval; st_gender : jsval; st_guardianName : jsval;
  st_guardianPhone : jsval; st_guardianEmail : jsval; st_address : jsval
}.

Record Collaborators := {
  (** [this.validators.school.createSchool] *)
  validators_school_createSchool : SchoolData → option (list string);
  (** [this.validators.classroom.createClassroom] *)
  validators_classroom_createClassroom : ClassroomData → option (list string);
  (** [this.validators.student.createStudent] *)
  validators_student_createStudent : StudentData → option (list string);
  (** [new RegExp(source, 'i')] tested on a field value *)
  regex_i : string → jsval → bool;
  (** the messages of the mongoose [ValidationError] of a classroom
      document, empty when the document is valid *)
  classroom_validation_errors : ClassroomDoc → list string
}.

(** [`${v}`] *)
Definition template (v : jsval) : string :=
  match v with
  | JUndefined => "undefined"
  | JNull => "null"
  | JStr s | JObjectId s => s
  end.

(** [token.p], which throws when there is no token *)
Definition prop {A} (token : option Token) (p : Token → A) : Flow A :=
  match token with
  | Some t => Go (p t)
  | None => Throw "TypeError: Cannot read properties of undefined"
  end.

(** [if (v !== undefined) doc.field = v] *)
Definition assign (v old : jsval) : jsval := if defined v then v else old.
Definition assign_opt {A} (v : option A) (old : A) : A := default old v.

Definition unauthenticated : Response :=
  Error "Authentication required" (Some 401).

(** ** School manager *)

Module School.
Section Manager.
Variable this : Collaborators.

Definition _checkSuperadminAccess (token : option Token) : option Response :=
  match token with
  | None => Some unauthenticated
  | Some t =>
      if bool_decide (role t ≠ "superadmin")
      then Some (Error "Access denied. Only superadmins can manage schools."
                   (Some 403))
      else None
  end.

(** The new document; [isActive] takes its schema default. *)
Definition new_school (d : SchoolData) (createdBy : jsval) : SchoolDoc :=
  {| sch_name := sd_name d; sch_address := sd_address d;
     sch_phone := sd_phone d; sch_email := sd_email d;
     sch_principal := sd_principal d;
     sch_establishedYear := sd_establishedYear d;
     sch_isActive := true; sch_createdBy := createdBy |}.

Definition createSchool (w : World) (st : Store)
    (schoolData : SchoolData) (__longToken : option Token) : Outcome :=
  run st (
    return_some (_checkSuperadminAccess __longToken) ;?
    return_errors (validators_school_createSchool this schoolData) ;?
    let name := sd_name schoolData in
    let existingSchool :=
      findOne (schools st) (λ _ s,
        regex_i this ("^" ++ template name ++ "$") (sch_name s)
        && sch_isActive s) in
    return_if (bool_decide (is_Some existingSchool))
      (Error "A school with this name already exists" None) ;?
    createdBy ←? prop __longToken userId ;
    let doc := new_school schoolData createdBy in
    m ←? create w (schools st) doc ;
    Go (OneSchool None (fresh_id w) doc None, with_schools st m)).

(** [isActive] is the value of [isActive === 'true' || isActive === true]
    when the parameter is defined. *)
Definition getSchools (st : Store) (page limit : option Z) (search : jsval)
    (isActive : option bool) (__longToken : option Token) : Outcome :=
  run st (
    return_some (_checkSuperadminAccess __longToken) ;?
    let query := λ (_ : string) (s : SchoolDoc),
      match isActive with
      | Some b => bool_decide (sch_isActive s = b)
      | None => true
      end
      && (if truthy search then regex_i this (toString search) (sch_name s)
          else true) in
    let found := find (schools st) query in
    Go (ManySchools (paginate page limit found)
          (pagination_of page limit (Z.of_nat (length found))), st)).

Definition getSchool (st : Store) (schoolId : jsval)
    (__longToken : option Token) : Outcome :=
  run st (
    return_some (_checkSuperadminAccess __longToken) ;?
    return_if (negb (truthy schoolId)) (Error "School ID is required" None) ;?
    school ←? required (findById (schools st) schoolId)
      (Error "School not found" None) ;
    let classroomCount :=
      countDocuments (classrooms st) (λ c,
        bool_decide (cls_schoolId c = toString schoolId) && cls_isActive c) in
    let studentCount :=
      countDocuments (students st) (λ s,
        bool_decide (stu_schoolId s = toString schoolId) && stu_isActive s) in
    Go (OneSchool None (toString schoolId) school
          (Some (classroomCount, studentCount)), st)).

(** The assignments of [updateSchool]. *)
Definition update_fields (school : SchoolDoc) (d : SchoolData)
    (isActive : option bool) : SchoolDoc :=
  {| sch_name := assign (sd_name d) (sch_name school);
     sch_address := assign (sd_address d) (sch_address school);
     sch_phone := assign (sd_phone d) (sch_phone school);
     sch_email := assign (sd_email d) (sch_email school);
     sch_principal := assign (sd_principal d) (sch_principal school);
     sch_establishedYear :=
       match sd_establishedYear d with
       | Some y => Some y
       | None => sch_establishedYear school
       end;
     sch_isActive := assign_opt isActive (sch_isActive school);
     sch_createdBy := sch_createdBy school |}.

Definition updateSchool (st : Store) (schoolId : jsval) (d : SchoolData)
    (isActive : option bool) (__longToken : option Token) : Outcome :=
  run st (
    return_some (_checkSuperadminAccess __longToken) ;?
    return_if (negb (truthy schoolId)) (Error "School ID is required" None) ;?
    school ←? required (findById (schools st) schoolId)
      (Error "School not found" None) ;
    let name := sd_name d in
    (if truthy name && bool_decide (name ≠ sch_name school) then
       let existingSchool :=
         findOne (schools st) (λ id s,
           bool_decide (id ≠ toString schoolId)
           && regex_i this ("^" ++ template name ++ "$") (sch_name s)
           && sch_isActive s) in
       return_if (bool_decide (is_Some existingSchool))
         (Error "A school with this name already exists" None)
     else Go tt) ;?
    let school' := update_fields school d isActive in
    Go (OneSchool None (toString schoolId) school' None,
        with_schools st (<[toString schoolId := school']> (schools st)))).

(** [school.isActive = false] *)
Definition soft_deleted (school : SchoolDoc) : SchoolDoc :=
  {| sch_name := sch_name school; sch_address := sch_address school;
     sch_phone := sch_phone school; sch_email := sch_email school;
     sch_principal := sch_principal school;
     sch_establishedYear := sch_establishedYear school;
     sch_isActive := false; sch_createdBy := sch_createdBy school |}.

Definition deleteSchool (st : Store) (schoolId : jsval)
    (__longToken : option Token) : Outcome :=
  run st (
    return_some (_checkSuperadminAccess __longToken) ;?
    return_if (negb (truthy schoolId)) (Error "School ID is required" None) ;?
    school ←? required (findById (schools st) schoolId)
      (Error "School not found" None) ;
    return_if (negb (sch_isActive school))
      (Error "School is already inactive" None) ;?
    let activeClassrooms :=
      countDocuments (classrooms st) (λ c,
        bool_decide (cls_schoolId c = toString schoolId) && cls_isActive c) in
    let activeStudents :=
      countDocuments (students st) (λ s,
        bool_decide (stu_schoolId s = toString schoolId) && stu_isActive s) in
    return_if ((0 <? activeClassrooms) || (0 <? activeStudents))
      (ErrorSchoolInUse
         "Cannot delete school with active classrooms or students. Please deactivate or transfer them first."
         activeClassrooms activeStudents) ;?
    let school' := soft_deleted school in
    Go (OneSchool (Some "School deleted successfully") (toString schoolId)
          school' None,
        with_schools st (<[toString schoolId := school']> (schools st)))).

End Manager.
End School.

(** ** Classroom manager *)

Module Classroom.
Section Manager.
Variable this : Collaborators.

Definition _checkSchoolAccess (token : option Token) (schoolId : jsval)
  : option Response :=
  match token with
  | None => Some unauthenticated
  | Some t =>
      if bool_decide (role t = "superadmin") then None
      else if bool_decide (role t = "school_admin") then
        if negb (truthy schoolId) then None
        else
          let tokenSchoolId := toString_or_null (tok_schoolId t) in
          let requestedSchoolId := toString schoolId in
          if bool_decide (tokenSchoolId ≠ Some requestedSchoolId)
          then Some (Error
                 "Access denied. You can only access your assigned school."
                 (Some 403))
          else None
      else Some (Error "Access denied." (Some 403))
  end.

(** There is no test for a missing token here: [token.role] throws. *)
Definition _getEffectiveSchoolId (token : option Token)
    (requestedSchoolId : jsval) : Flow jsval :=
  r ←? prop token role ;
  if bool_decide (r = "superadmin") then Go requestedSchoolId
  else prop token tok_schoolId.

Definition studentCount (st : Store) (classroomId : jsval) : Z :=
  countDocuments (students st) (λ s,
    ref_matches (stu_classroomId s) classroomId && stu_isActive s).

(** The new document; [resources] defaults to the empty list and
    [isActive] takes its schema default. *)
Definition new_classroom (effectiveSchoolId : jsval) (d : ClassroomData)
    (capacity : Z) (createdBy : jsval) : ClassroomDoc :=
  {| cls_name := cd_name d; cls_schoolId := toString effectiveSchoolId;
     cls_capacity := capacity; cls_grade := cd_grade d;
     cls_section := cd_section d;
     cls_resources := default [] (cd_resources d);
     cls_academicYear := cd_academicYear d; cls_isActive := true;
     cls_createdBy := createdBy |}.

Definition createClassroom (w : World) (st : Store) (schoolId : jsval)
    (classroomData : ClassroomData) (__longToken : option Token) : Outcome :=
  run st (
    token ←? required __longToken unauthenticated ;
    (if bool_decide (role token = "school_admin") && truthy schoolId then
       let tokenSchoolId := toString_or_null (tok_schoolId token) in
       return_if (bool_decide (Some (toString schoolId) ≠ tokenSchoolId))
         (Error "Access denied. You can only access your assigned school."
            (Some 403))
     else Go tt) ;?
    effectiveSchoolId ←? _getEffectiveSchoolId __longToken schoolId ;
    return_some (_checkSchoolAccess __longToken effectiveSchoolId) ;?
    return_if (bool_decide (role token = "superadmin")
               && negb (truthy effectiveSchoolId))
      (Error "School ID is required for superadmin" None) ;?
    return_errors (validators_classroom_createClassroom this classroomData) ;?
    school ←? required (findById (schools st) effectiveSchoolId)
      (Error "School not found" None) ;
    return_if (negb (sch_isActive school))
      (Error "Cannot create classroom in an inactive school" None) ;?
    let name := cd_name classroomData in
    let academicYear := cd_academicYear classroomData in
    let existingClassroom :=
      findOne (classrooms st) (λ _ c,
        bool_decide (cls_schoolId c = toString effectiveSchoolId)
        && regex_i this ("^" ++ template name ++ "$") (cls_name c)
        && cls_isActive c
        && (if truthy academicYear
            then bool_decide (cls_academicYear c = academicYear)
            else true)) in
    return_if (bool_decide (is_Some existingClassroom))
      (Error ("A classroom with this name already exists in this school"
              ++ (if truthy academicYear
                  then " for the same academic year" else ""))
         None) ;?
    (* [create] inside [try]: a mongoose ValidationError is caught and
       returned, anything else is thrown again *)
    capacity ←? required (cd_capacity classroomData)
      (Errors ["Capacity is required"]) ;
    let doc :=
      new_classroom effectiveSchoolId classroomData capacity (userId token) in
    return_if (bool_decide (classroom_validation_errors this doc ≠ []))
      (Errors (classroom_validation_errors this doc)) ;?
    m ←? create w (classrooms st) doc ;
    Go (OneClassroom None (fresh_id w) doc None, with_classrooms st m)).

Definition getClassrooms (st : Store) (schoolId : jsval)
    (page limit : option Z) (search grade : jsval) (isActive : option bool)
    (academicYear : jsval) (__longToken : option Token) : Outcome :=
  run st (
    effectiveSchoolId ←? _getEffectiveSchoolId __longToken schoolId ;
    return_some (_checkSchoolAccess __longToken effectiveSchoolId) ;?
    r ←? prop __longToken role ;
    tokenSchool ←? prop __longToken tok_schoolId ;
    let query := λ (_ : string) (c : ClassroomDoc),
      (if bool_decide (r = "school_admin")
       then ref_matches (Some (cls_schoolId c)) tokenSchool
       else if truthy effectiveSchoolId
       then ref_matches (Some (cls_schoolId c)) effectiveSchoolId
       else true)
      && match isActive with
         | Some b => bool_decide (cls_isActive c = b)
         | None => true
         end
      && (if truthy search then regex_i this (toString search) (cls_name c)
          else true)
      && (if truthy grade then bool_decide (cls_grade c = grade) else true)
      && (if truthy academicYear
          then bool_decide (cls_academicYear c = academicYear) else true) in
    let found := find (classrooms st) query in
    let classroomsWithCount :=
      (λ kv : string * ClassroomDoc,
         let n := studentCount st (JObjectId kv.1) in
         (kv.1, kv.2, n, cls_capacity kv.2 - n))
      <$> paginate page limit found in
    Go (ManyClassrooms classroomsWithCount
          (pagination_of page limit (Z.of_nat (length found))), st)).

Definition getClassroom (st : Store) (classroomId : jsval)
    (__longToken : option Token) : Outcome :=
  run st (
    return_if (bool_decide (__longToken = None)) unauthenticated ;?
    return_if (negb (truthy classroomId))
      (Error "Classroom ID is required" None) ;?
    classroom ←? required (findById (classrooms st) classroomId)
      (Error "Classroom not found" None) ;
    (* [classroom.schoolId._id] of the populated school, which is [null]
       when the school document is missing *)
    (if bool_decide (is_Some (schools st !! cls_schoolId classroom))
     then Go tt
     else Throw "TypeError: Cannot read properties of null") ;?
    return_some
      (_checkSchoolAccess __longToken (JObjectId (cls_schoolId classroom))) ;?
    let n := studentCount st classroomId in
    Go (OneClassroom None (toString classroomId) classroom
          (Some (n, cls_capacity classroom - n)), st)).

(** The assignments of [updateClassroom]. *)
Definition update_fields (classroom : ClassroomDoc) (d : ClassroomData)
    (isActive : option bool) : ClassroomDoc :=
  {| cls_name := assign (cd_name d) (cls_name classroom);
     cls_schoolId := cls_schoolId classroom;
     cls_capacity := assign_opt (cd_capacity d) (cls_capacity classroom);
     cls_grade := assign (cd_grade d) (cls_grade classroom);
     cls_section := assign (cd_section d) (cls_section classroom);
     cls_resources := assign_opt (cd_resources d) (cls_resources classroom);
     cls_academicYear :=
       assign (cd_academicYear d) (cls_academicYear classroom);
     cls_isActive := assign_opt isActive (cls_isActive classroom);
     cls_createdBy := cls_createdBy classroom |}.

Definition updateClassroom (st : Store) (classroomId : jsval)
    (d : ClassroomData) (isActive : option bool)
    (__longToken : option Token) : Outcome :=
  run st (
    return_if (bool_decide (__longToken = None)) unauthenticated ;?
    return_if (negb (truthy classroomId))
      (Error "Classroom ID is required" None) ;?
    classroom ←? required (findById (classrooms st) classroomId)
      (Error "Classroom not found" None) ;
    return_some
      (_checkSchoolAccess __longToken (JObjectId (cls_schoolId classroom))) ;?
    (match cd_capacity d with
     | Some capacity =>
         if capacity <? cls_capacity classroom then
           let currentStudents := studentCount st classroomId in
           return_if (capacity <? currentStudents)
             (Error ("Cannot reduce capacity below current student count ("
                     ++ pretty currentStudents ++ ")") None)
         else Go tt
     | None => Go tt
     end) ;?
    let name := cd_name d in
    let academicYear := cd_academicYear d in
    (if truthy name && bool_decide (name ≠ cls_name classroom) then
       let year := js_or academicYear (cls_academicYear classroom) in
       let existingClassroom :=
         findOne (classrooms st) (λ id c,
           bool_decide (id ≠ toString classroomId)
           && bool_decide (cls_schoolId c = cls_schoolId classroom)
           && regex_i this ("^" ++ template name ++ "$") (cls_name c)
           && cls_isActive c
           && (if truthy year then bool_decide (cls_academicYear c = year)
               else true)) in
       return_if (bool_decide (is_Some existingClassroom))
         (Error "A classroom with this name already exists in this school"
            None)
     else Go tt) ;?
    let classroom' := update_fields classroom d isActive in
    Go (OneClassroom None (toString classroomId) classroom' None,
        with_classrooms st
          (<[toString classroomId := classroom']> (classrooms st)))).

(** [classroom.isActive = false] *)
Definition soft_deleted (classroom : ClassroomDoc) : ClassroomDoc :=
  {| cls_name := cls_name classroom;
     cls_schoolId := cls_schoolId classroom;
     cls_capacity := cls_capacity classroom;
     cls_grade := cls_grade classroom;
     cls_section := cls_section classroom;
     cls_resources := cls_resources classroom;
     cls_academicYear := cls_academicYear classroom;
     cls_isActive := false;
     cls_createdBy := cls_createdBy classroom |}.

Definition deleteClassroom (st : Store) (classroomId : jsval)
    (__longToken : option Token) : Outcome :=
  run st (
    return_if (bool_decide (__longToken = None)) unauthenticated ;?
    return_if (negb (truthy classroomId))
      (Error "Classroom ID is required" None) ;?
    classroom ←? required (findById (classrooms st) classroomId)
      (Error "Classroom not found" None) ;
    return_some
      (_checkSchoolAccess __longToken (JObjectId (cls_schoolId classroom))) ;?
    return_if (negb (cls_isActive classroom))
      (Error "Classroom is already inactive" None) ;?
    let activeStudents := studentCount st classroomId in
    return_if (0 <? activeStudents)
      (ErrorClassroomInUse
         "Cannot delete classroom with active students. Please transfer or remove students first."
         activeStudents) ;?
    let classroom' := soft_deleted classroom in
    Go (OneClassroom (Some "Classroom deleted successfully")
          (toString classroomId) classroom' None,
        with_classrooms st
          (<[toString classroomId := classroom']> (classrooms st)))).

End Manager.
End Classroom.

(** ** Student model: the [pre('save')] hook *)

(** [old] is the document as it was read ([None] for a new document), so
    [isModified('classroomId')] compares the two classroom references.
    Both sides of the school comparison are turned into the text of the
    id. *)
Definition student_pre_save (st : Store) (old : option StudentDoc)
    (doc : StudentDoc) : Flow unit :=
  match stu_classroomId doc with
  | Some c =>
      if bool_decide ((old ≫= stu_classroomId) ≠ Some c) then
        match classrooms st !! c with
        | None => Throw "Error: Classroom not found"
        | Some classroom =>
            if bool_decide (cls_schoolId classroom ≠ stu_schoolId doc)
            then Throw "Error: Classroom does not belong to the specified school"
            else Go tt
        end
      else Go tt
  | None => Go tt
  end.

(** [student.save()] of a document read from the collection *)
Definition student_save (st : Store) (id : string) (old doc : StudentDoc)
  : Flow Store :=
  student_pre_save st (Some old) doc ;?
  Go (with_students st (<[id := doc]> (students st))).

(** [Student.create(doc)] *)
Definition student_create (w : World) (st : Store) (doc : StudentDoc)
  : Flow Store :=
  student_pre_save st None doc ;?
  m ←? create w (students st) doc ;
  Go (with_students st m).

(** ** Student manager *)

Module Student.
Section Manager.
Variable this : Collaborators.

Definition _checkSchoolAccess (token : option Token) (schoolId : jsval)
  : option Response :=
  match token with
  | None => Some unauthenticated
  | Some t =>
      if bool_decide (role t = "superadmin") then None
      else if bool_decide (role t = "school_admin") then
        if negb (truthy schoolId) then None
        else
          let tokenSchoolId := toString_or_null (tok_schoolId t) in
          let requestedSchoolId := toString schoolId in
          if bool_decide (tokenSchoolId ≠ Some requestedSchoolId)
          then Some (Error
                 "Access denied. You can only access students in your assigned school."
                 (Some 403))
          else None
      else Some (Error "Access denied." (Some 403))
  end.

Definition _getEffectiveSchoolId (token : option Token)
    (requestedSchoolId : jsval) : jsval :=
  match token with
  | None => requestedSchoolId
  | Some t =>
      if bool_decide (role t = "superadmin") then requestedSchoolId
      else tok_schoolId t
  end.

Definition activeInClassroom (st : Store) (classroomId : jsval) : Z :=
  countDocuments (students st) (λ s,
    ref_matches (stu_classroomId s) classroomId && stu_isActive s).

(** The new document; [isActive] and [transferHistory] take their
    schema defaults. *)
Definition new_student (w : World) (effectiveSchoolId classroomId : jsval)
    (d : StudentData) (createdBy : jsval) : StudentDoc :=
  {| stu_firstName := st_firstName d;
     stu_lastName := st_lastName d;
     stu_email := st_email d;
     stu_dateOfBirth :=
       if truthy (st_dateOfBirth d) then st_dateOfBirth d else JUndefined;
     stu_gender := st_gender d;
     stu_schoolId := toString effectiveSchoolId;
     stu_classroomId := toString_or_null classroomId;
     stu_enrollmentDate := now w;
     stu_guardianName := st_guardianName d;
     stu_guardianPhone := st_guardianPhone d;
     stu_guardianEmail := st_guardianEmail d;
     stu_address := st_address d;
     stu_isActive := true;
     stu_transferHistory := [];
     stu_createdBy := createdBy |}.

Definition createStudent (w : World) (st : Store)
    (schoolId classroomId : jsval) (studentData : StudentData)
    (__longToken : option Token) : Outcome :=
  run st (
    token ←? required __longToken unauthenticated ;
    (if bool_decide (role token = "school_admin") && truthy schoolId then
       let tokenSchoolId := toString_or_null (tok_schoolId token) in
       return_if (bool_decide (Some (toString schoolId) ≠ tokenSchoolId))
         (Error
            "Access denied. You can only access students in your assigned school."
            (Some 403))
     else Go tt) ;?
    let effectiveSchoolId := _getEffectiveSchoolId __longToken schoolId in
    return_some (_checkSchoolAccess __longToken effectiveSchoolId) ;?
    return_if (bool_decide (role token = "superadmin")
               && negb (truthy effectiveSchoolId))
      (Error "School ID is required for superadmin" None) ;?
    return_errors (validators_student_createStudent this studentData) ;?
    school ←? required (findById (schools st) effectiveSchoolId)
      (Error "School not found" None) ;
    return_if (negb (sch_isActive school))
      (Error "Cannot enroll student in an inactive school" None) ;?
    (if truthy classroomId then
       classroom ←? required (findById (classrooms st) classroomId)
         (Error "Classroom not found" None) ;
       return_if (negb (cls_isActive classroom))
         (Error "Cannot enroll student in an inactive classroom" None) ;?
       return_if (bool_decide
                    (cls_schoolId classroom ≠ toString effectiveSchoolId))
         (Error "Classroom does not belong to the specified school" None) ;?
       let currentStudents := activeInClassroom st classroomId in
       return_if (cls_capacity classroom <=? currentStudents)
         (Error "Classroom is at full capacity" None)
     else Go tt) ;?
    let email := st_email studentData in
    (if truthy email then
       let existingStudent :=
         findOne (students st) (λ _ s, bool_decide (stu_email s = email)) in
       return_if (bool_decide (is_Some existingStudent))
         (Error "A student with this email already exists" None)
     else Go tt) ;?
    let doc :=
      new_student w effectiveSchoolId classroomId studentData
        (userId token) in
    st' ←? student_create w st doc ;
    Go (OneStudent None (fresh_id w) doc None, st')).

Definition getStudents (st : Store) (schoolId classroomId : jsval)
    (page limit : option Z) (search gender : jsval) (isActive : option bool)
    (__longToken : option Token) : Outcome :=
  run st (
    let effectiveSchoolId := _getEffectiveSchoolId __longToken schoolId in
    return_some (_checkSchoolAccess __longToken effectiveSchoolId) ;?
    r ←? prop __longToken role ;
    tokenSchool ←? prop __longToken tok_schoolId ;
    let query := λ (_ : string) (s : StudentDoc),
      (if bool_decide (r = "school_admin")
       then ref_matches (Some (stu_schoolId s)) tokenSchool
       else if truthy effectiveSchoolId
       then ref_matches (Some (stu_schoolId s)) effectiveSchoolId
       else true)
      && (if truthy classroomId
          then ref_matches (stu_classroomId s) classroomId else true)
      && match isActive with
         | Some b => bool_decide (stu_isActive s = b)
         | None => true
         end
      && (if truthy search
          then regex_i this (toString search) (stu_firstName s)
               || regex_i this (toString search) (stu_lastName s)
               || regex_i this (toString search) (stu_email s)
          else true)
      && (if truthy gender then bool_decide (stu_gender s = gender)
          else true) in
    let found := find (students st) query in
    Go (ManyStudents (paginate page limit found)
          (pagination_of page limit (Z.of_nat (length found))), st)).

Definition getStudent (st : Store) (studentId : jsval)
    (__longToken : option Token) : Outcome :=
  run st (
    return_if (bool_decide (__longToken = None)) unauthenticated ;?
    return_if (negb (truthy studentId))
      (Error "Student ID is required" None) ;?
    student ←? required (findById (students st) studentId)
      (Error "Student not found" None) ;
    (* [student.schoolId._id] of the populated school, which is [null]
       when the school document is missing *)
    (if bool_decide (is_Some (schools st !! stu_schoolId student))
     then Go tt
     else Throw "TypeError: Cannot read properties of null") ;?
    return_some
      (_checkSchoolAccess __longToken (JObjectId (stu_schoolId student))) ;?
    Go (OneStudent None (toString studentId) student None, st)).

(** The assignments of [updateStudent]. *)
Definition update_fields (student : StudentDoc) (d : StudentData)
    (classroomId : jsval) (isActive : option bool) : StudentDoc :=
  {| stu_firstName := assign (st_firstName d) (stu_firstName student);
     stu_lastName := assign (st_lastName d) (stu_lastName student);
     stu_email := assign (st_email d) (stu_email student);
     stu_dateOfBirth :=
       if defined (st_dateOfBirth d)
       then (if truthy (st_dateOfBirth d) then st_dateOfBirth d else JNull)
       else stu_dateOfBirth student;
     stu_gender := assign (st_gender d) (stu_gender student);
     stu_schoolId := stu_schoolId student;
     stu_classroomId :=
       if defined classroomId then toString_or_null classroomId
       else stu_classroomId student;
     stu_enrollmentDate := stu_enrollmentDate student;
     stu_guardianName := assign (st_guardianName d) (stu_guardianName student);
     stu_guardianPhone :=
       assign (st_guardianPhone d) (stu_guardianPhone student);
     stu_guardianEmail :=
       assign (st_guardianEmail d) (stu_guardianEmail student);
     stu_address := assign (st_address d) (stu_address student);
     stu_isActive := assign_opt isActive (stu_isActive student);
     stu_transferHistory := stu_transferHistory student;
     stu_createdBy := stu_createdBy student |}.

Definition updateStudent (st : Store) (studentId : jsval) (d : StudentData)
    (classroomId : jsval) (isActive : option bool)
    (__longToken : option Token) : Outcome :=
  run st (
    return_if (bool_decide (__longToken = None)) unauthenticated ;?
    return_if (negb (truthy studentId))
      (Error "Student ID is required" None) ;?
    student ←? required (findById (students st) studentId)
      (Error "Student not found" None) ;
    return_some
      (_checkSchoolAccess __longToken (JObjectId (stu_schoolId student))) ;?
    let email := st_email d in
    (if truthy email && bool_decide (email ≠ stu_email student) then
       let existingStudent :=
         findOne (students st) (λ id s,
           bool_decide (id ≠ toString studentId)
           && bool_decide (stu_email s = email)) in
       return_if (bool_decide (is_Some existingStudent))
         (Error "A student with this email already exists" None)
     else Go tt) ;?
    (if truthy classroomId
        && strict_neq classroomId (stu_classroomId student) then
       classroom ←? required (findById (classrooms st) classroomId)
         (Error "Classroom not found" None) ;
       return_if (negb (cls_isActive classroom))
         (Error "Cannot move student to an inactive classroom" None) ;?
       return_if (bool_decide
                    (cls_schoolId classroom ≠ stu_schoolId student))
         (Error
            "Use transferStudent to move student to a different school's classroom"
            None) ;?
       let currentStudents := activeInClassroom st classroomId in
       return_if (cls_capacity classroom <=? currentStudents)
         (Error "Target classroom is at full capacity" None)
     else Go tt) ;?
    let student' := update_fields student d classroomId isActive in
    st' ←? student_save st (toString studentId) student student' ;
    Go (OneStudent None (toString studentId) student' None, st')).

(** [student.isActive = false; student.classroomId = null] *)
Definition unenrolled (student : StudentDoc) : StudentDoc :=
  {| stu_firstName := stu_firstName student;
     stu_lastName := stu_lastName student;
     stu_email := stu_email student;
     stu_dateOfBirth := stu_dateOfBirth student;
     stu_gender := stu_gender student;
     stu_schoolId := stu_schoolId student;
     stu_classroomId := None;
     stu_enrollmentDate := stu_enrollmentDate student;
     stu_guardianName := stu_guardianName student;
     stu_guardianPhone := stu_guardianPhone student;
     stu_guardianEmail := stu_guardianEmail student;
     stu_address := stu_address student;
     stu_isActive := false;
     stu_transferHistory := stu_transferHistory student;
     stu_createdBy := stu_createdBy student |}.

Definition deleteStudent (st : Store) (studentId : jsval)
    (__longToken : option Token) : Outcome :=
  run st (
    return_if (bool_decide (__longToken = None)) unauthenticated ;?
    return_if (negb (truthy studentId))
      (Error "Student ID is required" None) ;?
    student ←? required (findById (students st) studentId)
      (Error "Student not found" None) ;
    return_some
      (_checkSchoolAccess __longToken (JObjectId (stu_schoolId student))) ;?
    return_if (negb (stu_isActive student))
      (Error "Student is already unenrolled" None) ;?
    let student' := unenrolled student in
    st' ←? student_save st (toString studentId) student student' ;
    Go (OneStudent (Some "Student unenrolled successfully")
          (toString studentId) student' None, st')).

(** The mutation of [transferStudent]: the school when a target school
    is given, the classroom always, one more history entry. *)
Definition transfer_fields (student : StudentDoc)
    (toSchoolId toClassroomId : jsval) (transferEntry : TransferRecord)
  : StudentDoc :=
  {| stu_firstName := stu_firstName student;
     stu_lastName := stu_lastName student;
     stu_email := stu_email student;
     stu_dateOfBirth := stu_dateOfBirth student;
     stu_gender := stu_gender student;
     stu_schoolId :=
       if truthy toSchoolId then toString toSchoolId
       else stu_schoolId student;
     stu_classroomId := toString_or_null toClassroomId;
     stu_enrollmentDate := stu_enrollmentDate student;
     stu_guardianName := stu_guardianName student;
     stu_guardianPhone := stu_guardianPhone student;
     stu_guardianEmail := stu_guardianEmail student;
     stu_address := stu_address student;
     stu_isActive := stu_isActive student;
     stu_transferHistory := stu_transferHistory student ++ [transferEntry];
     stu_createdBy := stu_createdBy student |}.

(** The id of a populated reference: the reference when its document
    exists, [null] otherwise. *)
Definition populated {D} (m : gmap string D) (r : option string)
  : option string :=
  c ← r ; _ ← m !! c ; Some c.

Definition transfer_entry (w : World) (fromSchoolId : string)
    (fromClassroomId : option string)
    (toSchoolId toClassroomId reason : jsval) : TransferRecord :=
  {| fromSchool := fromSchoolId;
     toSchool := if truthy toSchoolId then toString toSchoolId
                 else fromSchoolId;
     fromClassroom := fromClassroomId;
     toClassroom := toString_or_null toClassroomId;
     date := now w;
     reason := js_or reason (JStr "") |}.

(** The [transfer] field of the response. *)
Definition transfer_summary (st : Store) (sourceSchool : SchoolDoc)
    (fromSchoolId : string) (fromClassroomId : option string)
    (toSchoolId : jsval) (targetClassroom : option ClassroomDoc)
  : TransferSummary :=
  {| from_school :=
       if truthy toSchoolId then JObjectId fromSchoolId
       else js_or (sch_name sourceSchool) (JObjectId fromSchoolId);
     from_classroom := ref_val fromClassroomId;
     to_school :=
       if truthy toSchoolId
       then from_option sch_name JUndefined
              (findById (schools st) toSchoolId)
       else sch_name sourceSchool;
     to_classroom :=
       from_option (λ c, js_or (cls_name c) JNull) JNull targetClassroom |}.

Definition transferStudent (w : World) (st : Store)
    (studentId toSchoolId toClassroomId reason : jsval)
    (__longToken : option Token) : Outcome :=
  run st (
    token ←? required __longToken unauthenticated ;
    return_if (negb (truthy studentId))
      (Error "Student ID is required" None) ;?
    return_if (negb (truthy toSchoolId) && negb (truthy toClassroomId))
      (Error "At least one of toSchoolId or toClassroomId is required"
         None) ;?
    student ←? required (findById (students st) studentId)
      (Error "Student not found" None) ;
    return_if (negb (stu_isActive student))
      (Error "Cannot transfer an inactive student" None) ;?
    (* [student.schoolId._id || student.schoolId] of the populated
       school, [null] when the school document is missing *)
    sourceSchool ←?
      match schools st !! stu_schoolId student with
      | Some school => Go school
      | None => Throw "TypeError: Cannot read properties of null"
      end ;
    let fromSchoolId := stu_schoolId student in
    (* [student.classroomId?._id || student.classroomId] of the
       populated classroom *)
    let fromClassroomId := populated (classrooms st) (stu_classroomId student) in
    let targetSchoolId :=
      if truthy toSchoolId then toString toSchoolId else fromSchoolId in
    return_some (_checkSchoolAccess __longToken (JObjectId fromSchoolId)) ;?
    let isCrossSchoolTransfer :=
      truthy toSchoolId && strict_neq toSchoolId (Some fromSchoolId) in
    return_if (isCrossSchoolTransfer
               && bool_decide (role token ≠ "superadmin"))
      (Error "Only superadmins can transfer students between schools"
         (Some 403)) ;?
    (if truthy toSchoolId then
       targetSchool ←? required (findById (schools st) toSchoolId)
         (Error "Target school not found" None) ;
       return_if (negb (sch_isActive targetSchool))
         (Error "Cannot transfer student to an inactive school" None)
     else Go tt) ;?
    targetClassroom ←?
      (if truthy toClassroomId then
         classroom ←? required (findById (classrooms st) toClassroomId)
           (Error "Target classroom not found" None) ;
         return_if (negb (cls_isActive classroom))
           (Error "Cannot transfer student to an inactive classroom"
              None) ;?
         return_if (bool_decide (cls_schoolId classroom ≠ targetSchoolId))
           (Error "Target classroom does not belong to the target school"
              None) ;?
         let currentStudents := activeInClassroom st toClassroomId in
         return_if (cls_capacity classroom <=? currentStudents)
           (Error "Target classroom is at full capacity" None) ;?
         Go (Some classroom)
       else Go None) ;
    let transferEntry :=
      transfer_entry w fromSchoolId fromClassroomId toSchoolId toClassroomId
        reason in
    let student' :=
      transfer_fields student toSchoolId toClassroomId transferEntry in
    st' ←? student_save st (toString studentId) student student' ;
    let summary :=
      transfer_summary st sourceSchool fromSchoolId fromClassroomId
        toSchoolId targetClassroom in
    Go (OneStudent (Some "Student transferred successfully")
          (toString studentId) student' (Some summary), st')).

End Manager.
End Student.

(** ** The exposed operations ([httpExposed]) and the reachable databases *)

Inductive Call :=
| CreateSchool (w : World) (schoolData : SchoolData)
| GetSchools (page limit : option Z) (search : jsval) (isActive : option bool)
| GetSchool (schoolId : jsval)
| UpdateSchool (schoolId : jsval) (d : SchoolData) (isActive : option bool)
| DeleteSchool (schoolId : jsval)
| CreateClassroom (w : World) (schoolId : jsval) (classroomData : ClassroomData)
| GetClassrooms (schoolId : jsval) (page limit : option Z)
    (search grade : jsval) (isActive : option bool) (academicYear : jsval)
| GetClassroom (classroomId : jsval)
| UpdateClassroom (classroomId : jsval) (d : ClassroomData)
    (isActive : option bool)
| DeleteClassroom (classroomId : jsval)
| CreateStudent (w : World) (schoolId classroomId : jsval)
    (studentData : StudentData)
| GetStudents (schoolId classroomId : jsval) (page limit : option Z)
    (search gender : jsval) (isActive : option bool)
| GetStudent (studentId : jsval)
| UpdateStudent (studentId : jsval) (d : StudentData) (classroomId : jsval)
    (isActive : option bool)
| DeleteStudent (studentId : jsval)
| TransferStudent (w : World)
    (studentId toSchoolId toClassroomId reason : jsval).

(** One request: the method named by the call, applied to its parameters
    and to the decoded token. *)
Definition dispatch (this : Collaborators) (st : Store) (c : Call)
    (__longToken : option Token) : Outcome :=
  match c with
  | CreateSchool w d => School.createSchool this w st d __longToken
  | GetSchools p l s a => School.getSchools this st p l s a __longToken
  | GetSchool i => School.getSchool st i __longToken
  | UpdateSchool i d a => School.updateSchool this st i d a __longToken
  | DeleteSchool i => School.deleteSchool st i __longToken
  | CreateClassroom w i d => Classroom.createClassroom this w st i d __longToken
  | GetClassrooms i p l s g a y =>
      Classroom.getClassrooms this st i p l s g a y __longToken
  | GetClassroom i => Classroom.getClassroom st i __longToken
  | UpdateClassroom i d a => Classroom.updateClassroom this st i d a __longToken
  | DeleteClassroom i => Classroom.deleteClassroom st i __longToken
  | CreateStudent w i c d => Student.createStudent this w st i c d __longToken
  | GetStudents i c p l s g a =>
      Student.getStudents this st i c p l s g a __longToken
  | GetStudent i => Student.getStudent st i __longToken
  | UpdateStudent i d c a => Student.updateStudent st i d c a __longToken
  | DeleteStudent i => Student.deleteStudent st i __longToken
  | TransferStudent w i s c r => Student.transferStudent w st i s c r __longToken
  end.

(** The database after a call: a call that throws has written nothing. *)
Definition after (st : Store) (o : Outcome) : Store :=
  match o with Returns _ st' => st' | Throws _ => st end.

(** The response of a call that returned. *)
Definition reply (o : Outcome) : Response :=
  match o with Returns r _ => r | Throws _ => Errors [] end.

(** The databases the managers produce, starting from the empty one. *)
Inductive reachable (this : Collaborators) : Store → Prop :=
| reachable_empty : reachable this empty_store
| reachable_call st c token :
    reachable this st → reachable this (after st (dispatch this st c token)).

(** Referential integrity of the students: the school of a student exists,
    and so does its classroom, which belongs to that school. *)
Definition school_exists (st : Store) (s : StudentDoc) : Prop :=
  is_Some (schools st !! stu_schoolId s).

Definition classroom_in_school (st : Store) (s : StudentDoc) : Prop :=
  ∀ c, stu_classroomId s = Some c →
    ∃ classroom, classrooms st !! c = Some classroom
                 ∧ cls_schoolId classroom = stu_schoolId s.

Definition consistent (st : Store) : Prop :=
  ∀ id s, students st !! id = Some s →
    school_exists st s ∧ classroom_in_school st s.

(** The second database keeps the schools of the first, and its classrooms
    with their school. *)
Definition extends (st st' : Store) : Prop :=
  (∀ i, is_Some (schools st !! i) → is_Some (schools st' !! i))
  ∧ (∀ i c, classrooms st !! i = Some c →
       ∃ c', classrooms st' !! i = Some c' ∧ cls_schoolId c' = cls_schoolId c).

(** The calls that write a student's school or classroom. *)
Definition student_write (c : Call) : bool :=
  match c with
  | CreateStudent _ _ _ _ | UpdateStudent _ _ _ _
  | TransferStudent _ _ _ _ _ => true
  | _ => false
  end.

(** The call is a [getClassrooms] request. *)
Definition is_getClassrooms (c : Call) : bool :=
  match c with GetClassrooms _ _ _ _ _ _ _ => true | _ => false end.

(** The three soft deletes. *)
Inductive Entity := ASchool | AClassroom | AStudent.

Definition softDelete (e : Entity) (st : Store) (id : jsval)
    (__longToken : option Token) : Outcome :=
  match e with
  | ASchool => School.deleteSchool st id __longToken
  | AClassroom => Classroom.deleteClassroom st id __longToken
  | AStudent => Student.deleteStudent st id __longToken
  end.

(** The error each of them returns for an entity that is inactive. *)
Definition already_inactive (e : Entity) : Response :=
  match e with
  | ASchool => Error "School is already inactive" None
  | AClassroom => Error "Classroom is already inactive" None
  | AStudent => Error "Student is already unenrolled" None
  end.

(** [s1] occurs in [s2]. *)
Fixpoint contains (s1 s2 : string) : bool :=
  String.prefix s1 s2
  || match s2 with
     | String _ rest => contains s1 rest
     | EmptyString => false
     end.

(** The checks of [createStudent] that come before the capacity check all
    pass: the actor is authenticated and allowed for the school, the fields
    are valid, the school is active, and the classroom exists, is active
    and belongs to that school. *)
Definition reaches_capacity_check (this : Collaborators) (st : Store)
    (schoolId classroomId : jsval) (d : StudentData)
    (__longToken : option Token) : bool :=
  match __longToken with
  | None => false
  | Some token =>
      let effectiveSchoolId :=
        Student._getEffectiveSchoolId __longToken schoolId in
      negb (bool_decide (role token = "school_admin") && truthy schoolId
            && bool_decide (Some (toString schoolId)
                            ≠ toString_or_null (tok_schoolId token)))
      && bool_decide
           (Student._checkSchoolAccess __longToken effectiveSchoolId = None)
      && negb (bool_decide (role token = "superadmin")
               && negb (truthy effectiveSchoolId))
      && bool_decide (validators_student_createStudent this d = None)
      && match findById (schools st) effectiveSchoolId with
         | Some school => sch_isActive school
         | None => false
         end
      && truthy classroomId
      && match findById (classrooms st) classroomId with
         | Some classroom =>
             cls_isActive classroom
             && bool_decide
                  (cls_schoolId classroom = toString effectiveSchoolId)
         | None => false
         end
  end.

(** ** A sample run: the enrolment scenario *)

Module Scenario.

(** Collaborators that accept every input; the regular expression
    [^name$] matches the name itself. *)
Definition plain : Collaborators :=
  {| validators_school_createSchool := λ _, None;
     validators_classroom_createClassroom := λ _, None;
     validators_student_createStudent := λ _, None;
     regex_i := λ source v, bool_decide (source = "^" ++ toString v ++ "$");
     classroom_validation_errors := λ _, [] |}.

Definition root : option Token :=
  Some {| role := "superadmin"; tok_schoolId := JUndefined;
          userId := JStr "u0" |}.

Definition admin_of (school : string) : Token :=
  {| role := "school_admin"; tok_schoolId := JStr school;
     userId := JStr "u1" |}.

Definition at_id (i : string) : World := {| fresh_id := i; now := 0 |}.

Definition school_named (n : string) : SchoolData :=
  {| sd_name := JStr n; sd_address := JUndefined; sd_phone := JUndefined;
     sd_email := JUndefined; sd_principal := JUndefined;
     sd_establishedYear := None |}.

Definition no_school_change : SchoolData :=
  {| sd_name := JUndefined; sd_address := JUndefined;
     sd_phone := JUndefined; sd_email := JUndefined;
     sd_principal := JUndefined; sd_establishedYear := None |}.

Definition room (n : string) (capacity : Z) : ClassroomData :=
  {| cd_name := JStr n; cd_capacity := Some capacity;
     cd_grade := JUndefined; cd_section := JUndefined;
     cd_resources := None; cd_academicYear := JUndefined |}.

Definition pupil (n : string) : StudentData :=
  {| st_firstName := JStr n; st_lastName := JStr "Doe";
     st_email := JUndefined; st_dateOfBirth := JUndefined;
     st_gender := JUndefined; st_guardianName := JUndefined;
     st_guardianPhone := JUndefined; st_guardianEmail := JUndefined;
     st_address := JUndefined |}.

Definition no_student_change : StudentData :=
  {| st_firstName := JUndefined; st_lastName := JUndefined;
     st_email := JUndefined; st_dateOfBirth := JUndefined;
     st_gender := JUndefined; st_guardianName := JUndefined;
     st_guardianPhone := JUndefined; st_guardianEmail := JUndefined;
     st_address := JUndefined |}.

Definition call (st : Store) (c : Call) (token : option Token) : Store :=
  after st (dispatch plain st c token).

(** Two schools, X and Y. *)
Definition db1 : Store :=
  call empty_store (CreateSchool (at_id "X") (school_named "Lincoln HS")) root.
Definition db2 : Store :=
  call db1 (CreateSchool (at_id "Y") (school_named "Franklin HS")) root.
(** Room 1 of school X, with one seat. *)
Definition db3 : Store :=
  call db2 (CreateClassroom (at_id "C1") (JStr "X") (room "Room 1" 1)) root.
(** Student A of school X, in Room 1. *)
Definition enrol_A : Call :=
  CreateStudent (at_id "A") (JStr "X") (JStr "C1") (pupil "A").
Definition db4 : Store := call db3 enrol_A root.
(** Student A unenrolled. *)
Definition db5 : Store := call db4 (DeleteStudent (JStr "A")) root.
(** Then Room 1, which A has left, and school Y, which has neither
    classroom nor student, deleted. *)
Definition db7 : Store := call db5 (DeleteClassroom (JStr "C1")) root.
Definition db8 : Store := call db7 (DeleteSchool (JStr "Y")) root.
(** Or else: student A transferred to school Y. *)
Definition move_A : Call :=
  TransferStudent (at_id "") (JStr "A") (JStr "Y") JUndefined
    (JStr "Family relocation").
Definition db6 : Store := call db4 move_A root.
(** Or else: student A deactivated through updateStudent. *)
Definition deactivate_A : Call :=
  UpdateStudent (JStr "A") no_student_change JUndefined (Some false).
Definition db9 : Store := call db4 deactivate_A (Some (admin_of "X")).

End Scenario.

(** ** What the calls write, read and keep *)

(** What one call can write: nothing, one new document, or one document
    replaced by a document that keeps its owner and creator fields and,
    for a student, its transfer history up to at most one more record. *)
Inductive written (st : Store) : Store → Prop :=
| written_nothing : written st st
| written_new_school i s :
    schools st !! i = None →
    sch_isActive s = true →
    written st (with_schools st (<[i := s]> (schools st)))
| written_school i s s' :
    schools st !! i = Some s →
    sch_createdBy s' = sch_createdBy s →
    written st (with_schools st (<[i := s']> (schools st)))
| written_new_classroom i c :
    classrooms st !! i = None →
    cls_isActive c = true →
    written st (with_classrooms st (<[i := c]> (classrooms st)))
| written_classroom i c c' :
    classrooms st !! i = Some c →
    cls_schoolId c' = cls_schoolId c →
    cls_createdBy c' = cls_createdBy c →
    written st (with_classrooms st (<[i := c']> (classrooms st)))
| written_new_student i s :
    students st !! i = None →
    stu_isActive s = true →
    stu_transferHistory s = [] →
    written st (with_students st (<[i := s]> (students st)))
| written_student i s s' more :
    students st !! i = Some s →
    stu_createdBy s' = stu_createdBy s →
    stu_enrollmentDate s' = stu_enrollmentDate s →
    stu_transferHistory s' = (stu_transferHistory s ++ more)%list →
    (length more ≤ 1)%nat →
    written st (with_students st (<[i := s']> (students st))).

(** The requests of a session, answered one after the other. *)
Definition replay (this : Collaborators) (st : Store)
    (requests : list (Call * option Token)) : Store :=
  foldl (λ st request, after st (dispatch this st request.1 request.2))
    st requests.

(** The second database still has every document of the first, with the
    same creator, the same owning school for a classroom, and for a student
    the same enrolment date and a transfer history that starts with the
    earlier one. *)
Definition persists (st st' : Store) : Prop :=
  (∀ i s, schools st !! i = Some s →
     ∃ s', schools st' !! i = Some s' ∧ sch_createdBy s' = sch_createdBy s)
  ∧ (∀ i c, classrooms st !! i = Some c →
       ∃ c', classrooms st' !! i = Some c'
             ∧ cls_schoolId c' = cls_schoolId c
             ∧ cls_createdBy c' = cls_createdBy c)
  ∧ (∀ i s, students st !! i = Some s →
       ∃ s', students st' !! i = Some s'
             ∧ stu_createdBy s' = stu_createdBy s
             ∧ stu_enrollmentDate s' = stu_enrollmentDate s
             ∧ stu_transferHistory s `prefix_of` stu_transferHistory s').

(** Every student and every classroom the response lists (its [student],
    [students], [classroom] or [classrooms] field) is a document of school
    [S], and the response is not a payload of the School manager. The
    documents that [populate] attaches to a listed document are not part of
    [Response] and not meant here. *)
Definition answers_within (S : string) (r : Response) : Prop :=
  match r with
  | Error _ _ | ErrorSchoolInUse _ _ _ | ErrorClassroomInUse _ _ | Errors _ =>
      True
  | OneSchool _ _ _ _ | ManySchools _ _ => False
  | OneClassroom _ _ classroom _ => cls_schoolId classroom = S
  | ManyClassrooms items _ =>
      Forall (λ item, cls_schoolId item.1.1.2 = S) items
  | OneStudent _ _ student _ => stu_schoolId student = S
  | ManyStudents items _ => Forall (λ item, stu_schoolId item.2 = S) items
  end.

(** The number of items and the [pagination] of the response of a list
    endpoint. *)
Definition listing (r : Response) : option (nat * Pagination) :=
  match r with
  | ManySchools items pagination => Some (length items, pagination)
  | ManyClassrooms items pagination => Some (length items, pagination)
  | ManyStudents items pagination => Some (length items, pagination)
  | _ => None
  end.

(** The call can turn an inactive student into an active one. *)
Definition reactivates (c : Call) : bool :=
  match c with
  | UpdateStudent _ _ _ (Some true) => true
  | _ => false
  end.

(** ** Middlewares *)

(** What a middleware does with a request: it answers through
    [managers.responseDispatcher.dispatch(res, { ok: false, code, errors })]
    or calls [next(decoded)]. *)
Inductive Middleware :=
| Dispatched (code : Z) (errors : string)
| Next (decoded : Token).

Definition status (m : Middleware) : option Z :=
  match m with Dispatched code _ => Some code | Next _ => None end.

Module Mws.

(** [mws/__role.mw.js]. [decoded] is [req.decoded || req.body.__token] and
    [roles] is [meta.roles], [None] when the endpoint sets none. *)
Definition __role (roles : option (list string)) (decoded : option Token)
  : Middleware :=
  match decoded with
  | None => Dispatched 401 "Authentication required"
  | Some t =>
      let requiredRoles := default [] roles in
      if bool_decide (length requiredRoles = 0%nat) then Next t
      else
        let userRole := role t in
        if negb (bool_decide (userRole ∈ requiredRoles)) then
          Dispatched 403
            ("Access denied. Required role(s): "
             ++ String.concat ", " requiredRoles)
        else Next t
  end.

(** [mws/__schoolAccess.mw.js]. The three parameters are
    [req.params?.schoolId], [req.body?.schoolId] and [req.query?.schoolId];
    the second component of the result is [req.body.schoolId] when the
    middleware is done. *)
Definition __schoolAccess (decoded : option Token)
    (params_schoolId body_schoolId query_schoolId : jsval)
  : Middleware * jsval :=
  match decoded with
  | None => (Dispatched 401 "Authentication required", body_schoolId)
  | Some t =>
      let userRole := role t in
      let userSchoolId := tok_schoolId t in
      if bool_decide (userRole = "superadmin") then (Next t, body_schoolId)
      else if bool_decide (userRole = "school_admin") then
        let requestedSchoolId :=
          js_or (js_or params_schoolId body_schoolId) query_schoolId in
        if negb (truthy requestedSchoolId) then (Next t, userSchoolId)
        else
          let requestedSchoolStr := toString requestedSchoolId in
          let userSchoolStr := toString_or_null userSchoolId in
          if bool_decide (Some requestedSchoolStr ≠ userSchoolStr) then
            (Dispatched 403
               "Access denied. You can only access resources from your assigned school.",
             body_schoolId)
          else (Next t, body_schoolId)
      else (Next t, body_schoolId)
  end.

End Mws.

(** The school id a request names: params, then body, then query. *)
Definition requested_school (params_schoolId body_schoolId query_schoolId
    : jsval) : jsval :=
  js_or (js_or params_schoolId body_schoolId) query_schoolId.

(** The role is one of the two the system defines. *)
Definition known_role (token : option Token) : Prop :=
  match token with
  | None => True
  | Some t => role t = "superadmin" ∨ role t = "school_admin"
  end.

(** ** Virtual fields of the models *)

Module ClassroomModel.

(** [students] is the populated virtual: [None] when it is not loaded. *)
Definition isFull {A} (students : option (list A)) (capacity : Z) : bool :=
  match students with
  | Some l => Z.of_nat (length l) >=? capacity
  | None => false
  end.

Definition availableSeats {A} (students : option (list A)) (capacity : Z)
  : Z :=
  match students with
  | Some l => Z.max 0 (capacity - Z.of_nat (length l))
  | None => capacity
  end.

End ClassroomModel.

(** A [Date] as its getters show it. *)
Record Date := {
  getFullYear : Z;
  getMonth : Z;
  getDate : Z
}.

Module StudentModel.

(** The [age] virtual; [today] is [new Date()]. *)
Definition age (today : Date) (dateOfBirth : option Date) : option Z :=
  match dateOfBirth with
  | None => None
  | Some birthDate =>
      let age := getFullYear today - getFullYear birthDate in
      let monthDiff := getMonth today - getMonth birthDate in
      if (monthDiff <? 0)
         || ((monthDiff =? 0) && (getDate today <? getDate birthDate))
      then Some (age - 1)
      else Some age
  end.

End StudentModel.

(** [d1] is a day before [d2]. *)
Definition earlier (d1 d2 : Date) : Prop :=
  getFullYear d1 < getFullYear d2
  ∨ (getFullYear d1 = getFullYear d2
     ∧ (getMonth d1 < getMonth d2
        ∨ (getMonth d1 = getMonth d2 ∧ getDate d1 < getDate d2))).

(** The day of the [n]-th birthday. *)
Definition birthday (birthDate : Date) (n : Z) : Date :=
  {| getFullYear := getFullYear birthDate + n;
     getMonth := getMonth birthDate;
     getDate := getDate birthDate |}.

(** ** Custom validators *)

Module Validators.

(** [\d] *)
Definition digit (c : Ascii.ascii) : option Z :=
  let n := Z.of_N (Ascii.N_of_ascii c) in
  if (48 <=? n) && (n <=? 57) then Some (n - 48) else None.

(** The value of the digits at the start of [s], after [acc]. *)
Fixpoint parseInt_digits (acc : Z) (s : string) : Z :=
  match s with
  | String c s' =>
      match digit c with
      | Some d => parseInt_digits (10 * acc + d) s'
      | None => acc
      end
  | EmptyString => acc
  end.

(** [parseInt(s, 10)] of a string with no sign and no leading blank; [None]
    is [NaN]. *)
Definition parseInt (s : string) : option Z :=
  match s with
  | String c _ =>
      if bool_decide (is_Some (digit c)) then Some (parseInt_digits 0 s)
      else None
  | EmptyString => None
  end.

(** [data.match(/^(\d{4})-(\d{4})$/)]: the two groups *)
Definition match_years (data : string) : option (string * string) :=
  match data with
  | String a (String b (String c (String d (String sep
      (String e (String f (String g (String h EmptyString)))))))) =>
      if forallb (λ x, bool_decide (is_Some (digit x))) [a; b; c; d]
         && bool_decide (String sep EmptyString = "-")
         && forallb (λ x, bool_decide (is_Some (digit x))) [e; f; g; h]
      then Some (String a (String b (String c (String d EmptyString))),
                 String e (String f (String g (String h EmptyString))))
      else None
  | _ => None
  end.

Definition academicYear (data : jsval) : bool :=
  match data with
  | JStr data =>
      match match_years data with
      | None => false
      | Some (m1, m2) =>
          match parseInt m1, parseInt m2 with
          | Some startYear, Some endYear =>
              bool_decide (endYear = startYear + 1)
          | _, _ => false
          end
      end
  | _ => false
  end.

(** [validRoles.includes(data)] *)
Definition role (data : jsval) : bool :=
  match data with
  | JStr data => bool_decide (data ∈ ["superadmin"; "school_admin"])
  | _ => false
  end.

End Validators.

(** The year [y] written with four digits. *)
Definition four_digits (y : Z) : string :=
  let d n := Ascii.ascii_of_N (Z.to_N (48 + n `mod` 10)) in
  String (d (y / 1000)) (String (d (y / 100)) (String (d (y / 10))
    (String (d y) EmptyString))).

(** ** A second run: Room 1 is given away and claimed back *)

Module Reenrolment.
Import Scenario.

(** Student A has been deactivated and still refers to Room 1 (db9);
    student B takes the one seat of the room. *)
Definition enrol_B : Call :=
  CreateStudent (at_id "B") (JStr "X") (JStr "C1") (pupil "B").
Definition db10 : Store := call db9 enrol_B root.

(** A list request that names school Y. *)
Definition list_Y : Call :=
  GetStudents (JStr "Y") JUndefined None None JUndefined JUndefined None.

End Reenrolment.

(** * Properties *)

(** ** Proof support *)

Lemma findById_Some {D} (m : gmap string D) v d :
  findById m v = Some d → m !! toString v = Some d.
Proof. by destruct v. Qed.

Lemma strict_neq_false v r :
  strict_neq v r = false → ∃ t, v = JStr t ∧ r = Some t.
Proof.
  destruct v, r; simpl; try done. intros H%bool_decide_eq_false_1%dec_stable.
  naive_solver.
Qed.

Lemma toString_or_null_Some v i :
  toString_or_null v = Some i → truthy v = true ∧ toString v = i.
Proof. unfold toString_or_null. case_match; naive_solver. Qed.

(** The helpers of the method bodies stay folded under [simpl]; the proofs
    unfold them where they reason about them. *)
Arguments Student._checkSchoolAccess : simpl never.
Arguments Classroom._checkSchoolAccess : simpl never.
Arguments School._checkSuperadminAccess : simpl never.
Arguments Student._getEffectiveSchoolId : simpl never.
Arguments toString_or_null : simpl never.
Arguments truthy : simpl never.
Arguments toString : simpl never.
Arguments strict_neq : simpl never.
Arguments findById : simpl never.
Arguments countDocuments : simpl never.
Arguments Student.new_student : simpl never.
Arguments Student.update_fields : simpl never.
Arguments Student.transfer_fields : simpl never.
Arguments Student.unenrolled : simpl never.
Arguments Student.transfer_entry : simpl never.
Arguments Student.transfer_summary : simpl never.
Arguments Student.populated : simpl never.
Arguments Classroom.new_classroom : simpl never.
Arguments Classroom.update_fields : simpl never.
Arguments Classroom.soft_deleted : simpl never.
Arguments School.new_school : simpl never.
Arguments School.update_fields : simpl never.
Arguments School.soft_deleted : simpl never.

Lemma extends_schools_insert st i s :
  extends st (with_schools st (<[i := s]> (schools st))).
Proof.
  split; simpl; [|eauto]. intros j Hj.
  destruct (decide (i = j)) as [->|]; [rewrite lookup_insert_eq|rewrite lookup_insert_ne]; eauto.
Qed.

Lemma extends_classrooms_fresh st i c :
  classrooms st !! i = None →
  extends st (with_classrooms st (<[i := c]> (classrooms st))).
Proof.
  intros Hi. split; simpl; [done|]. intros j d Hj.
  exists d. rewrite lookup_insert_ne; [done|congruence].
Qed.

Lemma extends_classrooms_update st i c c' :
  classrooms st !! i = Some c → cls_schoolId c' = cls_schoolId c →
  extends st (with_classrooms st (<[i := c']> (classrooms st))).
Proof.
  intros Hi Hs. split; simpl; [done|]. intros j d Hj.
  destruct (decide (i = j)) as [->|].
  - exists c'. rewrite lookup_insert_eq. split; [done|congruence].
  - exists d. by rewrite lookup_insert_ne.
Qed.

Lemma consistent_extends st st' :
  extends st st' → students st' = students st → consistent st → consistent st'.
Proof.
  intros [Hs Hc] Heq Hst id s Hid. rewrite Heq in Hid.
  destruct (Hst id s Hid) as [H1 H2]. split.
  - by apply Hs.
  - intros c Hcl. destruct (H2 c Hcl) as (d & Hd & Hsd).
    destruct (Hc c d Hd) as (d' & Hd' & Hsd'). exists d'. split; [done|congruence].
Qed.

Lemma consistent_insert_student st id s :
  consistent st → school_exists st s → classroom_in_school st s →
  consistent (with_students st (<[id := s]> (students st))).
Proof.
  intros Hst H1 H2 j t Hj. simpl in Hj.
  destruct (decide (id = j)) as [->|].
  - rewrite lookup_insert_eq in Hj. by simplify_eq.
  - rewrite lookup_insert_ne in Hj; [|done]. by apply (Hst j t).
Qed.

Lemma student_access_error token schoolId r :
  Student._checkSchoolAccess token schoolId = Some r →
  is_error r = true ∧ (code_of r = Some 401 ∨ code_of r = Some 403).
Proof.
  unfold Student._checkSchoolAccess, unauthenticated.
  intros; repeat case_match; simplify_eq/=; auto.
Qed.

Lemma classroom_access_error token schoolId r :
  Classroom._checkSchoolAccess token schoolId = Some r →
  is_error r = true ∧ (code_of r = Some 401 ∨ code_of r = Some 403).
Proof.
  unfold Classroom._checkSchoolAccess, unauthenticated.
  intros; repeat case_match; simplify_eq/=; auto.
Qed.

Lemma superadmin_access_error token r :
  School._checkSuperadminAccess token = Some r →
  is_error r = true ∧ (code_of r = Some 401 ∨ code_of r = Some 403).
Proof.
  unfold School._checkSuperadminAccess, unauthenticated.
  intros; repeat case_match; simplify_eq/=; auto.
Qed.

(** A successful response does not come from an access check. *)
Ltac access_error :=
  match goal with
  | H : Student._checkSchoolAccess _ _ = Some ?r, Hr : is_error ?r = false
    |- _ => apply student_access_error in H as [? _]; congruence
  | H : Classroom._checkSchoolAccess _ _ = Some ?r, Hr : is_error ?r = false
    |- _ => apply classroom_access_error in H as [? _]; congruence
  | H : School._checkSuperadminAccess _ = Some ?r, Hr : is_error ?r = false
    |- _ => apply superadmin_access_error in H as [? _]; congruence
  end.

(** Case analysis of a hypothesis [H] about the result of a method body:
    every [return] point of the body becomes a case. *)
Ltac flow_inv H :=
  unfold run, student_save, student_create, student_pre_save, flow_bind,
    return_if, required, return_some, return_errors, prop, create in H;
  repeat (case_match; simplify_eq/=); try done; try access_error.

(** The boolean tests of the hypotheses, as propositions. *)
Ltac bool_norm :=
  repeat match goal with
  | H : _ && _ = true |- _ => apply andb_prop in H as [? ?]
  | H : negb _ = false |- _ => apply negb_false_iff in H
  | H : negb _ = true |- _ => apply negb_true_iff in H
  | H : bool_decide _ = true |- _ => apply bool_decide_eq_true_1 in H
  | H : bool_decide _ = false |- _ => apply bool_decide_eq_false_1 in H
  | H : (_ <=? _) = false |- _ => apply Z.leb_gt in H
  | H : (_ <=? _) = true |- _ => apply Z.leb_le in H
  | H : (_ <? _) = false |- _ => apply Z.ltb_ge in H
  | H : (_ <? _) = true |- _ => apply Z.ltb_lt in H
  | H : ¬ (_ ≠ _) |- _ => apply dec_stable in H
  end.

Section Invariant.
Variable this : Collaborators.

Lemma createSchool_consistent w st d tok r st' :
  consistent st → School.createSchool this w st d tok = Returns r st' → consistent st'.
Proof.
  intros Hc H. unfold School.createSchool in H. flow_inv H.
  eapply consistent_extends; [apply extends_schools_insert|done|done].
Qed.

Lemma updateSchool_consistent st i d a tok r st' :
  consistent st → School.updateSchool this st i d a tok = Returns r st' → consistent st'.
Proof.
  intros Hc H. unfold School.updateSchool in H. flow_inv H;
  (eapply consistent_extends; [apply extends_schools_insert|done|done]).
Qed.

Lemma deleteSchool_consistent st i tok r st' :
  consistent st → School.deleteSchool st i tok = Returns r st' → consistent st'.
Proof.
  intros Hc H. unfold School.deleteSchool in H. flow_inv H;
  (eapply consistent_extends; [apply extends_schools_insert|done|done]).
Qed.

Lemma createClassroom_consistent w st i d tok r st' :
  consistent st → Classroom.createClassroom this w st i d tok = Returns r st' → consistent st'.
Proof.
  intros Hc H. unfold Classroom.createClassroom, Classroom._getEffectiveSchoolId in H.
  flow_inv H;
  (eapply consistent_extends; [by apply extends_classrooms_fresh|done|done]).
Qed.

Lemma updateClassroom_consistent st i d a tok r st' :
  consistent st → Classroom.updateClassroom this st i d a tok = Returns r st' → consistent st'.
Proof.
  intros Hc H. unfold Classroom.updateClassroom in H.
  flow_inv H;
  (eapply consistent_extends; [eapply extends_classrooms_update; [by apply findById_Some|done]|done|done]).
Qed.

Lemma deleteClassroom_consistent st i tok r st' :
  consistent st → Classroom.deleteClassroom st i tok = Returns r st' → consistent st'.
Proof.
  intros Hc H. unfold Classroom.deleteClassroom in H.
  flow_inv H;
  (eapply consistent_extends; [eapply extends_classrooms_update; [by apply findById_Some|done]|done|done]).
Qed.



Lemma createStudent_success w st schoolId classroomId d tok r st' :
  Student.createStudent this w st schoolId classroomId d tok = Returns r st' →
  is_error r = false →
  ∃ token doc,
    tok = Some token
    ∧ doc = Student.new_student w (Student._getEffectiveSchoolId tok schoolId)
              classroomId d (userId token)
    ∧ r = OneStudent None (fresh_id w) doc None
    ∧ students st !! fresh_id w = None
    ∧ st' = with_students st (<[fresh_id w := doc]> (students st))
    ∧ school_exists st doc
    ∧ (truthy classroomId = true →
       ∃ classroom,
         classrooms st !! toString classroomId = Some classroom
         ∧ cls_isActive classroom = true
         ∧ cls_schoolId classroom = stu_schoolId doc
         ∧ Student.activeInClassroom st classroomId < cls_capacity classroom).
Proof.
  intros H Hr. unfold Student.createStudent in H.
  flow_inv H.
  all: bool_norm; eexists _, _; split_and!; try done.
  all: first
    [ eexists; by apply findById_Some
    | intros _; eexists; split_and!; [by apply findById_Some|done..] ].
Qed.

Lemma createStudent_failure w st schoolId classroomId d tok r st' :
  Student.createStudent this w st schoolId classroomId d tok = Returns r st' →
  is_error r = true → st' = st.
Proof.
  intros H Hr. unfold Student.createStudent in H. flow_inv H.
Qed.


Lemma updateStudent_success st studentId d classroomId isActive tok r st' :
  Student.updateStudent st studentId d classroomId isActive tok = Returns r st' →
  is_error r = false →
  ∃ student,
    findById (students st) studentId = Some student
    ∧ r = OneStudent None (toString studentId)
            (Student.update_fields student d classroomId isActive) None
    ∧ st' = with_students st
              (<[toString studentId :=
                   Student.update_fields student d classroomId isActive]>
                 (students st))
    ∧ (truthy classroomId = true →
       stu_classroomId student = Some (toString classroomId)
       ∨ ∃ classroom,
           classrooms st !! toString classroomId = Some classroom
           ∧ cls_isActive classroom = true
           ∧ cls_schoolId classroom = stu_schoolId student
           ∧ Student.activeInClassroom st classroomId < cls_capacity classroom).
Proof.
  intros H Hr. unfold Student.updateStudent in H.
  flow_inv H.
  all: bool_norm; eexists; split_and!; try done.
  all: intros Ht;
    try (right; eexists; split_and!; [by apply findById_Some|done..]).
  all: match goal with
       | H : truthy _ && strict_neq _ _ = false |- _ =>
           rewrite Ht in H; apply strict_neq_false in H as (t & -> & Hold)
       end; by left.
Qed.

Lemma deleteStudent_success st studentId tok r st' :
  Student.deleteStudent st studentId tok = Returns r st' →
  is_error r = false →
  ∃ student,
    findById (students st) studentId = Some student
    ∧ stu_isActive student = true
    ∧ r = OneStudent (Some "Student unenrolled successfully")
            (toString studentId) (Student.unenrolled student) None
    ∧ st' = with_students st
              (<[toString studentId := Student.unenrolled student]>
                 (students st)).
Proof.
  intros H Hr. unfold Student.deleteStudent in H.
  flow_inv H.
  all: bool_norm; eexists; split_and!; try done.
Qed.

Lemma transferStudent_success w st studentId toSchoolId toClassroomId reason
    tok r st' :
  Student.transferStudent w st studentId toSchoolId toClassroomId reason tok
    = Returns r st' →
  is_error r = false →
  ∃ student sourceSchool targetClassroom,
    findById (students st) studentId = Some student
    ∧ stu_isActive student = true
    ∧ schools st !! stu_schoolId student = Some sourceSchool
    ∧ let fromClassroomId :=
        Student.populated (classrooms st) (stu_classroomId student) in
      let student' :=
        Student.transfer_fields student toSchoolId toClassroomId
          (Student.transfer_entry w (stu_schoolId student) fromClassroomId
             toSchoolId toClassroomId reason) in
      r = OneStudent (Some "Student transferred successfully")
            (toString studentId) student'
            (Some (Student.transfer_summary st sourceSchool
                     (stu_schoolId student) fromClassroomId toSchoolId
                     targetClassroom))
      ∧ st' = with_students st (<[toString studentId := student']>
                                  (students st))
      ∧ (truthy toSchoolId = true →
         ∃ school, schools st !! toString toSchoolId = Some school
                   ∧ sch_isActive school = true)
      ∧ (truthy toClassroomId = true →
         ∃ classroom,
           classrooms st !! toString toClassroomId = Some classroom
           ∧ cls_isActive classroom = true
           ∧ cls_schoolId classroom = stu_schoolId student'
           ∧ Student.activeInClassroom st toClassroomId
             < cls_capacity classroom).
Proof.
  intros H Hr. unfold Student.transferStudent in H.
  flow_inv H.
  all: bool_norm; eexists _, _, _; split_and!; try done.
  all: intros _; eexists; split_and!; [by apply findById_Some|done..].
Qed.

Lemma createStudent_consistent w st schoolId classroomId d tok r st' :
  consistent st →
  Student.createStudent this w st schoolId classroomId d tok = Returns r st' →
  consistent st'.
Proof.
  intros Hc H. destruct (is_error r) eqn:Hr.
  { by rewrite (createStudent_failure _ _ _ _ _ _ _ _ H Hr). }
  destruct (createStudent_success _ _ _ _ _ _ _ _ H Hr)
    as (token & doc & -> & Hdoc & -> & Hfresh & -> & Hsch & Hcls).
  apply consistent_insert_student; [done..|].
  intros c Hc'. rewrite Hdoc in Hc'. simpl in Hc'.
  apply toString_or_null_Some in Hc' as [Ht <-].
  destruct (Hcls Ht) as (classroom & ? & _ & ? & _). eauto.
Qed.

Lemma updateStudent_consistent st studentId d classroomId isActive tok r st' :
  consistent st →
  Student.updateStudent st studentId d classroomId isActive tok = Returns r st' →
  consistent st'.
Proof.
  intros Hc H. destruct (is_error r) eqn:Hr.
  { unfold Student.updateStudent in H. by flow_inv H. }
  destruct (updateStudent_success _ _ _ _ _ _ _ _ H Hr)
    as (student & Hfind & -> & -> & Hcls).
  apply findById_Some in Hfind. destruct (Hc _ _ Hfind) as [Hs Hin].
  apply consistent_insert_student; [done..|].
  intros c Hc'. simpl in Hc'. destruct (defined classroomId); [|by apply Hin].
  apply toString_or_null_Some in Hc' as [Ht <-].
  destruct (Hcls Ht) as [Hold|(classroom & ? & _ & ? & _)]; [by apply Hin|eauto].
Qed.

Lemma deleteStudent_consistent st studentId tok r st' :
  consistent st →
  Student.deleteStudent st studentId tok = Returns r st' →
  consistent st'.
Proof.
  intros Hc H. destruct (is_error r) eqn:Hr.
  { unfold Student.deleteStudent in H. by flow_inv H. }
  destruct (deleteStudent_success _ _ _ _ _ H Hr)
    as (student & Hfind & _ & -> & ->).
  apply findById_Some in Hfind. destruct (Hc _ _ Hfind) as [Hs Hin].
  by apply consistent_insert_student.
Qed.

Lemma transferStudent_consistent w st studentId toSchoolId toClassroomId
    reason tok r st' :
  consistent st →
  Student.transferStudent w st studentId toSchoolId toClassroomId reason tok
    = Returns r st' →
  consistent st'.
Proof.
  intros Hc H. destruct (is_error r) eqn:Hr.
  { unfold Student.transferStudent in H. by flow_inv H. }
  destruct (transferStudent_success _ _ _ _ _ _ _ _ _ H Hr)
    as (student & src & tgt & Hfind & _ & Hsrc & _ & -> & Hsch & Hcls).
  apply consistent_insert_student; [done| |].
  - unfold school_exists. simpl. destruct (truthy toSchoolId) eqn:Ht; [|eauto].
    destruct (Hsch eq_refl) as (school & ? & _). eauto.
  - intros c Hc'. simpl in Hc'. apply toString_or_null_Some in Hc' as [Ht <-].
    destruct (Hcls Ht) as (classroom & ? & _ & ? & _). eauto.
Qed.

Lemma read_only_calls st c tok :
  match c with
  | GetSchools _ _ _ _ | GetSchool _ | GetClassrooms _ _ _ _ _ _ _
  | GetClassroom _ | GetStudents _ _ _ _ _ _ _ | GetStudent _ =>
      after st (dispatch this st c tok) = st
  | _ => True
  end.
Proof.
  destruct c; try done; simpl;
    unfold School.getSchools, School.getSchool, Classroom.getClassrooms,
      Classroom.getClassroom, Student.getStudents, Student.getStudent,
      Classroom._getEffectiveSchoolId, run, flow_bind, return_if, required,
      return_some, prop;
    by repeat (case_match; simplify_eq/=).
Qed.

Lemma dispatch_consistent st c tok :
  consistent st → consistent (after st (dispatch this st c tok)).
Proof.
  intros Hc. pose proof (read_only_calls st c tok) as Hro.
  destruct c; simpl in *; try (rewrite Hro; exact Hc);
    match goal with
    | |- consistent (after _ ?o) =>
        destruct o as [r st'|e] eqn:Ho; simpl; [|exact Hc]
    end.
  - by eapply createSchool_consistent.
  - by eapply updateSchool_consistent.
  - by eapply deleteSchool_consistent.
  - by eapply createClassroom_consistent.
  - by eapply updateClassroom_consistent.
  - by eapply deleteClassroom_consistent.
  - by eapply createStudent_consistent.
  - by eapply updateStudent_consistent.
  - by eapply deleteStudent_consistent.
  - by eapply transferStudent_consistent.
Qed.

(** A call that returns an error object has written nothing. *)
Lemma error_response_writes_nothing st c token r st' :
  dispatch this st c token = Returns r st' → is_error r = true → st' = st.
Proof.
  intros H Hr. destruct c; simpl in H.
  - unfold School.createSchool in H. by flow_inv H.
  - unfold School.getSchools in H. by flow_inv H.
  - unfold School.getSchool in H. by flow_inv H.
  - unfold School.updateSchool in H. by flow_inv H.
  - unfold School.deleteSchool in H. by flow_inv H.
  - unfold Classroom.createClassroom, Classroom._getEffectiveSchoolId in H.
    by flow_inv H.
  - unfold Classroom.getClassrooms, Classroom._getEffectiveSchoolId in H.
    by flow_inv H.
  - unfold Classroom.getClassroom in H. by flow_inv H.
  - unfold Classroom.updateClassroom in H. by flow_inv H.
  - unfold Classroom.deleteClassroom in H. by flow_inv H.
  - unfold Student.createStudent in H. by flow_inv H.
  - unfold Student.getStudents in H. by flow_inv H.
  - unfold Student.getStudent in H. by flow_inv H.
  - unfold Student.updateStudent in H. by flow_inv H.
  - unfold Student.deleteStudent in H. by flow_inv H.
  - unfold Student.transferStudent in H. by flow_inv H.
Qed.

Lemma reachable_consistent st : reachable this st → consistent st.
Proof.
  induction 1 as [|st c tok _ IH]; [|by apply dispatch_consistent].
  intros id s Hs. simpl in Hs. by rewrite lookup_empty in Hs.
Qed.
End Invariant.

Lemma findById_insert {D} (m : gmap string D) id d d' :
  findById m id = Some d → findById (<[toString id := d']> m) id = Some d'.
Proof.
  destruct id; try done; intros _; unfold findById, toString;
    apply lookup_insert_eq.
Qed.

(** ** Counting documents *)

Lemma countDocuments_insert_fresh {D} (m : gmap string D) i d q :
  m !! i = None →
  countDocuments (<[i := d]> m) q
  = countDocuments m q + (if q d then 1 else 0).
Proof.
  intros Hi. unfold countDocuments.
  rewrite (map_to_list_insert m i d Hi). rewrite filter_cons. simpl.
  destruct (q d); case_decide; try done; simpl; lia.
Qed.

Lemma countDocuments_insert_update {D} (m : gmap string D) i d0 d q :
  m !! i = Some d0 →
  countDocuments (<[i := d]> m) q
  = countDocuments m q - (if q d0 then 1 else 0) + (if q d then 1 else 0).
Proof.
  intros Hi.
  rewrite <- (insert_delete_eq m i d).
  rewrite countDocuments_insert_fresh by apply lookup_delete_eq.
  rewrite <- (insert_id m i d0 Hi) at 2.
  rewrite <- (insert_delete_eq m i d0).
  rewrite (countDocuments_insert_fresh (delete i m) i d0) by apply lookup_delete_eq.
  lia.
Qed.

Lemma activeInClassroom_insert_fresh st i d v :
  students st !! i = None →
  Student.activeInClassroom (with_students st (<[i := d]> (students st))) v
  = Student.activeInClassroom st v
    + (if ref_matches (stu_classroomId d) v && stu_isActive d then 1 else 0).
Proof.
  intros Hi.
  exact (countDocuments_insert_fresh (students st) i d
           (λ s, ref_matches (stu_classroomId s) v && stu_isActive s) Hi).
Qed.

Lemma activeInClassroom_insert_update st i d0 d v :
  students st !! i = Some d0 →
  Student.activeInClassroom (with_students st (<[i := d]> (students st))) v
  = Student.activeInClassroom st v
    - (if ref_matches (stu_classroomId d0) v && stu_isActive d0 then 1 else 0)
    + (if ref_matches (stu_classroomId d) v && stu_isActive d then 1 else 0).
Proof.
  intros Hi.
  exact (countDocuments_insert_update (students st) i d0 d
           (λ s, ref_matches (stu_classroomId s) v && stu_isActive s) Hi).
Qed.

(** ** Properties of the managers *)

Section Properties.
Variable this : Collaborators.

(** C1. In every database the managers produce, after every successful
    createStudent, updateStudent or transferStudent call, every student
    whose classroomId is not null references a classroom whose schoolId
    equals the student's schoolId. *)
Theorem student_classroom_in_student_school st c token r st' :
  reachable this st →
  student_write c = true →
  dispatch this st c token = Returns r st' →
  is_error r = false →
  ∀ id student classroomId,
    students st' !! id = Some student →
    stu_classroomId student = Some classroomId →
    ∃ classroom,
      classrooms st' !! classroomId = Some classroom
      ∧ cls_schoolId classroom = stu_schoolId student.
Proof.
  intros Hreach _ Hcall _ id student classroomId Hid Hcls.
  assert (consistent st') as Hst'.
  { replace st' with (after st (dispatch this st c token))
      by (by rewrite Hcall).
    apply dispatch_consistent, (reachable_consistent this), Hreach. }
  destruct (Hst' id student Hid) as [_ Hin]. by apply Hin.
Qed.

(** C4. Every exposed operation called without a token should return the
    401 "Authentication required" response before anything else. For
    getClassrooms the code does not: [_getEffectiveSchoolId] of the
    classroom manager reads [token.role] first, so the call throws a
    TypeError, whatever the database and the other parameters. *)
Theorem getClassrooms_without_token_throws st schoolId page limit search
    grade isActive academicYear :
  Classroom.getClassrooms this st schoolId page limit search grade isActive
    academicYear None
  = Throws "TypeError: Cannot read properties of undefined".
Proof. reflexivity. Qed.

(** The fifteen other operations do return the 401 response, and write
    nothing. *)
Lemma other_calls_without_token st c :
  is_getClassrooms c = false →
  dispatch this st c None = Returns unauthenticated st.
Proof. by destruct c. Qed.

(** C8. For a school, a classroom and a student alike: when a soft delete
    succeeds, the same call made again returns the already-inactive error
    ("School is already inactive", "Classroom is already inactive",
    "Student is already unenrolled") and leaves the database as the first
    call left it. *)
Theorem second_soft_delete_already_inactive e st id token r st' :
  softDelete e st id token = Returns r st' →
  is_error r = false →
  softDelete e st' id token = Returns (already_inactive e) st'.
Proof.
  intros H Hr. destruct e; simpl in *.
  - unfold School.deleteSchool in *. flow_inv H.
    erewrite findById_insert by done. done.
  - unfold Classroom.deleteClassroom in *. flow_inv H.
    erewrite findById_insert by done. simpl. by rewrite H4.
  - unfold Student.deleteStudent in *. flow_inv H.
    erewrite findById_insert by done. simpl. by rewrite H4.
Qed.

(** C10, as amended. For an existing student, every updateStudent call
    that sets isActive to false and gives no classroomId leaves the
    student's classroomId as it was; when it succeeds it deactivates the
    student, and the seat is freed all the same: the student leaves the
    count of active students of the classroom, the count every capacity
    check reads, and no other count changes. A successful deleteStudent
    call sets the classroomId to null as it deactivates the student. *)
Theorem deactivation_through_update_keeps_classroom st studentId d token
    student :
  findById (students st) studentId = Some student →
  (∀ r st',
     Student.updateStudent st studentId d JUndefined (Some false) token
       = Returns r st' →
     ∃ student',
       students st' !! toString studentId = Some student'
       ∧ stu_classroomId student' = stu_classroomId student
       ∧ (is_error r = false →
          stu_isActive student' = false
          ∧ ∀ v, Student.activeInClassroom st' v
                 = Student.activeInClassroom st v
                   - (if ref_matches (stu_classroomId student) v
                         && stu_isActive student then 1 else 0)))
  ∧ (∀ r st',
       Student.deleteStudent st studentId token = Returns r st' →
       is_error r = false →
       ∃ student',
         students st' !! toString studentId = Some student'
         ∧ stu_isActive student' = false
         ∧ stu_classroomId student' = None).
Proof.
  intros Hfind. split.
  - intros r st' H. destruct (is_error r) eqn:Hr.
    + rewrite (error_response_writes_nothing this st
                 (UpdateStudent studentId d JUndefined (Some false)) token
                 r st' H Hr).
      exists student. by split_and!; [apply findById_Some|..].
    + destruct (updateStudent_success _ _ _ _ _ _ _ _ H Hr)
        as (student0 & Hfind0 & -> & -> & _).
      assert (student0 = student) as -> by congruence.
      eexists. split_and!; [apply lookup_insert_eq|done|].
      intros _. split; [done|]. intros v.
      rewrite (activeInClassroom_insert_update st _ student)
        by by apply findById_Some.
      simpl. rewrite andb_false_r. lia.
  - intros r st' H Hr.
    destruct (deleteStudent_success _ _ _ _ _ H Hr)
      as (student0 & Hfind0 & _ & -> & ->).
    eexists. split_and!; [apply lookup_insert_eq|done..].
Qed.

(** C6. In every database the managers produce, after a successful
    transferStudent call the student's schoolId is toSchoolId when one was
    given and is unchanged otherwise, the classroomId is toClassroomId when
    one was given and null otherwise, and the transfer history has exactly
    one more record, whose fromSchool and fromClassroom are the student's
    school and classroom before the call. *)
Theorem transfer_effect w st studentId toSchoolId toClassroomId reason token
    student r st' :
  reachable this st →
  findById (students st) studentId = Some student →
  Student.transferStudent w st studentId toSchoolId toClassroomId reason token
    = Returns r st' →
  is_error r = false →
  ∃ student' entry,
    students st' !! toString studentId = Some student'
    ∧ stu_schoolId student'
      = (if truthy toSchoolId then toString toSchoolId
         else stu_schoolId student)
    ∧ stu_classroomId student'
      = (if truthy toClassroomId then Some (toString toClassroomId)
         else None)
    ∧ stu_transferHistory student' = (stu_transferHistory student ++ [entry])%list
    ∧ fromSchool entry = stu_schoolId student
    ∧ fromClassroom entry = stu_classroomId student
    ∧ toSchool entry = stu_schoolId student'
    ∧ toClassroom entry = stu_classroomId student'.
Proof.
  intros Hreach Hfind H Hr.
  destruct (transferStudent_success _ _ _ _ _ _ _ _ _ H Hr)
    as (student0 & src & tgt & Hfind0 & _ & _ & _ & -> & _ & _).
  assert (student0 = student) as -> by congruence.
  eexists _, _. split_and!; [apply lookup_insert_eq|try done..].
  simpl. unfold Student.populated.
  destruct (stu_classroomId student) as [c|] eqn:Hc; [|done]. simpl.
  apply findById_Some in Hfind.
  destruct (reachable_consistent this st Hreach _ _ Hfind) as [_ Hin].
  destruct (Hin c Hc) as (classroom & -> & _). done.
Qed.

(** C9, as amended. An authenticated transferStudent call first requires
    a studentId, then one of toSchoolId and toClassroomId, and only then
    looks the student up and requires the student to be active: without a
    studentId it returns "Student ID is required" whatever else is given;
    with a studentId and neither target it returns "At least one of
    toSchoolId or toClassroomId is required", whether the student exists,
    is active, or not; "Student not found" and "Cannot transfer an
    inactive student" are returned only when a target is given. *)
Theorem transfer_requires_target_before_student w st studentId toSchoolId
    toClassroomId reason token :
  let result :=
    Student.transferStudent w st studentId toSchoolId toClassroomId reason
      (Some token) in
  (truthy studentId = false →
   result = Returns (Error "Student ID is required" None) st)
  ∧ (truthy studentId = true →
     truthy toSchoolId = false → truthy toClassroomId = false →
     result
     = Returns
         (Error "At least one of toSchoolId or toClassroomId is required"
            None) st)
  ∧ (truthy studentId = true →
     truthy toSchoolId || truthy toClassroomId = true →
     findById (students st) studentId = None →
     result = Returns (Error "Student not found" None) st)
  ∧ (truthy studentId = true →
     truthy toSchoolId || truthy toClassroomId = true →
     ∀ student,
       findById (students st) studentId = Some student →
       stu_isActive student = false →
       result = Returns (Error "Cannot transfer an inactive student" None) st).
Proof.
  unfold Student.transferStudent. simpl. split_and!.
  - intros Hid. by rewrite Hid.
  - intros Hid Hs Hc. by rewrite Hid, Hs, Hc.
  - intros Hid Ht Hfind. rewrite Hid. simpl.
    apply orb_true_iff in Ht.
    assert (negb (truthy toSchoolId) && negb (truthy toClassroomId) = false)
      as -> by (destruct Ht as [-> | ->]; simpl; [done|apply andb_false_r]).
    simpl. by rewrite Hfind.
  - intros Hid Ht student Hfind Hinactive. rewrite Hid. simpl.
    apply orb_true_iff in Ht.
    assert (negb (truthy toSchoolId) && negb (truthy toClassroomId) = false)
      as -> by (destruct Ht as [-> | ->]; simpl; [done|apply andb_false_r]).
    simpl. rewrite Hfind. simpl. by rewrite Hinactive.
Qed.

(** C5, as amended. In every database the managers produce, a
    transferStudent call by a school_admin that names an active student
    and gives a toSchoolId different from the student's schoolId returns an
    error with code 403 and writes nothing, whichever school toSchoolId
    names. *)
Theorem school_admin_cross_school_transfer_forbidden w st studentId
    toSchoolId toClassroomId reason token student :
  reachable this st →
  role token = "school_admin" →
  truthy studentId = true →
  findById (students st) studentId = Some student →
  stu_isActive student = true →
  truthy toSchoolId = true →
  toString toSchoolId ≠ stu_schoolId student →
  ∃ message,
    Student.transferStudent w st studentId toSchoolId toClassroomId reason
      (Some token)
    = Returns (Error message (Some 403)) st.
Proof.
  intros Hreach Hrole Hid Hfind Hactive Hto Hne.
  pose proof Hfind as Hlook. apply findById_Some in Hlook.
  destruct (reachable_consistent this st Hreach _ _ Hlook) as [[src Hsrc] _].
  unfold Student.transferStudent. simpl.
  rewrite Hid, Hto; simpl. rewrite Hfind; simpl. rewrite Hactive; simpl.
  rewrite Hsrc; simpl.
  destruct (Student._checkSchoolAccess (Some token)
              (JObjectId (stu_schoolId student))) as [e|] eqn:Hacc; simpl.
  - unfold Student._checkSchoolAccess in Hacc. rewrite Hrole in Hacc.
    simpl in Hacc. case_match; simplify_eq. eauto.
  - assert (strict_neq toSchoolId (Some (stu_schoolId student)) = true) as ->.
    { destruct toSchoolId; try done. simpl. by apply bool_decide_eq_true_2. }
    rewrite Hrole. simpl. eauto.
Qed.

(** C7, as amended. For a createStudent call with the id of an existing
    classroom: the call succeeds only if the classroom's count of active
    students is below its capacity; when the count has reached the capacity
    the call returns an error and creates no student, and that error is
    "Classroom is at full capacity" whenever the checks made before the
    capacity check all pass. *)
Theorem createStudent_capacity w st schoolId classroomId d token classroom :
  truthy classroomId = true →
  findById (classrooms st) classroomId = Some classroom →
  let o := Student.createStudent this w st schoolId classroomId d token in
  (succeeded o = true →
   Student.activeInClassroom st classroomId < cls_capacity classroom)
  ∧ (cls_capacity classroom ≤ Student.activeInClassroom st classroomId →
     ∃ r, o = Returns r st
          ∧ is_error r = true
          ∧ (reaches_capacity_check this st schoolId classroomId d token
             = true →
             ∃ text, r = Error text None
                     ∧ text = "Classroom is at full capacity"
                     ∧ contains "full capacity" text = true)).
Proof.
  intros Hcid Hfind o.
  assert (∀ r st', o = Returns r st' → is_error r = false →
            Student.activeInClassroom st classroomId < cls_capacity classroom)
    as Hok.
  { intros r st' Ho Hr.
    destruct (createStudent_success _ _ _ _ _ _ _ _ _ Ho Hr)
      as (? & ? & _ & _ & _ & _ & _ & _ & Hcls).
    destruct (Hcls Hcid) as (classroom' & Hc' & _ & _ & Hlt).
    apply findById_Some in Hfind. by simplify_eq. }
  split.
  - destruct o as [r st'|] eqn:Ho; simpl; [|done].
    intros Hr%negb_true_iff. eauto.
  - intros Hfull. destruct o as [r st'|e] eqn:Ho.
    + destruct (is_error r) eqn:Hr; [|specialize (Hok _ _ eq_refl Hr); lia].
      rewrite (createStudent_failure _ _ _ _ _ _ _ _ _ Ho Hr).
      exists r. split_and!; [done..|].
      intros Hreach. eexists. split_and!; [|done..]. subst o.
      unfold reaches_capacity_check in Hreach.
      unfold Student.createStudent in Ho.
      destruct token as [token|]; [|done]. simpl in Ho.
      repeat (apply andb_prop in Hreach as [Hreach ?]).
      bool_norm. rewrite Hfind in H. rewrite H4, H3, H2, Hcid, Hfind in Ho.
      flow_inv Ho; bool_norm; simplify_eq/=; try done; try lia; congruence.
    + exfalso. subst o. unfold Student.createStudent in Ho.
      rewrite Hcid, Hfind in Ho.
      flow_inv Ho; bool_norm; lia.
Qed.

Lemma student_effective_school_of_admin t requested :
  role t = "school_admin" →
  Student._getEffectiveSchoolId (Some t) requested = tok_schoolId t.
Proof. unfold Student._getEffectiveSchoolId. by intros ->. Qed.

Lemma classroom_effective_school_of_admin t requested :
  role t = "school_admin" →
  Classroom._getEffectiveSchoolId (Some t) requested = Go (tok_schoolId t).
Proof. unfold Classroom._getEffectiveSchoolId. simpl. by intros ->. Qed.

Lemma student_access_own_school t S :
  role t = "school_admin" → tok_schoolId t = JStr S → S ≠ "" →
  Student._checkSchoolAccess (Some t) (JStr S) = None.
Proof.
  intros Hr Ht HS. unfold Student._checkSchoolAccess, toString_or_null, truthy.
  rewrite Hr, Ht. simpl. rewrite !bool_decide_eq_true_2 by done. simpl.
  by rewrite bool_decide_eq_false_2 by (by intros []).
Qed.

Lemma classroom_access_own_school t S :
  role t = "school_admin" → tok_schoolId t = JStr S → S ≠ "" →
  Classroom._checkSchoolAccess (Some t) (JStr S) = None.
Proof.
  intros Hr Ht HS. unfold Classroom._checkSchoolAccess, toString_or_null, truthy.
  rewrite Hr, Ht. simpl. rewrite !bool_decide_eq_true_2 by done. simpl.
  by rewrite bool_decide_eq_false_2 by (by intros []).
Qed.

(** C3, as amended. For a school_admin with school S:
    [_getEffectiveSchoolId] returns S whatever school id is requested and
    never fails; createStudent and createClassroom reject a requested id
    that is present and differs from S with a 403 of their own, and
    otherwise behave as if S had been requested, return no error code
    and create the document in school S; getStudents and getClassrooms
    ignore the requested id and answer for school S. *)
Theorem school_admin_effective_school t S :
  role t = "school_admin" → tok_schoolId t = JStr S → S ≠ "" →
  (∀ requested,
     Student._getEffectiveSchoolId (Some t) requested = JStr S
     ∧ Classroom._getEffectiveSchoolId (Some t) requested = Go (JStr S))
  ∧ (∀ w st requested classroomId d,
       let o := Student.createStudent this w st requested classroomId d
                  (Some t) in
       if truthy requested && bool_decide (toString requested ≠ S)
       then o = Returns
                  (Error
                     "Access denied. You can only access students in your assigned school."
                     (Some 403)) st
       else o = Student.createStudent this w st (JStr S) classroomId d (Some t)
            ∧ ∀ r st', o = Returns r st' →
                code_of r = None
                ∧ ∀ m id doc tr, r = OneStudent m id doc tr →
                    stu_schoolId doc = S)
  ∧ (∀ w st requested d,
       let o := Classroom.createClassroom this w st requested d (Some t) in
       if truthy requested && bool_decide (toString requested ≠ S)
       then o = Returns
                  (Error
                     "Access denied. You can only access your assigned school."
                     (Some 403)) st
       else o = Classroom.createClassroom this w st (JStr S) d (Some t)
            ∧ ∀ r st', o = Returns r st' →
                code_of r = None
                ∧ ∀ m id doc c, r = OneClassroom m id doc c →
                    cls_schoolId doc = S)
  ∧ (∀ st requested classroomId page limit search gender isActive,
       Student.getStudents this st requested classroomId page limit search
         gender isActive (Some t)
       = Student.getStudents this st (JStr S) classroomId page limit search
           gender isActive (Some t)
       ∧ ∃ items pagination,
           Student.getStudents this st requested classroomId page limit
             search gender isActive (Some t)
           = Returns (ManyStudents items pagination) st)
  ∧ (∀ st requested page limit search grade isActive academicYear,
       Classroom.getClassrooms this st requested page limit search grade
         isActive academicYear (Some t)
       = Classroom.getClassrooms this st (JStr S) page limit search grade
           isActive academicYear (Some t)
       ∧ ∃ items pagination,
           Classroom.getClassrooms this st requested page limit search grade
             isActive academicYear (Some t)
           = Returns (ManyClassrooms items pagination) st).
Proof.
  intros Hrole Htok HS.
  assert (truthy (JStr S) = true) as HtS
    by (unfold truthy; by apply bool_decide_eq_true_2).
  assert (toString_or_null (JStr S) = Some S) as HnS
    by (unfold toString_or_null; by rewrite HtS).
  split_and!.
  - intros requested.
    by rewrite student_effective_school_of_admin,
      classroom_effective_school_of_admin, Htok.
  - intros w st requested classroomId d. simpl.
    unfold Student.createStudent. simpl.
    rewrite !student_effective_school_of_admin by done.
    rewrite Hrole, Htok, HnS, HtS. simpl.
    rewrite (student_access_own_school t S) by done. simpl.
    rewrite (bool_decide_eq_false_2 (Some (toString (JStr S)) ≠ Some S))
      by (by intros []).
    destruct (truthy requested) eqn:Hreq; simpl;
      [destruct (decide (toString requested = S)) as [Heq|Hne]|].
    + rewrite (bool_decide_eq_false_2 (toString requested ≠ S))
        by (by intros []).
      rewrite (bool_decide_eq_false_2 (Some (toString requested) ≠ Some S))
        by (intros []; congruence).
      split; [done|]. intros r st' H.
      flow_inv H; (split; [done|]; intros; by simplify_eq).
    + rewrite (bool_decide_eq_true_2 (toString requested ≠ S)) by done.
      by rewrite (bool_decide_eq_true_2 (Some (toString requested) ≠ Some S))
        by congruence.
    + split; [done|]. intros r st' H.
      flow_inv H; (split; [done|]; intros; by simplify_eq).
  - intros w st requested d. simpl.
    unfold Classroom.createClassroom. simpl.
    rewrite !classroom_effective_school_of_admin by done.
    rewrite Hrole, Htok, HnS, HtS. simpl.
    rewrite (classroom_access_own_school t S) by done. simpl.
    rewrite (bool_decide_eq_false_2 (Some (toString (JStr S)) ≠ Some S))
      by (by intros []).
    destruct (truthy requested) eqn:Hreq; simpl;
      [destruct (decide (toString requested = S)) as [Heq|Hne]|].
    + rewrite (bool_decide_eq_false_2 (toString requested ≠ S))
        by (by intros []).
      rewrite (bool_decide_eq_false_2 (Some (toString requested) ≠ Some S))
        by (intros []; congruence).
      split; [done|]. intros r st' H.
      flow_inv H; (split; [done|]; intros; by simplify_eq).
    + rewrite (bool_decide_eq_true_2 (toString requested ≠ S)) by done.
      by rewrite (bool_decide_eq_true_2 (Some (toString requested) ≠ Some S))
        by congruence.
    + split; [done|]. intros r st' H.
      flow_inv H; (split; [done|]; intros; by simplify_eq).
  - intros st requested classroomId page limit search gender isActive.
    unfold Student.getStudents. simpl.
    rewrite !student_effective_school_of_admin by done. rewrite Htok.
    rewrite (student_access_own_school t S) by done. simpl. eauto.
  - intros st requested page limit search grade isActive academicYear.
    unfold Classroom.getClassrooms. simpl.
    rewrite !classroom_effective_school_of_admin by done. rewrite Htok. simpl.
    rewrite (classroom_access_own_school t S) by done. simpl. eauto.
Qed.
End Properties.

(** ** The cascade guard of the schools *)

Section SchoolGuard.
Variable this : Collaborators.

(** deleteSchool refuses a school that has an active classroom or an active
    student: it returns both counts and writes nothing. *)
Lemma deleteSchool_refuses_school_in_use st schoolId token school :
  School._checkSuperadminAccess token = None →
  truthy schoolId = true →
  findById (schools st) schoolId = Some school →
  sch_isActive school = true →
  let activeClassrooms :=
    countDocuments (classrooms st) (λ c,
      bool_decide (cls_schoolId c = toString schoolId) && cls_isActive c) in
  let activeStudents :=
    countDocuments (students st) (λ s,
      bool_decide (stu_schoolId s = toString schoolId) && stu_isActive s) in
  0 < activeClassrooms ∨ 0 < activeStudents →
  School.deleteSchool st schoolId token
  = Returns
      (ErrorSchoolInUse
         "Cannot delete school with active classrooms or students. Please deactivate or transfer them first."
         activeClassrooms activeStudents) st.
Proof.
  intros Hacc Hid Hfind Hactive nc ns Hcount.
  unfold School.deleteSchool. rewrite Hacc, Hid. simpl.
  rewrite Hfind. simpl. rewrite Hactive. simpl.
  fold nc ns.
  assert ((0 <? nc) || (0 <? ns) = true) as ->; [|done].
  apply orb_true_iff. destruct Hcount; [left|right]; by apply Z.ltb_lt.
Qed.

(** updateSchool assigns [isActive] without looking at the classrooms and
    students of the school. *)
Lemma updateSchool_isActive_unguarded st schoolId d isActive token school :
  School._checkSuperadminAccess token = None →
  truthy schoolId = true →
  findById (schools st) schoolId = Some school →
  sd_name d = JUndefined →
  School.updateSchool this st schoolId d (Some isActive) token
  = Returns
      (OneSchool None (toString schoolId)
         (School.update_fields school d (Some isActive)) None)
      (with_schools st
         (<[toString schoolId := School.update_fields school d (Some isActive)]>
            (schools st)))
  ∧ sch_isActive (School.update_fields school d (Some isActive)) = isActive.
Proof.
  intros Hacc Hid Hfind Hname.
  unfold School.updateSchool. rewrite Hacc, Hid. simpl.
  rewrite Hfind. simpl. rewrite Hname. done.
Qed.
End SchoolGuard.

(** ** The sample run *)

Module ScenarioFacts.
Import Scenario.

Lemma db3_reachable : reachable plain db3.
Proof. repeat apply reachable_call. apply reachable_empty. Qed.

Lemma db4_reachable : reachable plain db4.
Proof. apply reachable_call, db3_reachable. Qed.

Lemma db5_reachable : reachable plain db5.
Proof. apply reachable_call, db4_reachable. Qed.

(** Room 1 is full once A is enrolled. *)
Lemma room_1_full :
  Student.activeInClassroom db4 (JStr "C1") = 1
  ∧ cls_capacity <$> classrooms db4 !! "C1" = Some 1.
Proof. by vm_compute. Qed.

End ScenarioFacts.

(** C2. A school with an active classroom or student must not become
    inactive. deleteSchool refuses, returning both counts and writing
    nothing; updateSchool with [isActive: false] has no such check and
    deactivates the school. Here school X has one active classroom and one
    active student. *)
Theorem updateSchool_deactivates_school_in_use :
  let st := Scenario.db4 in
  let counts :=
    (countDocuments (classrooms st)
       (λ c, bool_decide (cls_schoolId c = "X") && cls_isActive c),
     countDocuments (students st)
       (λ s, bool_decide (stu_schoolId s = "X") && stu_isActive s)) in
  counts = (1, 1)
  ∧ School.deleteSchool st (JStr "X") Scenario.root
    = Returns
        (ErrorSchoolInUse
           "Cannot delete school with active classrooms or students. Please deactivate or transfer them first."
           1 1) st
  ∧ ∃ school st',
      School.updateSchool Scenario.plain st (JStr "X")
        Scenario.no_school_change (Some false) Scenario.root
      = Returns (OneSchool None "X" school None) st'
      ∧ sch_isActive school = false
      ∧ schools st' !! "X" = Some school.
Proof.
  split_and!; [by vm_compute..|]. eexists _, _. split_and!.
  - vm_compute. reflexivity.
  - reflexivity.
  - vm_compute. reflexivity.
Qed.

Section Witnesses.
Import Scenario.

(** C1 at the enrolment of A in Room 1. *)
Lemma student_classroom_in_student_school_witness :
  reachable plain db3
  ∧ student_write enrol_A = true
  ∧ ∃ student classroom,
      students db4 !! "A" = Some student
      ∧ stu_classroomId student = Some "C1"
      ∧ classrooms db4 !! "C1" = Some classroom
      ∧ cls_schoolId classroom = stu_schoolId student.
Proof.
  split; [apply ScenarioFacts.db3_reachable|]. split; [reflexivity|].
  assert (∃ student, students db4 !! "A" = Some student
                     ∧ stu_classroomId student = Some "C1")
    as (student & Hstudent & Hclassroom)
    by (eexists; split; vm_compute; reflexivity).
  assert (dispatch plain db3 enrol_A root
          = Returns (reply (dispatch plain db3 enrol_A root)) db4) as Hcall
    by (vm_compute; reflexivity).
  destruct (student_classroom_in_student_school plain db3 enrol_A root
              _ db4 ScenarioFacts.db3_reachable eq_refl Hcall eq_refl
              "A" student "C1" Hstudent Hclassroom)
    as (classroom & Hlookup & Hschool).
  exists student, classroom. split_and!; assumption.
Defined.

(** C3: the administrator of X asks for school Y. *)
Lemma effective_school_resolution_counterexample :
  let token := Some (admin_of "X") in
  Student._getEffectiveSchoolId token (JStr "Y") = JStr "X"
  ∧ Student._checkSchoolAccess token
      (Student._getEffectiveSchoolId token (JStr "Y")) = None
  ∧ ∃ items pagination,
      Student.getStudents plain db4 (JStr "Y") JUndefined None None
        JUndefined JUndefined None token
      = Returns (ManyStudents items pagination) db4.
Proof.
  split_and!; [by vm_compute..|]. eexists _, _. vm_compute. reflexivity.
Qed.

Lemma school_admin_effective_school_witness :
  role (admin_of "X") = "school_admin"
  ∧ tok_schoolId (admin_of "X") = JStr "X"
  ∧ "X" ≠ ""
  ∧ Student._getEffectiveSchoolId (Some (admin_of "X")) (JStr "Y") = JStr "X"
  ∧ Student.createStudent plain (at_id "B") db4 (JStr "Y") JUndefined
      (pupil "B") (Some (admin_of "X"))
    = Returns
        (Error
           "Access denied. You can only access students in your assigned school."
           (Some 403)) db4.
Proof.
  assert ("X" ≠ "") as HX by discriminate.
  destruct (school_admin_effective_school plain (admin_of "X") "X"
              eq_refl eq_refl HX) as (Hget & Hcreate & _).
  split_and!; [reflexivity|reflexivity|exact HX|apply Hget|].
  apply (Hcreate (at_id "B") db4 (JStr "Y") JUndefined (pupil "B")).
Defined.

(** C5: A has been unenrolled; the administrator of X asks for a
    transfer to Y. *)
Lemma school_admin_cross_school_transfer_counterexample :
  ∃ student,
    students db5 !! "A" = Some student
    ∧ stu_schoolId student = "X"
    ∧ stu_isActive student = false
    ∧ Student.transferStudent (at_id "") db5 (JStr "A") (JStr "Y")
        JUndefined JUndefined (Some (admin_of "X"))
      = Returns (Error "Cannot transfer an inactive student" None) db5.
Proof. eexists. split_and!; by vm_compute. Qed.

Lemma school_admin_cross_school_transfer_forbidden_witness :
  reachable plain db4
  ∧ role (admin_of "X") = "school_admin"
  ∧ truthy (JStr "A") = true
  ∧ (stu_isActive <$> findById (students db4) (JStr "A")) = Some true
  ∧ truthy (JStr "Y") = true
  ∧ (stu_schoolId <$> findById (students db4) (JStr "A")) ≠ Some "Y"
  ∧ ∃ message,
      Student.transferStudent (at_id "") db4 (JStr "A") (JStr "Y")
        JUndefined JUndefined (Some (admin_of "X"))
      = Returns (Error message (Some 403)) db4.
Proof.
  split_and!;
    [apply ScenarioFacts.db4_reachable|reflexivity|reflexivity
    |by vm_compute|reflexivity|by vm_compute|].
  eapply (school_admin_cross_school_transfer_forbidden plain (at_id "") db4
            (JStr "A") (JStr "Y") JUndefined JUndefined (admin_of "X") _
            ScenarioFacts.db4_reachable eq_refl eq_refl).
  - vm_compute. reflexivity.
  - reflexivity.
  - reflexivity.
  - by vm_compute.
Defined.

(** C6 at the transfer of A from school X, Room 1, to school Y. *)
Lemma transfer_effect_witness :
  reachable plain db4
  ∧ ∃ student student' entry,
      findById (students db4) (JStr "A") = Some student
      ∧ stu_schoolId student = "X"
      ∧ stu_classroomId student = Some "C1"
      ∧ students db6 !! "A" = Some student'
      ∧ stu_schoolId student' = "Y"
      ∧ stu_classroomId student' = None
      ∧ stu_transferHistory student'
        = (stu_transferHistory student ++ [entry])%list
      ∧ fromSchool entry = "X"
      ∧ fromClassroom entry = Some "C1".
Proof.
  split; [apply ScenarioFacts.db4_reachable|].
  assert (∃ student, findById (students db4) (JStr "A") = Some student
                     ∧ stu_schoolId student = "X"
                     ∧ stu_classroomId student = Some "C1")
    as (student & Hfind & Hschool & Hclassroom)
    by (eexists; split_and!; vm_compute; reflexivity).
  assert (dispatch plain db4 move_A root
          = Returns (reply (dispatch plain db4 move_A root)) db6) as Hcall
    by (vm_compute; reflexivity).
  destruct (transfer_effect plain (at_id "") db4 (JStr "A") (JStr "Y")
              JUndefined (JStr "Family relocation") root student _ db6
              ScenarioFacts.db4_reachable Hfind Hcall eq_refl)
    as (student' & entry & Hlookup & Hs & Hc & Hh & Hfs & Hfc & _).
  exists student, student', entry.
  split_and!; [done..|congruence|congruence].
Defined.

(** C7: Room 1 of school X is full, and a place in it is asked for a
    student of school Y. *)
Lemma createStudent_capacity_counterexample :
  Student.activeInClassroom db4 (JStr "C1") = 1
  ∧ cls_capacity <$> findById (classrooms db4) (JStr "C1") = Some 1
  ∧ Student.createStudent plain (at_id "B") db4 (JStr "Y") (JStr "C1")
      (pupil "B") root
    = Returns
        (Error "Classroom does not belong to the specified school" None)
        db4
  ∧ contains "full capacity"
      "Classroom does not belong to the specified school" = false.
Proof. split_and!; by vm_compute. Qed.

Lemma createStudent_capacity_witness :
  truthy (JStr "C1") = true
  ∧ cls_capacity <$> findById (classrooms db4) (JStr "C1") = Some 1
  ∧ 1 ≤ Student.activeInClassroom db4 (JStr "C1")
  ∧ reaches_capacity_check plain db4 (JStr "X") (JStr "C1") (pupil "B")
      root = true
  ∧ Student.createStudent plain (at_id "B") db4 (JStr "X") (JStr "C1")
      (pupil "B") root
    = Returns (Error "Classroom is at full capacity" None) db4.
Proof.
  assert (∃ classroom,
            findById (classrooms db4) (JStr "C1") = Some classroom
            ∧ cls_capacity classroom = 1)
    as (classroom & Hfind & Hcap)
    by (eexists; split; vm_compute; reflexivity).
  assert (1 ≤ Student.activeInClassroom db4 (JStr "C1")) as Hfull
    by (by vm_compute).
  split_and!; [reflexivity|by vm_compute|exact Hfull|by vm_compute|].
  destruct (createStudent_capacity plain (at_id "B") db4 (JStr "X")
              (JStr "C1") (pupil "B") root classroom eq_refl Hfind)
    as [_ Hrefuse].
  rewrite Hcap in Hrefuse.
  destruct (Hrefuse Hfull) as (r & Hcall & _ & Htext).
  destruct Htext as (text & -> & -> & _); [by vm_compute|]. exact Hcall.
Defined.

(** C8: student A, then Room 1 which A has left, then school Y which has
    neither classroom nor student. *)
Lemma second_soft_delete_already_inactive_witness :
  (succeeded (softDelete AStudent db4 (JStr "A") root) = true
   ∧ softDelete AStudent db5 (JStr "A") root
     = Returns (Error "Student is already unenrolled" None) db5)
  ∧ (succeeded (softDelete AClassroom db5 (JStr "C1") root) = true
     ∧ softDelete AClassroom db7 (JStr "C1") root
       = Returns (Error "Classroom is already inactive" None) db7)
  ∧ (succeeded (softDelete ASchool db7 (JStr "Y") root) = true
     ∧ softDelete ASchool db8 (JStr "Y") root
       = Returns (Error "School is already inactive" None) db8).
Proof.
  split_and!.
  - by vm_compute.
  - eapply (second_soft_delete_already_inactive AStudent db4 (JStr "A") root
              (reply (softDelete AStudent db4 (JStr "A") root)) db5);
      vm_compute; reflexivity.
  - by vm_compute.
  - eapply (second_soft_delete_already_inactive AClassroom db5 (JStr "C1")
              root (reply (softDelete AClassroom db5 (JStr "C1") root)) db7);
      vm_compute; reflexivity.
  - by vm_compute.
  - eapply (second_soft_delete_already_inactive ASchool db7 (JStr "Y") root
              (reply (softDelete ASchool db7 (JStr "Y") root)) db8);
      vm_compute; reflexivity.
Defined.

(** C9: no student has the id "nobody", and no target is given. *)
Lemma transfer_check_order_counterexample :
  findById (students db4) (JStr "nobody") = None
  ∧ Student.transferStudent (at_id "") db4 (JStr "nobody") JUndefined
      JUndefined JUndefined root
    = Returns
        (Error "At least one of toSchoolId or toClassroomId is required"
           None) db4
  ∧ Student.transferStudent (at_id "") db4 (JStr "nobody") JUndefined
      JUndefined JUndefined root
    ≠ Returns (Error "Student not found" None) db4.
Proof. split_and!; by vm_compute. Qed.

Lemma transfer_requires_target_before_student_witness :
  Student.transferStudent (at_id "") db4 JUndefined JUndefined JUndefined
    JUndefined root
  = Returns (Error "Student ID is required" None) db4
  ∧ Student.transferStudent (at_id "") db4 (JStr "nobody") JUndefined
      JUndefined JUndefined root
    = Returns
        (Error "At least one of toSchoolId or toClassroomId is required"
           None) db4
  ∧ Student.transferStudent (at_id "") db4 (JStr "nobody") (JStr "Y")
      JUndefined JUndefined root
    = Returns (Error "Student not found" None) db4
  ∧ (stu_isActive <$> findById (students db5) (JStr "A")) = Some false
  ∧ Student.transferStudent (at_id "") db5 (JStr "A") JUndefined
      JUndefined JUndefined root
    = Returns
        (Error "At least one of toSchoolId or toClassroomId is required"
           None) db5
  ∧ Student.transferStudent (at_id "") db5 (JStr "A") (JStr "Y")
      JUndefined JUndefined root
    = Returns (Error "Cannot transfer an inactive student" None) db5.
Proof.
  set (token := {| role := "superadmin"; tok_schoolId := JUndefined;
                   userId := JStr "u0" |}).
  assert (findById (students db4) (JStr "nobody") = None) as Hnone
    by (by vm_compute).
  assert (∃ student, findById (students db5) (JStr "A") = Some student
                     ∧ stu_isActive student = false)
    as (student & Hfind & Hinactive)
    by (eexists; split; vm_compute; reflexivity).
  split_and!.
  - exact (proj1 (transfer_requires_target_before_student (at_id "") db4
                    JUndefined JUndefined JUndefined JUndefined token)
             eq_refl).
  - exact (proj1 (proj2 (transfer_requires_target_before_student (at_id "")
                           db4 (JStr "nobody") JUndefined JUndefined
                           JUndefined token))
             eq_refl eq_refl eq_refl).
  - exact (proj1 (proj2 (proj2 (transfer_requires_target_before_student
                                  (at_id "") db4 (JStr "nobody") (JStr "Y")
                                  JUndefined JUndefined token)))
             eq_refl eq_refl Hnone).
  - by rewrite Hfind, <- Hinactive.
  - exact (proj1 (proj2 (transfer_requires_target_before_student (at_id "")
                           db5 (JStr "A") JUndefined JUndefined JUndefined
                           token))
             eq_refl eq_refl eq_refl).
  - exact (proj2 (proj2 (proj2 (transfer_requires_target_before_student
                                  (at_id "") db5 (JStr "A") (JStr "Y")
                                  JUndefined JUndefined token)))
             eq_refl eq_refl student Hfind Hinactive).
Defined.

(** C10: Room 1 has one seat and A has it. While A is active B is
    refused; once A is deactivated through updateStudent, A still refers
    to Room 1, the room counts no active student, and B is enrolled. *)
Lemma deactivation_frees_seat_counterexample :
  (cls_capacity <$> classrooms db4 !! "C1") = Some 1
  ∧ Student.activeInClassroom db4 (JStr "C1") = 1
  ∧ dispatch plain db4 Reenrolment.enrol_B root
    = Returns (Error "Classroom is at full capacity" None) db4
  ∧ dispatch plain db4 deactivate_A (Some (admin_of "X"))
    = Returns (reply (dispatch plain db4 deactivate_A (Some (admin_of "X"))))
        db9
  ∧ is_error (reply (dispatch plain db4 deactivate_A (Some (admin_of "X"))))
    = false
  ∧ (stu_classroomId <$> students db9 !! "A") = Some (Some "C1")
  ∧ Student.activeInClassroom db9 (JStr "C1") = 0
  ∧ succeeded (dispatch plain db9 Reenrolment.enrol_B root) = true
  ∧ (stu_classroomId <$> students Reenrolment.db10 !! "B")
    = Some (Some "C1").
Proof. split_and!; by vm_compute. Qed.

(** C10: A is deactivated through updateStudent, or unenrolled. *)
Lemma deactivation_through_update_keeps_classroom_witness :
  (∃ student, findById (students db4) (JStr "A") = Some student
              ∧ stu_classroomId student = Some "C1")
  ∧ (∃ student', students db9 !! "A" = Some student'
                 ∧ stu_isActive student' = false
                 ∧ stu_classroomId student' = Some "C1")
  ∧ Student.activeInClassroom db9 (JStr "C1")
    = Student.activeInClassroom db4 (JStr "C1") - 1
  ∧ (∃ student', students db5 !! "A" = Some student'
                 ∧ stu_isActive student' = false
                 ∧ stu_classroomId student' = None).
Proof.
  assert (∃ student, findById (students db4) (JStr "A") = Some student
                     ∧ stu_classroomId student = Some "C1"
                     ∧ stu_isActive student = true)
    as (student & Hfind & Hclassroom & Hwas)
    by (eexists; split_and!; vm_compute; reflexivity).
  destruct (deactivation_through_update_keeps_classroom plain db4 (JStr "A")
              no_student_change (Some (admin_of "X")) student Hfind)
    as [Hupdate _].
  destruct (deactivation_through_update_keeps_classroom plain db4 (JStr "A")
              no_student_change root student Hfind)
    as [_ Hdelete].
  destruct (Hupdate
              (reply (dispatch plain db4 deactivate_A
                        (Some (admin_of "X")))) db9)
    as (student' & Hlookup & Hkept & Hsuccess);
    [vm_compute; reflexivity|].
  destruct (Hsuccess eq_refl) as [Hactive Hcount].
  split_and!; [exists student; split; assumption|..].
  - exists student'. split_and!; [assumption|assumption|congruence].
  - rewrite (Hcount (JStr "C1")), Hclassroom, Hwas. reflexivity.
  - destruct (Hdelete
                (reply (dispatch plain db4 (DeleteStudent (JStr "A")) root))
                db5)
      as (student'' & Hlookup' & Hactive' & Hnull);
      [vm_compute; reflexivity|reflexivity|].
    exists student''. split_and!; assumption.
Defined.
End Witnesses.

(** * Further properties *)

(** ** Seats of the classrooms *)

Lemma ref_matches_self v :
  truthy v = true → ref_matches (toString_or_null v) v = true.
Proof.
  intros Hv. unfold toString_or_null. rewrite Hv. simpl.
  apply bool_decide_eq_true_2. unfold toString_or_null. by rewrite Hv.
Qed.

Lemma countDocuments_zero {D} (m : gmap string D) q i d :
  countDocuments m q = 0 → m !! i = Some d → q d = false.
Proof.
  unfold countDocuments. intros Hz Hi.
  assert (filter (λ kv : string * D, q kv.2 = true) (map_to_list m) = [])
    as Hnil by (apply length_zero_iff_nil; lia).
  destruct (q d) eqn:Hq; [|done].
  assert ((i, d) ∈ filter (λ kv : string * D, q kv.2 = true) (map_to_list m))
    as Hin.
  { apply list_elem_of_filter. split; [done|]. by apply elem_of_map_to_list. }
  rewrite Hnil in Hin. by apply elem_of_nil in Hin.
Qed.

Lemma countDocuments_nonneg {D} (m : gmap string D) q : 0 ≤ countDocuments m q.
Proof. unfold countDocuments. lia. Qed.

Lemma countDocuments_zero_iff {D} (m : gmap string D) q :
  countDocuments m q = 0 ↔ ∀ i d, m !! i = Some d → q d = false.
Proof.
  split; [intros Hz i d; by apply countDocuments_zero|].
  intros Hq. unfold countDocuments.
  destruct (filter (λ kv : string * D, q kv.2 = true) (map_to_list m))
    as [|[i d] rest] eqn:E; [done|].
  assert ((i, d) ∈ filter (λ kv : string * D, q kv.2 = true) (map_to_list m))
    as [Hd Hin%elem_of_map_to_list]%list_elem_of_filter
    by (rewrite E; left).
  simpl in Hd. by rewrite (Hq i d Hin) in Hd.
Qed.

Lemma activeInClassroom_toString st v :
  truthy v = true →
  Student.activeInClassroom st (JObjectId (toString v))
  = Student.activeInClassroom st v.
Proof.
  intros Hv. unfold Student.activeInClassroom, ref_matches, toString_or_null.
  by rewrite Hv.
Qed.

Lemma ref_matches_id o i :
  ref_matches o (JObjectId i) = bool_decide (o = Some i).
Proof.
  destruct o as [j|]; simpl; [|done].
  apply bool_decide_ext. unfold toString_or_null. simpl. naive_solver.
Qed.

Section Seats.
Variable this : Collaborators.

Lemma createStudent_seat_count w st schoolId classroomId d token r st' v :
  Student.createStudent this w st schoolId classroomId d token = Returns r st' →
  is_error r = false →
  Student.activeInClassroom st' v
  = Student.activeInClassroom st v
    + (if ref_matches (toString_or_null classroomId) v then 1 else 0).
Proof.
  intros H Hr.
  destruct (createStudent_success this _ _ _ _ _ _ _ _ H Hr)
    as (t & doc & -> & Hdoc & -> & Hfresh & -> & _ & _).
  rewrite activeInClassroom_insert_fresh by done.
  rewrite Hdoc. simpl. by rewrite andb_true_r.
Qed.

(** X1. A successful createStudent adds one to the number of active
    students of the classroom it names and changes the number of no other
    classroom; the classroom it names exists and had, before the call,
    fewer active students than its capacity. *)
Theorem createStudent_takes_one_seat w st schoolId classroomId d token r st' :
  Student.createStudent this w st schoolId classroomId d token = Returns r st' →
  is_error r = false →
  (∀ v, Student.activeInClassroom st' v
        = Student.activeInClassroom st v
          + (if ref_matches (toString_or_null classroomId) v then 1 else 0))
  ∧ (truthy classroomId = true →
     ∃ classroom,
       findById (classrooms st') classroomId = Some classroom
       ∧ Student.activeInClassroom st classroomId < cls_capacity classroom
       ∧ Student.activeInClassroom st' classroomId
         = Student.activeInClassroom st classroomId + 1).
Proof.
  intros H Hr.
  pose proof (λ v, createStudent_seat_count _ _ _ _ _ _ _ _ v H Hr) as Hcount.
  destruct (createStudent_success this _ _ _ _ _ _ _ _ H Hr)
    as (t & doc & -> & Hdoc & -> & Hfresh & -> & _ & Hcls).
  split; [done|]. intros Ht.
  destruct (Hcls Ht) as (classroom & Hlook & _ & _ & Hlt).
  exists classroom. rewrite Hcount, ref_matches_self by done.
  split_and!; [|done|done].
  destruct classroomId; try done.
Qed.

(** X2. A successful deleteStudent takes the student out of the count of
    active students of the classroom the student was in, and changes no
    other count. *)
Theorem deleteStudent_frees_seat st studentId token r st' student :
  findById (students st) studentId = Some student →
  Student.deleteStudent st studentId token = Returns r st' →
  is_error r = false →
  ∀ v, Student.activeInClassroom st' v
       = Student.activeInClassroom st v
         - (if ref_matches (stu_classroomId student) v then 1 else 0).
Proof.
  intros Hfind H Hr v.
  destruct (deleteStudent_success _ _ _ _ _ H Hr)
    as (student0 & Hfind0 & Hactive & -> & ->).
  assert (student0 = student) as -> by congruence.
  rewrite (activeInClassroom_insert_update st _ student)
    by by apply findById_Some.
  rewrite Hactive. simpl. rewrite andb_true_r. lia.
Qed.

Lemma transferStudent_seat_count w st studentId toSchoolId toClassroomId
    reason token r st' student v :
  findById (students st) studentId = Some student →
  Student.transferStudent w st studentId toSchoolId toClassroomId reason token
    = Returns r st' →
  is_error r = false →
  Student.activeInClassroom st' v
  = Student.activeInClassroom st v
    - (if ref_matches (stu_classroomId student) v then 1 else 0)
    + (if ref_matches (toString_or_null toClassroomId) v then 1 else 0).
Proof.
  intros Hfind H Hr.
  destruct (transferStudent_success _ _ _ _ _ _ _ _ _ H Hr)
    as (student0 & src & tgt & Hfind0 & Hactive & _ & _ & -> & _ & _).
  assert (student0 = student) as -> by congruence.
  rewrite (activeInClassroom_insert_update st _ student)
    by by apply findById_Some.
  simpl. by rewrite Hactive, !andb_true_r.
Qed.

(** X3. A successful transferStudent takes the student out of the count of
    active students of the classroom the student was in and adds the student
    to the count of the target classroom, and changes no other count; the
    target classroom, when one is named, exists and had, before the call,
    fewer active students than its capacity. *)
Theorem transferStudent_moves_one_seat w st studentId toSchoolId toClassroomId
    reason token r st' student :
  findById (students st) studentId = Some student →
  Student.transferStudent w st studentId toSchoolId toClassroomId reason token
    = Returns r st' →
  is_error r = false →
  (∀ v, Student.activeInClassroom st' v
        = Student.activeInClassroom st v
          - (if ref_matches (stu_classroomId student) v then 1 else 0)
          + (if ref_matches (toString_or_null toClassroomId) v then 1 else 0))
  ∧ (truthy toClassroomId = true →
     ∃ classroom,
       findById (classrooms st') toClassroomId = Some classroom
       ∧ Student.activeInClassroom st toClassroomId < cls_capacity classroom).
Proof.
  intros Hfind H Hr.
  pose proof (λ v, transferStudent_seat_count _ _ _ _ _ _ _ _ _ _ v
                     Hfind H Hr) as Hcount.
  destruct (transferStudent_success _ _ _ _ _ _ _ _ _ H Hr)
    as (student0 & src & tgt & Hfind0 & Hactive & _ & _ & -> & _ & Hcls).
  assert (student0 = student) as -> by congruence.
  split; [done|]. intros Ht.
  destruct (Hcls Ht) as (classroom & Hlook & _ & _ & Hlt).
  exists classroom. split; [by destruct toClassroomId|done].
Qed.

(** X4. A successful updateStudent changes the counts of active students
    only by this student: the student leaves the count of the old classroom
    when active before and enters the count of the stored classroom when
    active afterwards; a classroom the call moves the student to had,
    before the call, fewer active students than its capacity. *)
Theorem updateStudent_seats st studentId d classroomId isActive token r st'
    student :
  findById (students st) studentId = Some student →
  Student.updateStudent st studentId d classroomId isActive token
    = Returns r st' →
  is_error r = false →
  ∃ student',
    students st' !! toString studentId = Some student'
    ∧ (∀ v, Student.activeInClassroom st' v
            = Student.activeInClassroom st v
              - (if ref_matches (stu_classroomId student) v
                    && stu_isActive student then 1 else 0)
              + (if ref_matches (stu_classroomId student') v
                    && stu_isActive student' then 1 else 0))
    ∧ (truthy classroomId = true →
       stu_classroomId student ≠ Some (toString classroomId) →
       ∃ classroom,
         findById (classrooms st') classroomId = Some classroom
         ∧ Student.activeInClassroom st classroomId
           < cls_capacity classroom).
Proof.
  intros Hfind H Hr.
  destruct (updateStudent_success _ _ _ _ _ _ _ _ H Hr)
    as (student0 & Hfind0 & -> & -> & Hcls).
  assert (student0 = student) as -> by congruence.
  eexists. split; [apply lookup_insert_eq|].
  assert (∀ v, Student.activeInClassroom
                 (with_students st
                    (<[toString studentId :=
                         Student.update_fields student d classroomId
                           isActive]> (students st))) v
               = Student.activeInClassroom st v
                 - (if ref_matches (stu_classroomId student) v
                       && stu_isActive student then 1 else 0)
                 + (if ref_matches
                         (stu_classroomId
                            (Student.update_fields student d classroomId
                               isActive)) v
                       && stu_isActive
                            (Student.update_fields student d classroomId
                               isActive)
                    then 1 else 0)) as Hcount.
  { intros v. apply activeInClassroom_insert_update. by apply findById_Some. }
  split; [done|]. intros Ht Hchanged.
  destruct (Hcls Ht) as [Hsame|(classroom & Hlook & _ & _ & Hlt)]; [done|].
  exists classroom. split; [by destruct classroomId|done].
Qed.

(** X5. updateStudent with isActive = true and no other parameter, for an
    inactive student that still refers to a classroom, succeeds whatever the
    capacity of that classroom is, and the classroom has one more active
    student afterwards: the capacity check runs only when classroomId is
    given and differs from the stored one. No field of the student is
    given, so the document that is saved is the stored one with isActive
    set. *)
Theorem reactivation_skips_capacity_check st studentId token student c :
  token ≠ None →
  truthy studentId = true →
  findById (students st) studentId = Some student →
  Student._checkSchoolAccess token (JObjectId (stu_schoolId student)) = None →
  stu_isActive student = false →
  stu_classroomId student = Some c →
  ∃ r st',
    Student.updateStudent st studentId Scenario.no_student_change JUndefined
      (Some true) token
      = Returns r st'
    ∧ is_error r = false
    ∧ Student.activeInClassroom st' (JObjectId c)
      = Student.activeInClassroom st (JObjectId c) + 1.
Proof.
  intros Htok Hid Hfind Hacc Hinactive Hc.
  set (d := Scenario.no_student_change).
  assert (Student.updateStudent st studentId d JUndefined (Some true) token
          = Returns
              (OneStudent None (toString studentId)
                 (Student.update_fields student d JUndefined (Some true))
                 None)
              (with_students st
                 (<[toString studentId :=
                      Student.update_fields student d JUndefined (Some true)]>
                    (students st)))) as Hcall.
  { unfold Student.updateStudent.
    rewrite (bool_decide_eq_false_2 (token = None)) by done. simpl.
    rewrite Hid. simpl. rewrite Hfind. simpl. rewrite Hacc. simpl.
    unfold student_save, student_pre_save. simpl.
    rewrite Hc. simpl.
    by rewrite (bool_decide_eq_false_2 (Some c ≠ Some c)) by (by intros []). }
  eexists _, _. split_and!; [exact Hcall|done|].
  rewrite (activeInClassroom_insert_update st _ student)
    by by apply findById_Some.
  simpl. rewrite Hinactive, Hc, andb_false_r, andb_true_r.
  assert (ref_matches (Some c) (JObjectId c) = true) as ->
    by (by apply bool_decide_eq_true_2).
  lia.
Qed.
End Seats.

Section Capacity.
Variable this : Collaborators.

(** X6. A classroom never gets a whole student above its capacity: when
    its number of active students is below capacity + 1 (for a capacity
    that is a whole number: is at most the capacity), it is still below
    the capacity + 1 stored after any call other than an updateStudent with
    isActive = true. *)
Theorem classroom_stays_within_capacity st call token r st' i c c' :
  dispatch this st call token = Returns r st' →
  reactivates call = false →
  classrooms st !! i = Some c →
  Student.activeInClassroom st (JObjectId i) < cls_capacity c + 1 →
  classrooms st' !! i = Some c' →
  Student.activeInClassroom st' (JObjectId i) < cls_capacity c' + 1.
Proof.
  intros H Hre Hc Hle Hc'.
  destruct (is_error r) eqn:Hr.
  { assert (st' = st) as -> by by eapply error_response_writes_nothing.
    by simplify_eq. }
  destruct call; simpl in H.
  - unfold School.createSchool in H. flow_inv H; by simplify_eq/=.
  - unfold School.getSchools in H. flow_inv H; by simplify_eq/=.
  - unfold School.getSchool in H. flow_inv H; by simplify_eq/=.
  - unfold School.updateSchool in H. flow_inv H; by simplify_eq/=.
  - unfold School.deleteSchool in H. flow_inv H; by simplify_eq/=.
  - unfold Classroom.createClassroom in H. flow_inv H.
    all: simpl in Hc'; rewrite lookup_insert_ne in Hc' by congruence.
    all: by simplify_eq/=.
  - unfold Classroom.getClassrooms in H. flow_inv H; by simplify_eq/=.
  - unfold Classroom.getClassroom in H. flow_inv H; by simplify_eq/=.
  - unfold Classroom.updateClassroom in H. flow_inv H.
    all: simpl in Hc'.
    all: destruct (decide (i = toString classroomId)) as [->|Hne];
      [|rewrite lookup_insert_ne in Hc' by done; by simplify_eq/=].
    all: rewrite lookup_insert_eq in Hc'; simplify_eq/=.
    all: match goal with Hf : findById _ _ = Some _ |- _ =>
           apply findById_Some in Hf end; simplify_eq.
    all: change (Student.activeInClassroom
                   (with_classrooms st (<[toString classroomId := _]> _))
                   (JObjectId (toString classroomId)))
           with (Student.activeInClassroom st (JObjectId (toString classroomId))).
    all: unfold Classroom.update_fields; simpl;
      try match goal with Hcap : cd_capacity _ = _ |- _ => rewrite Hcap end;
      simpl; try lia.
    all: bool_norm.
    all: try (rewrite activeInClassroom_toString by done;
              unfold Classroom.studentCount in *;
              unfold Student.activeInClassroom; lia).
    all: lia.
  - unfold Classroom.deleteClassroom in H. flow_inv H.
    all: simpl in Hc'.
    all: destruct (decide (i = toString classroomId)) as [->|Hne];
      [|rewrite lookup_insert_ne in Hc' by done; by simplify_eq/=].
    all: rewrite lookup_insert_eq in Hc'; simplify_eq/=.
    all: match goal with Hf : findById _ _ = Some _ |- _ =>
           apply findById_Some in Hf end; by simplify_eq.
  - pose proof (λ v, createStudent_seat_count this _ _ _ _ _ _ _ _ v H Hr)
      as Hcount.
    destruct (createStudent_success this _ _ _ _ _ _ _ _ H Hr)
      as (t & doc & -> & _ & -> & _ & -> & _ & Hcls).
    simpl in Hc'. simplify_eq. rewrite Hcount, ref_matches_id.
    case_bool_decide as Hm; [|lia].
    apply toString_or_null_Some in Hm as [Ht <-].
    destruct (Hcls Ht) as (classroom & Hlook & _ & _ & Hlt).
    simplify_eq. rewrite activeInClassroom_toString by done. lia.
  - unfold Student.getStudents in H. flow_inv H; by simplify_eq/=.
  - unfold Student.getStudent in H. flow_inv H; by simplify_eq/=.
  - destruct (updateStudent_success _ _ _ _ _ _ _ _ H Hr)
      as (student & Hfind & -> & -> & Hcls).
    simpl in Hc'. simplify_eq.
    rewrite (activeInClassroom_insert_update st _ student)
      by by apply findById_Some.
    rewrite !ref_matches_id.
    unfold Student.update_fields. simpl.
    destruct (bool_decide (_ = Some i) && assign_opt _ _) eqn:Hnew;
      [|repeat case_match; lia].
    apply andb_true_iff in Hnew as [Hnew%bool_decide_eq_true_1 Hact].
    assert (stu_isActive student = true) as Hactive.
    { destruct isActive as [[]|]; done. }
    rewrite Hactive, andb_true_r.
    case_bool_decide as Hold; [lia|].
    destruct (defined classroomId) eqn:Hdef; [|done].
    apply toString_or_null_Some in Hnew as [Ht <-].
    destruct (Hcls Ht) as [Hsame|(classroom & Hlook & _ & _ & Hlt)]; [done|].
    simplify_eq. rewrite activeInClassroom_toString by done. lia.
  - destruct (deleteStudent_success _ _ _ _ _ H Hr)
      as (student & Hfind & _ & -> & ->).
    simpl in Hc'. simplify_eq.
    rewrite (activeInClassroom_insert_update st _ student)
      by by apply findById_Some.
    simpl. repeat case_match; lia.
  - destruct (transferStudent_success _ _ _ _ _ _ _ _ _ H Hr)
      as (student & src & tgt & Hfind & Hactive & _ & -> & -> & _ & Hcls).
    pose proof (λ v, transferStudent_seat_count _ _ _ _ _ _ _ _ _ _ v
                       Hfind H Hr) as Hcount.
    simpl in Hc'. simplify_eq. rewrite Hcount, !ref_matches_id.
    destruct (bool_decide (toString_or_null toClassroomId = Some i)) eqn:Hm;
      [|repeat case_match; lia].
    apply bool_decide_eq_true_1, toString_or_null_Some in Hm as [Ht <-].
    destruct (Hcls Ht) as (classroom & Hlook & _ & _ & Hlt).
    simplify_eq. rewrite activeInClassroom_toString in Hle |- * by done.
    repeat case_match; lia.
Qed.
End Capacity.

(** ** What a call writes *)

Section Writes.
Variable this : Collaborators.

Lemma dispatch_written st c token r st' :
  dispatch this st c token = Returns r st' → written st st'.
Proof.
  intros H. destruct (is_error r) eqn:Hr.
  { rewrite (error_response_writes_nothing this _ _ _ _ _ H Hr). constructor. }
  destruct c; simpl in H.
  - unfold School.createSchool in H. flow_inv H. by apply written_new_school.
  - unfold School.getSchools in H. flow_inv H; constructor.
  - unfold School.getSchool in H. flow_inv H; constructor.
  - unfold School.updateSchool in H.
    flow_inv H; (eapply written_school; [by apply findById_Some|done]).
  - unfold School.deleteSchool in H.
    flow_inv H; (eapply written_school; [by apply findById_Some|done]).
  - unfold Classroom.createClassroom, Classroom._getEffectiveSchoolId in H.
    flow_inv H; by apply written_new_classroom.
  - unfold Classroom.getClassrooms, Classroom._getEffectiveSchoolId in H.
    flow_inv H; constructor.
  - unfold Classroom.getClassroom in H. flow_inv H; constructor.
  - unfold Classroom.updateClassroom in H.
    flow_inv H;
      (eapply written_classroom; [by apply findById_Some|done..]).
  - unfold Classroom.deleteClassroom in H.
    flow_inv H;
      (eapply written_classroom; [by apply findById_Some|done..]).
  - destruct (createStudent_success this _ _ _ _ _ _ _ _ H Hr)
      as (t & doc & -> & -> & -> & Hfresh & -> & _ & _).
    by apply written_new_student.
  - unfold Student.getStudents in H. flow_inv H; constructor.
  - unfold Student.getStudent in H. flow_inv H; constructor.
  - destruct (updateStudent_success _ _ _ _ _ _ _ _ H Hr)
      as (student & Hfind & -> & -> & _).
    eapply (written_student _ _ _ _ []);
      [by apply findById_Some|done|done|by rewrite app_nil_r|simpl; lia].
  - destruct (deleteStudent_success _ _ _ _ _ H Hr)
      as (student & Hfind & _ & -> & ->).
    eapply (written_student _ _ _ _ []);
      [by apply findById_Some|done|done|by rewrite app_nil_r|simpl; lia].
  - destruct (transferStudent_success _ _ _ _ _ _ _ _ _ H Hr)
      as (student & src & tgt & Hfind & _ & _ & _ & -> & _ & _).
    eapply written_student; [by apply findById_Some|done|done|done|simpl; lia].
Qed.

Lemma persists_refl st : persists st st.
Proof. split_and!; intros i d Hd; exists d; by split_and!. Qed.

Lemma persists_trans st1 st2 st3 :
  persists st1 st2 → persists st2 st3 → persists st1 st3.
Proof.
  intros (Hs1 & Hc1 & Ht1) (Hs2 & Hc2 & Ht2). split_and!.
  - intros i s Hi. destruct (Hs1 i s Hi) as (s' & Hi' & ?).
    destruct (Hs2 i s' Hi') as (s'' & ? & ?). exists s''. split; congruence.
  - intros i c Hi. destruct (Hc1 i c Hi) as (c' & Hi' & ? & ?).
    destruct (Hc2 i c' Hi') as (c'' & ? & ? & ?).
    exists c''. split_and!; congruence.
  - intros i s Hi. destruct (Ht1 i s Hi) as (s' & Hi' & ? & ? & ?).
    destruct (Ht2 i s' Hi') as (s'' & ? & ? & ? & ?).
    exists s''. split_and!; [done|congruence|congruence|by etrans].
Qed.

Lemma written_persists st st' : written st st' → persists st st'.
Proof.
  destruct 1 as [|i s Hi _|i s s' Hi Hby|i c Hi _|i c c' Hi Hsch Hby
                |i s Hi _ _|i s s' more Hi Hby Hdate Hhist _];
    [apply persists_refl|..]; split_and!; simpl;
    try (intros j d Hd; exists d; by split_and!).
  - intros j d Hd. exists d. rewrite lookup_insert_ne by congruence. done.
  - intros j d Hd. destruct (decide (i = j)) as [->|].
    + exists s'. rewrite lookup_insert_eq. split; congruence.
    + exists d. by rewrite lookup_insert_ne.
  - intros j d Hd. exists d. rewrite lookup_insert_ne by congruence. done.
  - intros j d Hd. destruct (decide (i = j)) as [->|].
    + exists c'. rewrite lookup_insert_eq. split_and!; congruence.
    + exists d. by rewrite lookup_insert_ne.
  - intros j d Hd. exists d. rewrite lookup_insert_ne by congruence. done.
  - intros j d Hd. destruct (decide (i = j)) as [->|].
    + exists s'. rewrite lookup_insert_eq.
      assert (d = s) as -> by congruence.
      split_and!; [done..|]. rewrite Hhist. by apply prefix_app_r.
    + exists d. by rewrite lookup_insert_ne.
Qed.

(** X7. No sequence of requests removes a document or rewrites its
    origin: every school, classroom and student is still there afterwards
    with the same createdBy, a classroom with the same school, a student
    with the same enrolment date and with a transfer history that starts
    with the earlier one. *)
Theorem documents_persist st requests :
  persists st (replay this st requests).
Proof.
  revert st. induction requests as [|[c token] requests IH]; intros st.
  - apply persists_refl.
  - simpl. eapply persists_trans; [|apply IH].
    destruct (dispatch this st c token) as [r st'|e] eqn:H; simpl.
    + by eapply written_persists, dispatch_written.
    + apply persists_refl.
Qed.

(** X8. The transfer history of a student changes only by a successful
    transferStudent for that student, which appends exactly one record,
    with the school before the call as fromSchool and the school after the
    call as toSchool. *)
Theorem history_grows_only_by_transfer st c token r st' i s s' :
  dispatch this st c token = Returns r st' →
  students st !! i = Some s →
  students st' !! i = Some s' →
  stu_transferHistory s' = stu_transferHistory s
  ∨ (∃ w studentId toSchoolId toClassroomId reason entry,
       c = TransferStudent w studentId toSchoolId toClassroomId reason
       ∧ i = toString studentId
       ∧ is_error r = false
       ∧ stu_transferHistory s' = (stu_transferHistory s ++ [entry])%list
       ∧ fromSchool entry = stu_schoolId s
       ∧ toSchool entry = stu_schoolId s').
Proof.
  intros H Hs Hs'. destruct (is_error r) eqn:Hr.
  { rewrite (error_response_writes_nothing this _ _ _ _ _ H Hr) in Hs'.
    left. congruence. }
  destruct c; simpl in H.
  - unfold School.createSchool in H. flow_inv H. left; simpl in *; congruence.
  - unfold School.getSchools in H. flow_inv H; left; congruence.
  - unfold School.getSchool in H. flow_inv H; left; congruence.
  - unfold School.updateSchool in H.
    flow_inv H; left; simpl in *; congruence.
  - unfold School.deleteSchool in H.
    flow_inv H; left; simpl in *; congruence.
  - unfold Classroom.createClassroom, Classroom._getEffectiveSchoolId in H.
    flow_inv H; left; simpl in *; congruence.
  - unfold Classroom.getClassrooms, Classroom._getEffectiveSchoolId in H.
    flow_inv H; left; congruence.
  - unfold Classroom.getClassroom in H. flow_inv H; left; congruence.
  - unfold Classroom.updateClassroom in H.
    flow_inv H; left; simpl in *; congruence.
  - unfold Classroom.deleteClassroom in H.
    flow_inv H; left; simpl in *; congruence.
  - destruct (createStudent_success this _ _ _ _ _ _ _ _ H Hr)
      as (t & doc & -> & _ & -> & Hfresh & -> & _ & _).
    left. simpl in Hs'. rewrite lookup_insert_ne in Hs' by congruence.
    congruence.
  - unfold Student.getStudents in H. flow_inv H; left; congruence.
  - unfold Student.getStudent in H. flow_inv H; left; congruence.
  - destruct (updateStudent_success _ _ _ _ _ _ _ _ H Hr)
      as (student & Hfind%findById_Some & -> & -> & _).
    left. simpl in Hs'. destruct (decide (toString studentId = i)) as [<-|].
    + rewrite lookup_insert_eq in Hs'. by simplify_eq.
    + rewrite lookup_insert_ne in Hs' by done. congruence.
  - destruct (deleteStudent_success _ _ _ _ _ H Hr)
      as (student & Hfind%findById_Some & _ & -> & ->).
    left. simpl in Hs'. destruct (decide (toString studentId = i)) as [<-|].
    + rewrite lookup_insert_eq in Hs'. by simplify_eq.
    + rewrite lookup_insert_ne in Hs' by done. congruence.
  - destruct (transferStudent_success _ _ _ _ _ _ _ _ _ H Hr)
      as (student & src & tgt & Hfind%findById_Some & _ & _ & _ & -> & _ & _).
    simpl in Hs'. destruct (decide (toString studentId = i)) as [<-|].
    + rewrite lookup_insert_eq in Hs'. right. simplify_eq.
      eexists _, _, _, _, _, _. split_and!; done.
    + rewrite lookup_insert_ne in Hs' by done. left. congruence.
Qed.

(** X9. A call that changes the collection of schools was made with the
    token of a superadmin. *)
Theorem schools_written_only_by_superadmin st c token r st' :
  dispatch this st c token = Returns r st' →
  schools st' ≠ schools st →
  ∃ t, token = Some t ∧ role t = "superadmin".
Proof.
  intros H Hne.
  assert (∀ t, School._checkSuperadminAccess token = None →
               token = Some t → role t = "superadmin") as Hsuper.
  { intros t Hacc ->. unfold School._checkSuperadminAccess in Hacc.
    case_match; [done|]. by bool_norm. }
  destruct (is_error r) eqn:Hr.
  { by rewrite (error_response_writes_nothing this _ _ _ _ _ H Hr) in Hne. }
  destruct c; simpl in H.
  - unfold School.createSchool in H. flow_inv H. eauto.
  - unfold School.getSchools in H. by flow_inv H.
  - unfold School.getSchool in H. by flow_inv H.
  - unfold School.updateSchool in H.
    flow_inv H; destruct token as [t|]; try done; eauto.
  - unfold School.deleteSchool in H.
    flow_inv H; destruct token as [t|]; try done; eauto.
  - unfold Classroom.createClassroom, Classroom._getEffectiveSchoolId in H.
    by flow_inv H.
  - unfold Classroom.getClassrooms, Classroom._getEffectiveSchoolId in H.
    by flow_inv H.
  - unfold Classroom.getClassroom in H. by flow_inv H.
  - unfold Classroom.updateClassroom in H. by flow_inv H.
  - unfold Classroom.deleteClassroom in H. by flow_inv H.
  - destruct (createStudent_success this _ _ _ _ _ _ _ _ H Hr)
      as (t & doc & -> & _ & -> & Hfresh & -> & _ & _). done.
  - unfold Student.getStudents in H. by flow_inv H.
  - unfold Student.getStudent in H. by flow_inv H.
  - destruct (updateStudent_success _ _ _ _ _ _ _ _ H Hr)
      as (student & _ & -> & -> & _). done.
  - destruct (deleteStudent_success _ _ _ _ _ H Hr)
      as (student & _ & _ & -> & ->). done.
  - destruct (transferStudent_success _ _ _ _ _ _ _ _ _ H Hr)
      as (student & src & tgt & _ & _ & _ & _ & -> & _ & _). done.
Qed.

Lemma student_access_of_admin t sid :
  role t = "school_admin" →
  Student._checkSchoolAccess (Some t) (JObjectId sid) = None →
  toString (tok_schoolId t) = sid.
Proof.
  intros Hrole. unfold Student._checkSchoolAccess. rewrite Hrole. simpl.
  case_match; [done|]. bool_norm. intros _.
  match goal with H : toString_or_null _ = _ |- _ =>
    by apply toString_or_null_Some in H as [_ ?] end.
Qed.

Lemma classroom_access_of_admin t sid :
  role t = "school_admin" →
  Classroom._checkSchoolAccess (Some t) (JObjectId sid) = None →
  toString (tok_schoolId t) = sid.
Proof.
  intros Hrole. unfold Classroom._checkSchoolAccess. rewrite Hrole. simpl.
  case_match; [done|]. bool_norm. intros _.
  match goal with H : toString_or_null _ = _ |- _ =>
    by apply toString_or_null_Some in H as [_ ?] end.
Qed.

Lemma changed_only_at {D} (m : gmap string D) k d (P : string → Prop) :
  P k → ∀ i, <[k := d]> m !! i ≠ m !! i → P i.
Proof.
  intros HP i Hi. destruct (decide (k = i)) as [<-|]; [done|].
  by rewrite lookup_insert_ne in Hi.
Qed.

(** X10. A call made with the token of a school administrator leaves the
    schools as they are, and every classroom or student document it creates
    or changes belongs to the administrator's school before and after the
    call. *)
Theorem school_admin_confined st c t r st' :
  role t = "school_admin" →
  dispatch this st c (Some t) = Returns r st' →
  schools st' = schools st
  ∧ (∀ i, classrooms st' !! i ≠ classrooms st !! i →
       (∀ old, classrooms st !! i = Some old →
          cls_schoolId old = toString (tok_schoolId t))
       ∧ ∃ new, classrooms st' !! i = Some new
                ∧ cls_schoolId new = toString (tok_schoolId t))
  ∧ (∀ i, students st' !! i ≠ students st !! i →
       (∀ old, students st !! i = Some old →
          stu_schoolId old = toString (tok_schoolId t))
       ∧ ∃ new, students st' !! i = Some new
                ∧ stu_schoolId new = toString (tok_schoolId t)).
Proof.
  intros Hrole H.
  destruct (is_error r) eqn:Hr.
  { rewrite (error_response_writes_nothing this _ _ _ _ _ H Hr).
    split_and!; [done|intros i []; done..]. }
  destruct c; simpl in H.
  - unfold School.createSchool, School._checkSuperadminAccess in H.
    rewrite Hrole in H. by flow_inv H.
  - unfold School.getSchools in H.
    flow_inv H; (split_and!; [done|intros i []; done..]).
  - unfold School.getSchool in H.
    flow_inv H; (split_and!; [done|intros i []; done..]).
  - unfold School.updateSchool, School._checkSuperadminAccess in H.
    rewrite Hrole in H. by flow_inv H.
  - unfold School.deleteSchool, School._checkSuperadminAccess in H.
    rewrite Hrole in H. by flow_inv H.
  - unfold Classroom.createClassroom in H.
    rewrite classroom_effective_school_of_admin in H by done.
    flow_inv H;
      (split_and!; [done| |intros i []; done]; simpl;
       apply changed_only_at; split; [congruence|];
       eexists; by rewrite lookup_insert_eq).
  - unfold Classroom.getClassrooms, Classroom._getEffectiveSchoolId in H.
    flow_inv H; (split_and!; [done|intros i []; done..]).
  - unfold Classroom.getClassroom in H.
    flow_inv H; (split_and!; [done|intros i []; done..]).
  - unfold Classroom.updateClassroom in H.
    flow_inv H;
      (match goal with Hacc : Classroom._checkSchoolAccess _ _ = None |- _ =>
         apply classroom_access_of_admin in Hacc; [|done] end;
       match goal with Hf : findById _ _ = Some _ |- _ =>
         apply findById_Some in Hf end;
       split_and!; [done| |intros i []; done]; simpl;
       apply changed_only_at; split; [congruence|];
       eexists; by rewrite lookup_insert_eq).
  - unfold Classroom.deleteClassroom in H.
    flow_inv H;
      (match goal with Hacc : Classroom._checkSchoolAccess _ _ = None |- _ =>
         apply classroom_access_of_admin in Hacc; [|done] end;
       match goal with Hf : findById _ _ = Some _ |- _ =>
         apply findById_Some in Hf end;
       split_and!; [done| |intros i []; done]; simpl;
       apply changed_only_at; split; [congruence|];
       eexists; by rewrite lookup_insert_eq).
  - destruct (createStudent_success this _ _ _ _ _ _ _ _ H Hr)
      as (t' & doc & [= <-] & -> & -> & Hfresh & -> & _ & _).
    split_and!; [done|intros i []; done|]. simpl.
    apply changed_only_at. split; [congruence|].
    eexists. rewrite lookup_insert_eq. split; [done|]. simpl.
    by rewrite student_effective_school_of_admin.
  - unfold Student.getStudents in H.
    flow_inv H; (split_and!; [done|intros i []; done..]).
  - unfold Student.getStudent in H.
    flow_inv H; (split_and!; [done|intros i []; done..]).
  - unfold Student.updateStudent in H.
    flow_inv H;
      (match goal with Hacc : Student._checkSchoolAccess _ _ = None |- _ =>
         apply student_access_of_admin in Hacc; [|done] end;
       match goal with Hf : findById (students _) _ = Some _ |- _ =>
         apply findById_Some in Hf end;
       split_and!; [done|intros i []; done|]; simpl;
       apply changed_only_at; split; [congruence|];
       eexists; by rewrite lookup_insert_eq).
  - unfold Student.deleteStudent in H.
    flow_inv H;
      (match goal with Hacc : Student._checkSchoolAccess _ _ = None |- _ =>
         apply student_access_of_admin in Hacc; [|done] end;
       match goal with Hf : findById (students _) _ = Some _ |- _ =>
         apply findById_Some in Hf end;
       split_and!; [done|intros i []; done|]; simpl;
       apply changed_only_at; split; [congruence|];
       eexists; by rewrite lookup_insert_eq).
  - unfold Student.transferStudent in H.
    flow_inv H;
      (match goal with Hacc : Student._checkSchoolAccess _ _ = None |- _ =>
         apply student_access_of_admin in Hacc; [|done] end;
       match goal with Hf : findById (students _) _ = Some _ |- _ =>
         apply findById_Some in Hf end;
       split_and!; [done|intros i []; done|]; simpl;
       apply changed_only_at; split; [congruence|];
       eexists; rewrite lookup_insert_eq; split; [done|]; simpl;
       try match goal with Ht : truthy toSchoolId = _ |- _ =>
         rewrite Ht end;
       try done).
  all: match goal with
       | Hx : strict_neq _ _ && bool_decide (role _ ≠ "superadmin") = false
         |- _ =>
           rewrite Hrole in Hx;
           rewrite (bool_decide_eq_true_2 ("school_admin" ≠ "superadmin"))
             in Hx by done;
           rewrite andb_true_r in Hx;
           apply strict_neq_false in Hx as (x & Hx1 & Hx2)
       end.
  all: subst toSchoolId; simplify_eq; done.
Qed.
End Writes.

(** ** What a school administrator reads *)

Lemma Forall_find {D} (m : gmap string D) q (P : string * D → Prop) :
  (∀ i d, q i d = true → P (i, d)) → Forall P (find m q).
Proof.
  intros HP. unfold find. apply Forall_forall. intros [i d] Hin.
  apply list_elem_of_filter in Hin as [Hq _]. by apply HP.
Qed.

Lemma Forall_paginate {A} (P : A → Prop) page limit (l : list A) :
  Forall P l → Forall P (paginate page limit l).
Proof. intros Hl. unfold paginate. by apply Forall_take, Forall_drop. Qed.

Lemma ref_matches_Some i v :
  ref_matches (Some i) v = true → toString v = i.
Proof.
  simpl. intros H%bool_decide_eq_true_1.
  by apply toString_or_null_Some in H as [_ ?].
Qed.

Section Reads.
Variable this : Collaborators.

(** X11. Every student and every classroom that the response to a call
    made with the token of a school administrator lists (its student,
    students, classroom or classrooms field) is a document of the
    administrator's school, whatever school the request names, and no such
    response is a payload of the School manager. What populate attaches
    to a listed document (the names of its school and classroom, and of the
    schools and classrooms of its transfer history) is not covered. *)
Theorem school_admin_reads_own_school st c t r st' :
  role t = "school_admin" →
  dispatch this st c (Some t) = Returns r st' →
  answers_within (toString (tok_schoolId t)) r.
Proof.
  intros Hrole H.
  destruct (is_error r) eqn:Hr; [by destruct r|].
  destruct c; simpl in H.
  - unfold School.createSchool, School._checkSuperadminAccess in H.
    rewrite Hrole in H. by flow_inv H.
  - unfold School.getSchools, School._checkSuperadminAccess in H.
    rewrite Hrole in H. by flow_inv H.
  - unfold School.getSchool, School._checkSuperadminAccess in H.
    rewrite Hrole in H. by flow_inv H.
  - unfold School.updateSchool, School._checkSuperadminAccess in H.
    rewrite Hrole in H. by flow_inv H.
  - unfold School.deleteSchool, School._checkSuperadminAccess in H.
    rewrite Hrole in H. by flow_inv H.
  - unfold Classroom.createClassroom in H.
    rewrite classroom_effective_school_of_admin in H by done.
    by flow_inv H.
  - unfold Classroom.getClassrooms in H.
    rewrite classroom_effective_school_of_admin in H by done.
    simpl in H. rewrite Hrole in H.
    flow_inv H; simpl;
      apply Forall_fmap, Forall_paginate, Forall_find; intros i d Hq; simpl;
      repeat (apply andb_true_iff in Hq as [Hq _]);
      apply bool_decide_eq_true_1, toString_or_null_Some in Hq as [_ ?];
      done.
  - unfold Classroom.getClassroom in H.
    flow_inv H. simpl. symmetry. by eapply classroom_access_of_admin.
  - unfold Classroom.updateClassroom in H.
    flow_inv H; simpl; symmetry; by eapply classroom_access_of_admin.
  - unfold Classroom.deleteClassroom in H.
    flow_inv H; simpl; symmetry; by eapply classroom_access_of_admin.
  - destruct (createStudent_success this _ _ _ _ _ _ _ _ H Hr)
      as (t' & doc & [= <-] & -> & -> & _). simpl.
    by rewrite student_effective_school_of_admin.
  - unfold Student.getStudents in H.
    simpl in H. rewrite Hrole in H.
    flow_inv H; simpl;
      apply Forall_paginate, Forall_find; intros i d Hq; simpl;
      repeat (apply andb_true_iff in Hq as [Hq _]);
      apply bool_decide_eq_true_1, toString_or_null_Some in Hq as [_ ?];
      done.
  - unfold Student.getStudent in H.
    flow_inv H. simpl. symmetry. by eapply student_access_of_admin.
  - unfold Student.updateStudent in H.
    flow_inv H; simpl; unfold Student.update_fields; simpl;
      symmetry; by eapply student_access_of_admin.
  - unfold Student.deleteStudent in H.
    flow_inv H; simpl; symmetry; by eapply student_access_of_admin.
  - unfold Student.transferStudent in H.
    flow_inv H;
      (match goal with Hacc : Student._checkSchoolAccess _ _ = None |- _ =>
         apply student_access_of_admin in Hacc; [|done] end;
       simpl;
       try match goal with Ht : truthy toSchoolId = _ |- _ => rewrite Ht end;
       try done).
    all: match goal with
         | Hx : strict_neq _ _ && bool_decide (role _ ≠ "superadmin") = false |- _ =>
             rewrite Hrole in Hx;
             rewrite (bool_decide_eq_true_2 ("school_admin" ≠ "superadmin")) in Hx by done;
             rewrite andb_true_r in Hx;
             apply strict_neq_false in Hx as (x & Hx1 & Hx2)
         end.
    all: subst toSchoolId; simplify_eq; done.
Qed.
End Reads.

(** ** The guards of the soft deletes *)

(** X12. For an active classroom the caller may access, deleteClassroom
    succeeds exactly when no active student refers to the classroom. *)
Theorem deleteClassroom_succeeds_iff_empty st classroomId token classroom :
  token ≠ None →
  truthy classroomId = true →
  findById (classrooms st) classroomId = Some classroom →
  Classroom._checkSchoolAccess token (JObjectId (cls_schoolId classroom))
    = None →
  cls_isActive classroom = true →
  succeeded (Classroom.deleteClassroom st classroomId token) = true
  ↔ ∀ i student, students st !! i = Some student →
      stu_classroomId student = Some (toString classroomId) →
      stu_isActive student = false.
Proof.
  intros Htok Hid Hfind Hacc Hactive.
  unfold Classroom.deleteClassroom.
  rewrite (bool_decide_eq_false_2 (token = None)) by done. simpl.
  rewrite Hid. simpl. rewrite Hfind. simpl. rewrite Hacc. simpl.
  rewrite Hactive. simpl.
  pose proof (countDocuments_nonneg (students st)
    (λ s, ref_matches (stu_classroomId s) classroomId && stu_isActive s))
    as Hnn.
  pose proof (countDocuments_zero_iff (students st)
    (λ s, ref_matches (stu_classroomId s) classroomId && stu_isActive s))
    as Hz.
  fold (Classroom.studentCount st classroomId) in Hnn, Hz.
  assert (∀ s, stu_classroomId s = Some (toString classroomId)
               ↔ ref_matches (stu_classroomId s) classroomId = true) as Href.
  { intros s. unfold ref_matches, toString_or_null. rewrite Hid.
    destruct (stu_classroomId s); [|done].
    rewrite bool_decide_eq_true. naive_solver. }
  destruct (0 <? Classroom.studentCount st classroomId) eqn:E; simpl.
  - apply Z.ltb_lt in E. split; [done|]. intros Hall.
    assert (Classroom.studentCount st classroomId = 0); [|lia].
    apply Hz. intros i d Hi.
    destruct (ref_matches (stu_classroomId d) classroomId) eqn:Hm; [|done].
    simpl. apply (Hall i d Hi). by apply Href.
  - apply Z.ltb_ge in E. split; [|done]. intros _ i student Hi Hc.
    assert (Classroom.studentCount st classroomId = 0) as H0 by lia.
    pose proof (proj1 Hz H0 i student Hi) as Hq. simpl in Hq.
    by rewrite (proj1 (Href student) Hc) in Hq.
Qed.

(** X13. For an active school and a superadmin, deleteSchool succeeds
    exactly when the school has no active classroom and no active
    student. *)
Theorem deleteSchool_succeeds_iff_childless st schoolId token school :
  School._checkSuperadminAccess token = None →
  truthy schoolId = true →
  findById (schools st) schoolId = Some school →
  sch_isActive school = true →
  succeeded (School.deleteSchool st schoolId token) = true
  ↔ (∀ i classroom, classrooms st !! i = Some classroom →
       cls_schoolId classroom = toString schoolId →
       cls_isActive classroom = false)
    ∧ (∀ i student, students st !! i = Some student →
         stu_schoolId student = toString schoolId →
         stu_isActive student = false).
Proof.
  intros Hacc Hid Hfind Hactive.
  unfold School.deleteSchool. rewrite Hacc, Hid. simpl.
  rewrite Hfind. simpl. rewrite Hactive. simpl.
  set (qc := λ c, bool_decide (cls_schoolId c = toString schoolId)
                  && cls_isActive c).
  set (qs := λ s, bool_decide (stu_schoolId s = toString schoolId)
                  && stu_isActive s).
  pose proof (countDocuments_nonneg (classrooms st) qc) as Hnc.
  pose proof (countDocuments_nonneg (students st) qs) as Hns.
  pose proof (countDocuments_zero_iff (classrooms st) qc) as Hzc.
  pose proof (countDocuments_zero_iff (students st) qs) as Hzs.
  destruct ((0 <? countDocuments (classrooms st) qc)
            || (0 <? countDocuments (students st) qs)) eqn:E; simpl.
  - split; [done|]. intros [Hc Hs].
    assert (countDocuments (classrooms st) qc = 0) as E1.
    { apply Hzc. intros i d Hi. unfold qc.
      case_bool_decide as Hm; [|done]. simpl. by apply (Hc i d Hi). }
    assert (countDocuments (students st) qs = 0) as E2.
    { apply Hzs. intros i d Hi. unfold qs.
      case_bool_decide as Hm; [|done]. simpl. by apply (Hs i d Hi). }
    rewrite E1, E2 in E. done.
  - apply orb_false_iff in E as [E1%Z.ltb_ge E2%Z.ltb_ge].
    split; [|done]. intros _. split.
    + intros i d Hi Hm.
      assert (countDocuments (classrooms st) qc = 0) as H0 by lia.
      pose proof (proj1 Hzc H0 i d Hi) as Hq. unfold qc in Hq.
      by rewrite bool_decide_eq_true_2 in Hq by done.
    + intros i d Hi Hm.
      assert (countDocuments (students st) qs = 0) as H0 by lia.
      pose proof (proj1 Hzs H0 i d Hi) as Hq. unfold qs in Hq.
      by rewrite bool_decide_eq_true_2 in Hq by done.
Qed.

(** ** Pagination *)

Lemma paginate_length {A} page limit (l : list A) :
  Z.of_nat (length (paginate page limit l))
  = Z.min (limitNum limit)
      (Z.max 0 (Z.of_nat (length l) - (pageNum page - 1) * limitNum limit)).
Proof.
  unfold paginate. rewrite length_take, length_drop.
  assert (1 ≤ pageNum page) by (unfold pageNum; lia).
  assert (1 ≤ limitNum limit ≤ 100) by (unfold limitNum; lia).
  assert (0 ≤ (pageNum page - 1) * limitNum limit) by nia.
  lia.
Qed.

Lemma page_size {A B} page limit (found : list A) (items : list B) :
  length items = length (paginate page limit found) →
  1 ≤ pageNum page
  ∧ 1 ≤ limitNum limit ≤ 100
  ∧ (ceil_div (Z.of_nat (length found)) (limitNum limit) - 1) * limitNum limit
      < Z.of_nat (length found)
      ≤ ceil_div (Z.of_nat (length found)) (limitNum limit) * limitNum limit
  ∧ Z.of_nat (length items)
    = Z.min (limitNum limit)
        (Z.max 0 (Z.of_nat (length found)
                  - (pageNum page - 1) * limitNum limit)).
Proof.
  intros Hlen. unfold ceil_div.
  assert (1 ≤ pageNum page) by (unfold pageNum; lia).
  assert (1 ≤ limitNum limit ≤ 100) by (unfold limitNum; lia).
  pose proof (Z.mul_div_le (Z.of_nat (length found) + limitNum limit - 1)
                (limitNum limit)).
  pose proof (Z.mod_pos_bound (Z.of_nat (length found) + limitNum limit - 1)
                (limitNum limit)).
  pose proof (Z.div_mod (Z.of_nat (length found) + limitNum limit - 1)
                (limitNum limit)).
  split_and!; [lia|lia|lia|nia|nia|].
  by rewrite Hlen, paginate_length.
Qed.

Section Pages.
Variable this : Collaborators.

(** X14. In every response of getSchools, getClassrooms and getStudents
    whose page number is in the range where the arithmetic of the code is
    exact, the page number is at least 1, the limit is between 1 and 100,
    [pages] is the least number of pages of [limit] items that hold
    [total] items, and the number of items listed is what is left of
    [total] after the earlier pages, at most [limit]: every page before
    the last is full, and a page after the last is empty. *)
Theorem list_endpoints_page_size st c token r st' n info :
  dispatch this st c token = Returns r st' →
  listing r = Some (n, info) →
  page info * limit info < 2 ^ 53 →
  1 ≤ page info
  ∧ 1 ≤ limit info ≤ 100
  ∧ (pages info - 1) * limit info < total info ≤ pages info * limit info
  ∧ Z.of_nat n
    = Z.min (limit info)
        (Z.max 0 (total info - (page info - 1) * limit info)).
Proof.
  intros H Hl _.
  destruct (is_error r) eqn:Hr; [by destruct r|].
  destruct c; simpl in H.
  - unfold School.createSchool in H. flow_inv H; by simplify_eq/=.
  - unfold School.getSchools in H. flow_inv H; by apply page_size.
  - unfold School.getSchool in H. flow_inv H; by simplify_eq/=.
  - unfold School.updateSchool in H. flow_inv H; by simplify_eq/=.
  - unfold School.deleteSchool in H. flow_inv H; by simplify_eq/=.
  - unfold Classroom.createClassroom, Classroom._getEffectiveSchoolId in H.
    flow_inv H; by simplify_eq/=.
  - unfold Classroom.getClassrooms, Classroom._getEffectiveSchoolId in H.
    flow_inv H; apply page_size; by rewrite length_fmap.
  - unfold Classroom.getClassroom in H. flow_inv H; by simplify_eq/=.
  - unfold Classroom.updateClassroom in H. flow_inv H; by simplify_eq/=.
  - unfold Classroom.deleteClassroom in H. flow_inv H; by simplify_eq/=.
  - unfold Student.createStudent in H. flow_inv H; by simplify_eq/=.
  - unfold Student.getStudents in H. flow_inv H; by apply page_size.
  - unfold Student.getStudent in H. flow_inv H; by simplify_eq/=.
  - unfold Student.updateStudent in H. flow_inv H; by simplify_eq/=.
  - unfold Student.deleteStudent in H. flow_inv H; by simplify_eq/=.
  - unfold Student.transferStudent in H. flow_inv H; by simplify_eq/=.
Qed.
End Pages.

(** ** Middlewares, virtual fields and validators *)

(** X15. The role middleware configured with roles = ['superadmin'] and
    the check at the start of every School method decide alike: one lets a
    token through exactly when the other does, and they refuse with the same
    status code. *)
Theorem role_middleware_as_superadmin_check token :
  status (Mws.__role (Some ["superadmin"]) token)
  = School._checkSuperadminAccess token ≫= code_of
  ∧ (School._checkSuperadminAccess token = None
     ↔ ∃ t, Mws.__role (Some ["superadmin"]) token = Next t).
Proof.
  unfold Mws.__role, School._checkSuperadminAccess, unauthenticated.
  destruct token as [t|]; [|simpl; naive_solver].
  cbn [default length]. rewrite bool_decide_eq_false_2 by done.
  destruct (decide (role t = "superadmin")) as [Hr|Hr].
  - rewrite (bool_decide_eq_true_2 (role t ∈ ["superadmin"]))
      by (by apply list_elem_of_singleton).
    rewrite (bool_decide_eq_false_2 (role t ≠ "superadmin")) by naive_solver.
    simpl. naive_solver.
  - rewrite (bool_decide_eq_false_2 (role t ∈ ["superadmin"]))
      by (by intros ?%list_elem_of_singleton).
    rewrite (bool_decide_eq_true_2 (role t ≠ "superadmin")) by done.
    simpl. naive_solver.
Qed.

(** X16. For a missing token and for the roles superadmin and
    school_admin, the school access middleware and the _checkSchoolAccess
    of the Student and Classroom managers refuse the same requests with the
    same status code. Whatever the managers' check lets through, the
    middleware lets through; a token with any other role passes the
    middleware and is refused with 403 by the managers. *)
Theorem schoolAccess_middleware_as_manager_check token params_schoolId
    body_schoolId query_schoolId :
  let requested :=
    requested_school params_schoolId body_schoolId query_schoolId in
  let answer :=
    (Mws.__schoolAccess token params_schoolId body_schoolId query_schoolId).1
  in
  (known_role token →
   status answer = Student._checkSchoolAccess token requested ≫= code_of
   ∧ status answer = Classroom._checkSchoolAccess token requested ≫= code_of)
  ∧ (Student._checkSchoolAccess token requested = None → status answer = None)
  ∧ (¬ known_role token →
     status answer = None
     ∧ Student._checkSchoolAccess token requested ≫= code_of = Some 403).
Proof.
  unfold Mws.__schoolAccess, Student._checkSchoolAccess,
    Classroom._checkSchoolAccess, requested_school, known_role,
    unauthenticated.
  destruct token as [t|]; simpl; [|naive_solver].
  set (requested := js_or (js_or params_schoolId body_schoolId) query_schoolId).
  destruct (decide (role t = "superadmin")) as [Hs|Hs];
    [rewrite !(bool_decide_eq_true_2 _ Hs); simpl; naive_solver|].
  rewrite !(bool_decide_eq_false_2 _ Hs).
  destruct (decide (role t = "school_admin")) as [Ha|Ha];
    [rewrite !(bool_decide_eq_true_2 _ Ha)
    |rewrite !(bool_decide_eq_false_2 _ Ha); simpl; naive_solver].
  destruct (truthy requested); simpl; [|naive_solver].
  destruct (decide (Some (toString requested)
                    = toString_or_null (tok_schoolId t))) as [He|He].
  - rewrite (bool_decide_eq_false_2
               (Some (toString requested) ≠ toString_or_null (tok_schoolId t)))
      by naive_solver.
    rewrite !(bool_decide_eq_false_2
               (toString_or_null (tok_schoolId t) ≠ Some (toString requested)))
      by naive_solver.
    simpl. naive_solver.
  - rewrite (bool_decide_eq_true_2
               (Some (toString requested) ≠ toString_or_null (tok_schoolId t)))
      by done.
    rewrite !(bool_decide_eq_true_2
               (toString_or_null (tok_schoolId t) ≠ Some (toString requested)))
      by naive_solver.
    simpl. naive_solver.
Qed.

(** X17. When the school access middleware lets a school administrator
    through, the school the request names afterwards is the administrator's
    own, the one _getEffectiveSchoolId gives the managers. *)
Theorem schoolAccess_scopes_school_admin t params_schoolId body_schoolId
    query_schoolId t' body_schoolId' :
  role t = "school_admin" →
  Mws.__schoolAccess (Some t) params_schoolId body_schoolId query_schoolId
    = (Next t', body_schoolId') →
  t' = t
  ∧ toString_or_null
      (requested_school params_schoolId body_schoolId' query_schoolId)
    = toString_or_null (Student._getEffectiveSchoolId (Some t) params_schoolId).
Proof.
  intros Hrole. unfold Mws.__schoolAccess, requested_school,
    Student._getEffectiveSchoolId. rewrite Hrole. simpl.
  unfold js_or, toString_or_null.
  destruct (truthy params_schoolId) eqn:Hp, (truthy body_schoolId) eqn:Hb,
    (truthy query_schoolId) eqn:Hq; simpl; rewrite ?Hp, ?Hb, ?Hq; simpl;
    intros H; repeat case_match; simplify_eq/=; try done;
    repeat match goal with
    | H : bool_decide _ = false |- _ => apply bool_decide_eq_false_1 in H
    | H : ¬ (_ ≠ _) |- _ => apply dec_stable in H
    end; simplify_eq; try done; try congruence;
    split; congruence.
Qed.

(** X18. The roles the role validator accepts are exactly the roles the
    access checks of the Student and Classroom managers grant anything to;
    a token with any other role is refused with 403 by all three
    managers. *)
Theorem role_validator_as_access_checks t :
  (Validators.role (JStr (role t)) = true
   ↔ Student._checkSchoolAccess (Some t) JUndefined = None)
  ∧ (Validators.role (JStr (role t)) = true
     ↔ Classroom._checkSchoolAccess (Some t) JUndefined = None)
  ∧ (Validators.role (JStr (role t)) = false →
     ∀ schoolId,
       Student._checkSchoolAccess (Some t) schoolId
         = Some (Error "Access denied." (Some 403))
       ∧ Classroom._checkSchoolAccess (Some t) schoolId
         = Some (Error "Access denied." (Some 403))
       ∧ School._checkSuperadminAccess (Some t) ≫= code_of = Some 403).
Proof.
  unfold Validators.role, Student._checkSchoolAccess,
    Classroom._checkSchoolAccess, School._checkSuperadminAccess. simpl.
  destruct (decide (role t = "superadmin")) as [Hs|Hs].
  { rewrite !(bool_decide_eq_true_2 _ Hs).
    rewrite bool_decide_eq_true_2 by (rewrite Hs; set_solver). done. }
  rewrite !(bool_decide_eq_false_2 _ Hs).
  destruct (decide (role t = "school_admin")) as [Ha|Ha].
  { rewrite !(bool_decide_eq_true_2 _ Ha).
    rewrite bool_decide_eq_true_2 by (rewrite Ha; set_solver). done. }
  rewrite !(bool_decide_eq_false_2 _ Ha).
  rewrite bool_decide_eq_false_2 by set_solver.
  split_and!; try done.
  intros _ _. by rewrite (bool_decide_eq_true_2 _ Hs).
Qed.

(** X19. With the students of a classroom loaded, isFull holds exactly
    when availableSeats is 0; availableSeats is never negative, and is
    capacity minus the number of students when the classroom is not
    full. *)
Theorem isFull_iff_no_available_seat {A} (students : list A) capacity :
  (ClassroomModel.isFull (Some students) capacity = true
   ↔ ClassroomModel.availableSeats (Some students) capacity = 0)
  ∧ 0 ≤ ClassroomModel.availableSeats (Some students) capacity
  ∧ (ClassroomModel.isFull (Some students) capacity = false →
     ClassroomModel.availableSeats (Some students) capacity
     = capacity - Z.of_nat (length students)).
Proof.
  unfold ClassroomModel.isFull, ClassroomModel.availableSeats.
  rewrite Z.geb_leb. split_and!.
  - rewrite Z.leb_le. lia.
  - lia.
  - intros H%Z.leb_gt. lia.
Qed.

(** X20. The age virtual is the number of birthdays passed: it is [n]
    exactly when today is not before the [n]-th birthday and is before the
    next one. *)
Theorem age_counts_birthdays today birthDate n :
  StudentModel.age today (Some birthDate) = Some n
  ↔ ¬ earlier today (birthday birthDate n)
    ∧ earlier today (birthday birthDate (n + 1)).
Proof.
  unfold StudentModel.age, earlier, birthday. simpl.
  destruct ((getMonth today - getMonth birthDate <? 0)
            || ((getMonth today - getMonth birthDate =? 0)
                && (getDate today <? getDate birthDate))) eqn:E.
  - apply orb_true_iff in E as [E%Z.ltb_lt|[E1%Z.eqb_eq E2%Z.ltb_lt]%andb_true_iff].
    all: split; [intros [= <-]; lia|intros [H1 H2]; f_equal; lia].
  - apply orb_false_iff in E as [E1%Z.ltb_ge E2].
    apply andb_false_iff in E2 as [E2%Z.eqb_neq|E2%Z.ltb_ge].
    all: split; [intros [= <-]; lia|intros [H1 H2]; f_equal; lia].
Qed.

Lemma digit_inv c n :
  Validators.digit c = Some n →
  0 ≤ n ≤ 9 ∧ c = Ascii.ascii_of_N (Z.to_N (48 + n)).
Proof.
  unfold Validators.digit. case_match eqn:E; [|done]. intros [= <-].
  apply andb_true_iff in E as [E1%Z.leb_le E2%Z.leb_le].
  split; [lia|].
  replace (Z.to_N (48 + (Z.of_N (Ascii.N_of_ascii c) - 48)))
    with (Ascii.N_of_ascii c) by lia.
  by rewrite Ascii.ascii_N_embedding.
Qed.

Lemma digit_of n :
  0 ≤ n ≤ 9 → Validators.digit (Ascii.ascii_of_N (Z.to_N (48 + n))) = Some n.
Proof.
  intros Hn. unfold Validators.digit.
  rewrite Ascii.N_ascii_embedding by lia.
  replace (Z.of_N (Z.to_N (48 + n))) with (48 + n) by lia.
  rewrite (proj2 (Z.leb_le 48 (48 + n))), (proj2 (Z.leb_le (48 + n) 57))
    by lia.
  simpl. f_equal. lia.
Qed.

(** X21. The academicYear validator accepts exactly the strings
    YYYY-YYYY made of a year written with four digits and the year after
    it. *)
Theorem academicYear_accepts_consecutive_years data :
  Validators.academicYear (JStr data) = true
  ↔ ∃ y, 0 ≤ y < 9999
         ∧ data = four_digits y ++ "-" ++ four_digits (y + 1).
Proof.
  split.
  - unfold Validators.academicYear, Validators.match_years.
    repeat (case_match; try done); simplify_eq.
    intros Hy%bool_decide_eq_true_1.
    match goal with
    | H : _ && _ && _ = true |- _ =>
        apply andb_true_iff in H as [[Hd1 Hsep%bool_decide_eq_true_1]%andb_true_iff Hd2]
    end.
    injection Hsep as ->.
    simpl in Hd1, Hd2.
    repeat match goal with
    | H : _ && _ = true |- _ => apply andb_true_iff in H as [? ?]
    | H : bool_decide (is_Some _) = true |- _ =>
        apply bool_decide_eq_true_1 in H as [? H]
    end.
    unfold Validators.parseInt in *. simpl in *.
    repeat match goal with
    | H : Validators.digit ?c = Some _ |- _ =>
        rewrite !H in *; apply digit_inv in H as [? ->]
    end.
    rewrite !bool_decide_eq_true_2 in * by done. simplify_eq/=.
    match goal with
    | H : _ = ?e + 1 |- _ => exists e; rename H into Hnext
    end.
    split; [lia|]. unfold four_digits.
    repeat match goal with
    | |- context [Z.to_N (48 + ?e `mod` 10)] =>
        let d := fresh "d" in
        let Hd := fresh "Hd" in
        remember (e `mod` 10) as d eqn:Hd;
        first [ assert (d = x6) as -> by (subst d; Z.div_mod_to_equations; lia)
              | assert (d = x5) as -> by (subst d; Z.div_mod_to_equations; lia)
              | assert (d = x4) as -> by (subst d; Z.div_mod_to_equations; lia)
              | assert (d = x3) as -> by (subst d; Z.div_mod_to_equations; lia)
              | assert (d = x2) as -> by (subst d; Z.div_mod_to_equations; lia)
              | assert (d = x1) as -> by (subst d; Z.div_mod_to_equations; lia)
              | assert (d = x0) as -> by (subst d; Z.div_mod_to_equations; lia)
              | assert (d = x) as -> by (subst d; Z.div_mod_to_equations; lia) ];
        clear Hd
    end.
    done.
  - intros (y & Hy & ->).
    unfold four_digits, Validators.academicYear. simpl.
    assert (∀ k, 0 ≤ k `mod` 10 ≤ 9) as Hm
      by (intros k; pose proof (Z.mod_pos_bound k 10); lia).
    rewrite !digit_of by done. simpl.
    unfold Validators.parseInt. simpl.
    rewrite !digit_of by done. simpl.
    apply bool_decide_eq_true_2.
    Z.div_mod_to_equations. lia.
Qed.

(** ** The further properties on the sample runs *)

Section FurtherWitnesses.
Import Scenario Reenrolment.

(** X1 at the enrolment of A in Room 1. *)
Lemma createStudent_takes_one_seat_witness :
  is_error (reply (dispatch plain db3 enrol_A root)) = false
  ∧ ∃ classroom,
      findById (classrooms db4) (JStr "C1") = Some classroom
      ∧ Student.activeInClassroom db3 (JStr "C1") < cls_capacity classroom
      ∧ Student.activeInClassroom db4 (JStr "C1")
        = Student.activeInClassroom db3 (JStr "C1") + 1.
Proof.
  assert (Student.createStudent plain (at_id "A") db3 (JStr "X") (JStr "C1")
            (pupil "A") root
          = Returns (reply (dispatch plain db3 enrol_A root)) db4) as Hcall
    by (vm_compute; reflexivity).
  assert (is_error (reply (dispatch plain db3 enrol_A root)) = false) as Hok
    by (vm_compute; reflexivity).
  destruct (createStudent_takes_one_seat plain _ _ _ _ _ _ _ _ Hcall Hok)
    as [_ Hroom].
  split; [assumption|]. exact (Hroom eq_refl).
Defined.

(** X2 at the unenrolment of A. *)
Lemma deleteStudent_frees_seat_witness :
  ∃ student,
    findById (students db4) (JStr "A") = Some student
    ∧ Student.activeInClassroom db5 (JStr "C1")
      = Student.activeInClassroom db4 (JStr "C1")
        - (if ref_matches (stu_classroomId student) (JStr "C1")
           then 1 else 0).
Proof.
  assert (∃ student, findById (students db4) (JStr "A") = Some student)
    as [student Hfind] by (eexists; vm_compute; reflexivity).
  assert (Student.deleteStudent db4 (JStr "A") root
          = Returns (reply (dispatch plain db4 (DeleteStudent (JStr "A")) root))
              db5) as Hcall
    by (vm_compute; reflexivity).
  assert (is_error (reply (dispatch plain db4 (DeleteStudent (JStr "A")) root))
          = false) as Hok
    by (vm_compute; reflexivity).
  exists student. split; [exact Hfind|].
  exact (deleteStudent_frees_seat db4 (JStr "A") root _ db5 student
           Hfind Hcall Hok (JStr "C1")).
Defined.

(** X3 at the transfer of A to school Y: A leaves Room 1. *)
Lemma transferStudent_moves_one_seat_witness :
  ∃ student,
    findById (students db4) (JStr "A") = Some student
    ∧ Student.activeInClassroom db6 (JStr "C1")
      = Student.activeInClassroom db4 (JStr "C1")
        - (if ref_matches (stu_classroomId student) (JStr "C1")
           then 1 else 0)
        + (if ref_matches (toString_or_null JUndefined) (JStr "C1")
           then 1 else 0).
Proof.
  assert (∃ student, findById (students db4) (JStr "A") = Some student)
    as [student Hfind] by (eexists; vm_compute; reflexivity).
  assert (Student.transferStudent (at_id "") db4 (JStr "A") (JStr "Y")
            JUndefined (JStr "Family relocation") root
          = Returns (reply (dispatch plain db4 move_A root)) db6) as Hcall
    by (vm_compute; reflexivity).
  assert (is_error (reply (dispatch plain db4 move_A root)) = false) as Hok
    by (vm_compute; reflexivity).
  exists student. split; [exact Hfind|].
  exact (proj1 (transferStudent_moves_one_seat (at_id "") db4 (JStr "A")
                  (JStr "Y") JUndefined (JStr "Family relocation") root _ db6
                  student Hfind Hcall Hok) (JStr "C1")).
Defined.

(** X4 at the deactivation of A through updateStudent. *)
Lemma updateStudent_seats_witness :
  ∃ student student',
    findById (students db4) (JStr "A") = Some student
    ∧ students db9 !! "A" = Some student'
    ∧ Student.activeInClassroom db9 (JStr "C1")
      = Student.activeInClassroom db4 (JStr "C1")
        - (if ref_matches (stu_classroomId student) (JStr "C1")
              && stu_isActive student then 1 else 0)
        + (if ref_matches (stu_classroomId student') (JStr "C1")
              && stu_isActive student' then 1 else 0).
Proof.
  assert (∃ student, findById (students db4) (JStr "A") = Some student)
    as [student Hfind] by (eexists; vm_compute; reflexivity).
  assert (Student.updateStudent db4 (JStr "A") no_student_change JUndefined
            (Some false) (Some (admin_of "X"))
          = Returns (reply (dispatch plain db4 deactivate_A
                              (Some (admin_of "X")))) db9) as Hcall
    by (vm_compute; reflexivity).
  assert (is_error (reply (dispatch plain db4 deactivate_A
                             (Some (admin_of "X")))) = false) as Hok
    by (vm_compute; reflexivity).
  destruct (updateStudent_seats db4 (JStr "A") no_student_change JUndefined
              (Some false) (Some (admin_of "X")) _ db9 student
              Hfind Hcall Hok) as (student' & Hlook & Hcount & _).
  exists student, student'. split_and!; [exact Hfind|exact Hlook|].
  apply Hcount.
Defined.

(** X5: B has the one seat of Room 1 and A, inactive, still refers to the
    room; reactivating A gives the room two active students. *)
Lemma reactivation_skips_capacity_check_witness :
  Student.activeInClassroom db10 (JObjectId "C1") = 1
  ∧ (cls_capacity <$> classrooms db10 !! "C1") = Some 1
  ∧ ∃ r st',
      Student.updateStudent db10 (JStr "A") no_student_change JUndefined
        (Some true) (Some (admin_of "X")) = Returns r st'
      ∧ is_error r = false
      ∧ Student.activeInClassroom st' (JObjectId "C1")
        = Student.activeInClassroom db10 (JObjectId "C1") + 1.
Proof.
  split; [vm_compute; reflexivity|]. split; [vm_compute; reflexivity|].
  assert (∃ student,
            findById (students db10) (JStr "A") = Some student
            ∧ Student._checkSchoolAccess (Some (admin_of "X"))
                (JObjectId (stu_schoolId student)) = None
            ∧ stu_isActive student = false
            ∧ stu_classroomId student = Some "C1")
    as (student & Hfind & Hacc & Hinactive & Hroom)
    by (eexists; split_and!; vm_compute; reflexivity).
  assert (Some (admin_of "X") ≠ None) as Htoken by discriminate.
  exact (reactivation_skips_capacity_check db10 (JStr "A")
           (Some (admin_of "X")) student "C1" Htoken eq_refl Hfind Hacc
           Hinactive Hroom).
Defined.

(** X6 at the enrolment of A in Room 1, which has one seat. *)
Lemma classroom_stays_within_capacity_witness :
  reactivates enrol_A = false
  ∧ ∃ c',
      classrooms db4 !! "C1" = Some c'
      ∧ Student.activeInClassroom db4 (JObjectId "C1") < cls_capacity c' + 1.
Proof.
  split; [reflexivity|].
  assert (dispatch plain db3 enrol_A root
          = Returns (reply (dispatch plain db3 enrol_A root)) db4) as Hcall
    by (vm_compute; reflexivity).
  assert (∃ c, classrooms db3 !! "C1" = Some c
               ∧ Student.activeInClassroom db3 (JObjectId "C1")
                 < cls_capacity c + 1) as (c & Hc & Hlt)
    by (eexists; split; vm_compute; reflexivity).
  assert (∃ c', classrooms db4 !! "C1" = Some c') as [c' Hc']
    by (eexists; vm_compute; reflexivity).
  exists c'. split; [exact Hc'|].
  exact (classroom_stays_within_capacity plain db3 enrol_A root _ db4 "C1"
           c c' Hcall eq_refl Hc Hlt Hc').
Defined.

(** X8 at the transfer of A to school Y. *)
Lemma history_grows_only_by_transfer_witness :
  ∃ s s',
    students db4 !! "A" = Some s
    ∧ students db6 !! "A" = Some s'
    ∧ (stu_transferHistory s' = stu_transferHistory s
       ∨ ∃ w studentId toSchoolId toClassroomId reason entry,
           move_A = TransferStudent w studentId toSchoolId toClassroomId
                      reason
           ∧ "A" = toString studentId
           ∧ is_error (reply (dispatch plain db4 move_A root)) = false
           ∧ stu_transferHistory s'
             = (stu_transferHistory s ++ [entry])%list
           ∧ fromSchool entry = stu_schoolId s
           ∧ toSchool entry = stu_schoolId s').
Proof.
  assert (dispatch plain db4 move_A root
          = Returns (reply (dispatch plain db4 move_A root)) db6) as Hcall
    by (vm_compute; reflexivity).
  assert (∃ s, students db4 !! "A" = Some s) as [s Hs]
    by (eexists; vm_compute; reflexivity).
  assert (∃ s', students db6 !! "A" = Some s') as [s' Hs']
    by (eexists; vm_compute; reflexivity).
  exists s, s'. split_and!; [exact Hs|exact Hs'|].
  exact (history_grows_only_by_transfer plain db4 move_A root _ db6 "A" s s'
           Hcall Hs Hs').
Defined.

(** X9 at the creation of school Y. *)
Lemma schools_written_only_by_superadmin_witness :
  schools db2 ≠ schools db1
  ∧ ∃ t, root = Some t ∧ role t = "superadmin".
Proof.
  assert (schools db2 ≠ schools db1) as Hne.
  { intros Heq.
    assert (schools db2 !! "Y" = schools db1 !! "Y") as Hy by (by rewrite Heq).
    vm_compute in Hy. discriminate. }
  assert (dispatch plain db1
            (CreateSchool (at_id "Y") (school_named "Franklin HS")) root
          = Returns
              (reply (dispatch plain db1
                        (CreateSchool (at_id "Y") (school_named "Franklin HS"))
                        root)) db2) as Hcall
    by (vm_compute; reflexivity).
  split; [exact Hne|].
  exact (schools_written_only_by_superadmin plain db1 _ root _ db2 Hcall Hne).
Defined.

(** X10 at the deactivation of A by the administrator of school X. *)
Lemma school_admin_confined_witness :
  role (admin_of "X") = "school_admin"
  ∧ schools db9 = schools db4
  ∧ ∀ i, students db9 !! i ≠ students db4 !! i →
      ∃ new, students db9 !! i = Some new ∧ stu_schoolId new = "X".
Proof.
  assert (dispatch plain db4 deactivate_A (Some (admin_of "X"))
          = Returns (reply (dispatch plain db4 deactivate_A
                              (Some (admin_of "X")))) db9) as Hcall
    by (vm_compute; reflexivity).
  destruct (school_admin_confined plain db4 deactivate_A (admin_of "X") _ db9
              eq_refl Hcall) as (Hschools & _ & Hstudents).
  split_and!; [reflexivity|exact Hschools|].
  intros i Hi. exact (proj2 (Hstudents i Hi)).
Defined.

(** X11: the administrator of school X lists the students and names
    school Y. *)
Lemma school_admin_reads_own_school_witness :
  role (admin_of "X") = "school_admin"
  ∧ answers_within "X"
      (reply (dispatch plain db4 list_Y (Some (admin_of "X")))).
Proof.
  assert (dispatch plain db4 list_Y (Some (admin_of "X"))
          = Returns (reply (dispatch plain db4 list_Y (Some (admin_of "X"))))
              db4) as Hcall
    by (vm_compute; reflexivity).
  split; [reflexivity|].
  exact (school_admin_reads_own_school plain db4 list_Y (admin_of "X") _ db4
           eq_refl Hcall).
Defined.

(** X14: the administrator of school X lists the students; there is one. *)
Lemma list_endpoints_page_size_witness :
  ∃ n info,
    listing (reply (dispatch plain db4 list_Y (Some (admin_of "X"))))
      = Some (n, info)
    ∧ page info * limit info < 2 ^ 53
    ∧ page info = 1 ∧ limit info = 10 ∧ total info = 1
    ∧ Z.of_nat n
      = Z.min (limit info)
          (Z.max 0 (total info - (page info - 1) * limit info)).
Proof.
  assert (dispatch plain db4 list_Y (Some (admin_of "X"))
          = Returns (reply (dispatch plain db4 list_Y (Some (admin_of "X"))))
              db4) as Hcall
    by (vm_compute; reflexivity).
  assert (∃ n info,
            listing (reply (dispatch plain db4 list_Y (Some (admin_of "X"))))
              = Some (n, info)
            ∧ page info * limit info < 2 ^ 53
            ∧ page info = 1 ∧ limit info = 10 ∧ total info = 1)
    as (n & info & Hlisting & Hrange & Hpage & Hlimit & Htotal).
  { eexists _, _. split; [vm_compute; reflexivity|].
    split_and!; vm_compute; reflexivity. }
  exists n, info. split_and!; try assumption.
  exact (proj2 (proj2 (proj2
           (list_endpoints_page_size plain db4 list_Y (Some (admin_of "X")) _
              db4 n info Hcall Hlisting Hrange)))).
Defined.

(** X12: Room 1 after A has been unenrolled. *)
Lemma deleteClassroom_succeeds_iff_empty_witness :
  truthy (JStr "C1") = true
  ∧ (succeeded (Classroom.deleteClassroom db5 (JStr "C1") root) = true
     ↔ ∀ i student, students db5 !! i = Some student →
         stu_classroomId student = Some "C1" →
         stu_isActive student = false).
Proof.
  assert (∃ classroom,
            findById (classrooms db5) (JStr "C1") = Some classroom
            ∧ Classroom._checkSchoolAccess root
                (JObjectId (cls_schoolId classroom)) = None
            ∧ cls_isActive classroom = true)
    as (classroom & Hfind & Hacc & Hactive)
    by (eexists; split_and!; vm_compute; reflexivity).
  assert (root ≠ None) as Htoken by discriminate.
  split; [reflexivity|].
  exact (deleteClassroom_succeeds_iff_empty db5 (JStr "C1") root classroom
           Htoken eq_refl Hfind Hacc Hactive).
Defined.

(** X13: school Y, which has neither classroom nor student. *)
Lemma deleteSchool_succeeds_iff_childless_witness :
  School._checkSuperadminAccess root = None
  ∧ (succeeded (School.deleteSchool db7 (JStr "Y") root) = true
     ↔ (∀ i classroom, classrooms db7 !! i = Some classroom →
          cls_schoolId classroom = "Y" → cls_isActive classroom = false)
       ∧ (∀ i student, students db7 !! i = Some student →
            stu_schoolId student = "Y" → stu_isActive student = false)).
Proof.
  assert (∃ school,
            findById (schools db7) (JStr "Y") = Some school
            ∧ sch_isActive school = true)
    as (school & Hfind & Hactive)
    by (eexists; split; vm_compute; reflexivity).
  assert (School._checkSuperadminAccess root = None) as Hacc
    by (vm_compute; reflexivity).
  split; [exact Hacc|].
  exact (deleteSchool_succeeds_iff_childless db7 (JStr "Y") root school
           Hacc eq_refl Hfind Hactive).
Defined.

(** X17: the administrator of school X sends a request that names no
    school. *)
Lemma schoolAccess_scopes_school_admin_witness :
  role (admin_of "X") = "school_admin"
  ∧ Mws.__schoolAccess (Some (admin_of "X")) JUndefined JUndefined JUndefined
    = (Next (admin_of "X"), JStr "X")
  ∧ toString_or_null (requested_school JUndefined (JStr "X") JUndefined)
    = toString_or_null
        (Student._getEffectiveSchoolId (Some (admin_of "X")) JUndefined).
Proof.
  assert (Mws.__schoolAccess (Some (admin_of "X")) JUndefined JUndefined
            JUndefined = (Next (admin_of "X"), JStr "X")) as Hnext
    by (vm_compute; reflexivity).
  split_and!; [reflexivity|exact Hnext|].
  exact (proj2 (schoolAccess_scopes_school_admin (admin_of "X") JUndefined
                  JUndefined JUndefined (admin_of "X") (JStr "X")
                  eq_refl Hnext)).
Defined.

End FurtherWitnesses.
